(** * Hybrid career recommender: a shallow embedding of [model/model.py]
    (and of the legacy [sbert_recommend] of [app.py]).

    Conventions of the embedding.
    - A Python [float] is a real number of the Standard Library ([R]):
      arithmetic is exact, there is no NaN, no infinity and no rounding
      error.  Comparisons on floats are the decidable comparisons of [R].
    - A Python [int] is a [Z]; a [str] is a [string] (bytes; [lower] acts on
      the ASCII letters).
    - A JSON object / [dict] is an association list in insertion order.
    - The text-embedding model (sentence_transformers) is external: its
      [encode] and [cos_sim] are parameters.  The process-wide caches are
      taken as populated; the text that a request hands to [encode] is
      recorded in a trace.
    - An exception is a [Raise] result. *)

From Stdlib Require Import Reals Lra Lia ZArith List String Ascii Bool.
From Stdlib Require Import Sorting.Sorted Sorting.Permutation.
From Stdlib Require Import DecimalString.
Import ListNotations.

Open Scope R_scope.

(* ===================================================================== *)
(** * Python built-ins used by the program *)
(* ===================================================================== *)

Module Py.

(** Exceptions that the modelled code can raise. *)
Inductive exn : Type :=
| TypeError
| ValueError
| ZeroDivisionError.

Inductive result (A : Type) : Type :=
| Ok (a : A)
| Raise (e : exn).

Arguments Ok {A} a.
Arguments Raise {A} e.

(** Values decoded from JSON (what the web layer hands to the recommender). *)
#[local] Unset Elimination Schemes.
Inductive pyval : Type :=
| PyNone
| PyBool (b : bool)
| PyInt (z : Z)
| PyFloat (r : R)
| PyStr (s : string)
| PyList (l : list pyval)
| PyDict (d : list (string * pyval)).
#[local] Set Elimination Schemes.

Definition pydict : Type := list (string * pyval).

(** Truthiness, as used by [x or y] and [if not x]. *)
Definition truthy (v : pyval) : bool :=
  match v with
  | PyNone => false
  | PyBool b => b
  | PyInt z => negb (z =? 0)%Z
  | PyFloat r => if Req_dec_T r 0 then false else true
  | PyStr s => negb (String.eqb s EmptyString)
  | PyList l => match l with [] => false | _ => true end
  | PyDict d => match d with [] => false | _ => true end
  end.

(** [a or b] on optional values ([dict.get] returns [None] when absent). *)
Definition py_or (a b : pyval) : pyval := if truthy a then a else b.

Fixpoint dict_get {V : Type} (d : list (string * V)) (k : string) : option V :=
  match d with
  | [] => None
  | (k', v) :: d' => if String.eqb k' k then Some v else dict_get d' k
  end.

(** [d[k] = v]: an existing key keeps its position, a new key goes last. *)
Fixpoint dict_set {V : Type} (d : list (string * V)) (k : string) (v : V)
  : list (string * V) :=
  match d with
  | [] => [(k, v)]
  | (k', v') :: d' =>
      if String.eqb k' k then (k', v) :: d' else (k', v') :: dict_set d' k v
  end.

(** [d.get(k)] with the implicit default [None]. *)
Definition get_or_none (d : pydict) (k : string) : pyval :=
  match dict_get d k with Some v => v | None => PyNone end.

Section Float.

(** [float(s)] on a string parses Python's float grammar; the parser is a
    built-in, taken as a parameter. *)
Variable str_to_float : string -> option R.

(** [float(v)]. *)
Definition float_of (v : pyval) : result R :=
  match v with
  | PyNone => Raise TypeError
  | PyBool b => Ok (if b then 1 else 0)
  | PyInt z => Ok (IZR z)
  | PyFloat r => Ok r
  | PyStr s => match str_to_float s with
               | Some r => Ok r
               | None => Raise ValueError
               end
  | PyList _ => Raise TypeError
  | PyDict _ => Raise TypeError
  end.

End Float.

(** [round(x)] of a float to an int: to nearest, ties to even. *)
Definition py_round (x : R) : Z :=
  let f := Zfloor x in
  let d := x - IZR f in
  if Rlt_dec d (1 / 2) then f
  else if Rlt_dec (1 / 2) d then (f + 1)%Z
  else if Z.even f then f else (f + 1)%Z.

(** [x ** e] for a float base [x >= 0] (the only use in the program has the
    base clamped to [0,1]): [x ** 0.0] is [1.0], [0.0 ** e] is [0.0] for
    [e > 0] and raises [ZeroDivisionError] for [e < 0]. *)
Definition float_pow (x e : R) : result R :=
  if Req_dec_T e 0 then Ok 1
  else if Req_dec_T x 0 then
         if Rlt_dec 0 e then Ok 0 else Raise ZeroDivisionError
       else Ok (Rpower x e).

(** [min(xs)] and [max(xs)] of a non-empty list of floats. *)
Definition list_min (x : R) (xs : list R) : R := fold_left Rmin xs x.
Definition list_max (x : R) (xs : list R) : R := fold_left Rmax xs x.

(** [l[:stop]] for an int [stop]: a negative [stop] counts from the end. *)
Definition slice_to {A : Type} (l : list A) (stop : Z) : list A :=
  if (stop <? 0)%Z
  then firstn (Z.to_nat (Z.max 0 (Z.of_nat (List.length l) + stop))) l
  else firstn (Z.to_nat stop) l.

Section Sort.

Context {A : Type}.
Variable key : A -> Z.

(** [l.sort(key=key, reverse=True)].  [list.sort] is a built-in; it is
    documented to be stable, and to stay stable under [reverse=True]:
    elements with equal keys keep their original order.  It is modelled by
    a stable insertion sort into descending key order: an element goes in
    front of the first one whose key is not larger. *)
Fixpoint insert_desc (x : A) (l : list A) : list A :=
  match l with
  | [] => [x]
  | y :: l' =>
      if (key y <=? key x)%Z then x :: y :: l'
      else y :: insert_desc x l'
  end.

Fixpoint sort_desc (l : list A) : list A :=
  match l with
  | [] => []
  | x :: l' => insert_desc x (sort_desc l')
  end.

End Sort.

(** [enumerate(l, start)]. *)
Fixpoint enumerate_from {A : Type} (start : nat) (l : list A)
  : list (nat * A) :=
  match l with
  | [] => []
  | x :: l' => (start, x) :: enumerate_from (S start) l'
  end.

(** ** Strings *)

Definition lower_ascii (c : ascii) : ascii :=
  let n := nat_of_ascii c in
  if ((65 <=? n) && (n <=? 90))%nat then ascii_of_nat (n + 32) else c.

(** [s.lower()]. *)
Fixpoint lower (s : string) : string :=
  match s with
  | EmptyString => EmptyString
  | String c s' => String (lower_ascii c) (lower s')
  end.

(** [needle in hay] on strings: substring search. *)
Fixpoint contains (needle hay : string) : bool :=
  if String.prefix needle hay then true
  else match hay with
       | EmptyString => false
       | String _ hay' => contains needle hay'
       end.

(** White space, as [str.strip()] sees it (ASCII part). *)
Definition is_space (c : ascii) : bool :=
  let n := nat_of_ascii c in
  (((9 <=? n) && (n <=? 13)) || ((28 <=? n) && (n <=? 32)))%nat.

Fixpoint lstrip (s : string) : string :=
  match s with
  | EmptyString => EmptyString
  | String c s' => if is_space c then lstrip s' else s
  end.

Fixpoint rstrip (s : string) : string :=
  match s with
  | EmptyString => EmptyString
  | String c s' =>
      match rstrip s' with
      | EmptyString => if is_space c then EmptyString else String c EmptyString
      | r => String c r
      end
  end.

(** [s.strip()]. *)
Definition strip (s : string) : string := rstrip (lstrip s).

(** [sep.join(parts)]. *)
Definition join (sep : string) (parts : list string) : string :=
  String.concat sep parts.

(** [round(x, n)] of a float to [n] decimals (a float again). *)
Definition py_round_digits (x : R) (n : nat) : R :=
  IZR (py_round (x * 10 ^ n)) / 10 ^ n.

End Py.

(* ===================================================================== *)
(** * model/model.py *)
(* ===================================================================== *)

Module Model.

Import Py.

Open Scope string_scope.

(** Label thresholds on [final_score] (0-100). *)
Definition LABELS : list (Z * string) :=
  [ (80%Z, "Excellent match");
    (60%Z, "Great match");
    (40%Z, "Good match");
    (20%Z, "Fair match");
    (0%Z,  "Low match") ].

(** Traits -> keywords that detect the trait in a career's text. *)
Definition TRAIT_KEYWORDS : list (string * list string) :=
  [ ("Analytical",
     ["analysis"; "analyze"; "analytical"; "data"; "statistics";
      "research"; "modeling"]);
    ("Logical",
     ["logic"; "logical"; "reasoning"; "patterns"; "algorithm";
      "deductive"; "pattern"]);
    ("Technical",
     ["programming"; "software"; "engineer"; "technology"; "technical";
      "coding"; "developer"; "it"]);
    ("Practical",
     ["hands-on"; "practical"; "mechanical"; "craft"; "field";
      "construction"; "repair"; "technician"]);
    ("Social",
     ["communication"; "community"; "counseling"; "social"; "customer";
      "service"; "people"]);
    ("Leadership",
     ["manage"; "manager"; "lead"; "leadership"; "coordinate";
      "supervise"; "director"]);
    ("Creative",
     ["design"; "creative"; "art"; "visual"; "writer"; "content";
      "innovation"]) ].

(** Subjects -> keywords matched against a career's text. *)
Definition SUBJECT_KEYWORDS : list (string * list string) :=
  [ ("math", ["math"; "mathematics"; "calculus"; "algebra"; "statistics"]);
    ("physics",
     ["physics"; "mechanics"; "thermodynamics"; "electromagnetics"]);
    ("chemistry", ["chemistry"; "chemical"; "biochemistry"; "organic"]);
    ("biology", ["biology"; "biological"; "life science"; "microbiology"]);
    ("computer",
     ["computer"; "programming"; "computer science"; "cs"; "software";
      "coding"]);
    ("english",
     ["communication"; "writing"; "english"; "language"; "literature"]);
    ("science", ["science"]);
    ("social", ["history"; "geography"; "political"; "economics"; "social"]) ].

(** A career of the loaded corpus, with the fields the loader guarantees.
    The enrichment texts of a career (explanation, industry, future scope,
    salary, subjects) take no part in any score; a result row carries its
    career along, which stands for the fields copied from it. *)
Record career : Type := {
  career_id : string;
  title : string;
  description : string;
  skills_required : list string;
  path : list string
}.

(** One row of the result of [recommend]. *)
Record rec : Type := {
  rec_career : career;
  similarity : R;
  sbert_norm : R;
  trait_score : R;
  marks_score : R;
  final_score : Z;
  match_label : string
}.

Close Scope string_scope.

(** ** Pure helpers *)

(** Number of the keywords [kws] found in [text] ([kw.lower() in text]). *)
Definition count_found (kws : list string) (text : string) : nat :=
  List.length (filter (fun kw => contains (lower kw) text) kws).

(** [_keyword_fraction_for_trait]. *)
Definition _keyword_fraction_for_trait (trait career_text : string) : R :=
  let keywords :=
    match dict_get TRAIT_KEYWORDS trait with Some k => k | None => [] end in
  match keywords with
  | [] => 0
  | _ =>
      let text := lower career_text in
      INR (count_found keywords text) / INR (Nat.max 1 (List.length keywords))
  end.

(** Line 239: the weight of a trait, from its score coerced to a float. *)
Definition trait_norm (raw_val : R) : R := Rmax 0 (Rmin 10 raw_val) / 10.

(** [_scale_sims_to_0_1]. *)
Definition _scale_sims_to_0_1 (sims_list : list R) : list R :=
  match sims_list with
  | [] => []
  | x :: xs =>
      let s_min := list_min x xs in
      let s_max := list_max x xs in
      let span := s_max - s_min in
      if Rlt_dec 1e-9 span
      then map (fun s => (s - s_min) / span) sims_list
      else map (fun s => Rmax 0 (Rmin 1 (if Rlt_dec 0 0.6 then s / 0.6 else 0)))
               sims_list
  end.

(** Lines 408-413: label selection, the first threshold reached. *)
Fixpoint walk_labels (table : list (Z * string)) (final_score : Z)
  (label : string) : string :=
  match table with
  | [] => label
  | (thresh, lab) :: table' =>
      if (thresh <=? final_score)%Z then lab
      else walk_labels table' final_score label
  end.

Definition select_label (final_score : Z) : string :=
  walk_labels LABELS final_score "Low match"%string.

(** Lines 400-404: clamp, then the uplift exponent; a failing power leaves
    the clamped value as it is ([except Exception: pass]). *)
Definition uplift (exponent final_norm : R) : R :=
  let final_norm := Rmax 0 (Rmin 1 final_norm) in
  match float_pow final_norm exponent with
  | Ok p => p
  | Raise _ => final_norm
  end.

(** Lines 400-406: from the combined score to [final_score]. *)
Definition final_score_of (exponent final_norm : R) : Z :=
  py_round (Rmax 0 (Rmin 1 (uplift exponent final_norm)) * 100).

(** Lines 393-397: the weighted combination of the three signals. *)
Definition combine (weight_sbert weight_trait weight_marks : R)
  (s_norm trait_score marks_score : R) : R :=
  weight_sbert * s_norm + weight_trait * trait_score
  + weight_marks * marks_score.

(** The searchable text of a career, as both scorers build it. *)
Definition career_words (c : career) : string :=
  join " " [ title c; description c;
             join " " (skills_required c); join " " (path c) ].

(** ** Marks alignment *)

Section Marks.

Variable str_to_float : string -> option R.

(** Lines 285-291: one level's subject scores merged into [subj_scores]. *)
Fixpoint merge_level (lvl : pydict) (subj_scores : list (string * R))
  : list (string * R) :=
  match lvl with
  | [] => subj_scores
  | (k, v) :: lvl' =>
      let key := lower k in
      match float_of str_to_float v with
      | Raise _ => merge_level lvl' subj_scores
      | Ok subj_score =>
          let old := match dict_get subj_scores key with
                     | Some o => o
                     | None => 0
                     end in
          merge_level lvl' (dict_set subj_scores key (Rmax old subj_score))
      end
  end.

(** Line 283: [marks.get(level) or marks.get(level[:2]) or {}]. *)
Definition level_of (marks : pydict) (level : string) : pyval :=
  py_or (py_or (get_or_none marks level)
               (get_or_none marks (substring 0 2 level)))
        (PyDict []).

(** Lines 281-291: the flattening of the marks over the two levels. *)
Fixpoint flatten_levels (marks : pydict) (levels : list string)
  (subj_scores : list (string * R)) : list (string * R) :=
  match levels with
  | [] => subj_scores
  | level :: levels' =>
      let lvl := level_of marks level in
      match lvl with
      | PyDict d => flatten_levels marks levels' (merge_level d subj_scores)
      | _ => flatten_levels marks levels' subj_scores
      end
  end.

Definition flatten_marks (marks : pydict) : list (string * R) :=
  flatten_levels marks ["twelfth"; "tenth"]%string [].

(** Lines 296-309: the weighted sum over the flattened subjects. *)
Fixpoint marks_loop (text : string) (subj_scores : list (string * R))
  (total_weight match_accum : R) : R * R :=
  match subj_scores with
  | [] => (total_weight, match_accum)
  | (subj, val) :: rest =>
      let matched_kw_list :=
        match dict_get SUBJECT_KEYWORDS subj with
        | Some (kw :: kws) => kw :: kws
        | _ => [subj]
        end in
      let found := count_found matched_kw_list text in
      let frac := INR found / INR (Nat.max 1 (List.length matched_kw_list)) in
      let importance := Rmax 0 (Rmin 100 val) / 100 in
      marks_loop text rest (total_weight + importance)
                 (match_accum + importance * frac)
  end.

(** [_marks_alignment_score]. *)
Definition _marks_alignment_score (marks : pyval) (c : career) : R :=
  match marks with
  | PyDict [] => 0
  | PyDict m =>
      let text := lower (career_words c) in
      match flatten_marks m with
      | [] => 0
      | subj_scores =>
          let '(total_weight, match_accum) :=
            marks_loop text subj_scores 0 0 in
          if Rle_dec total_weight 0 then 0
          else match_accum / total_weight
      end
  | _ => 0
  end.

End Marks.

(** ** The engine: trait alignment and [recommend] *)

(** The texts handed to the embedding model ([model.encode]) while a request
    is served, in call order.  The process-wide caches (corpus embeddings,
    trait embeddings) are taken as populated, so their one-time calls are not
    part of a request's trace. *)
Definition traced (A : Type) : Type := (A * list string)%type.

Section Engine.

Variable vec : Type.
(** [model.encode(text, convert_to_tensor=True)]. *)
Variable encode : string -> vec.
(** [util.cos_sim(a, b)] of two embeddings, as a float. *)
Variable cos_sim : vec -> vec -> R.
Variable str_to_float : string -> option R.
(** Configuration: [FINAL_UPLIFT_EXP]. *)
Variable FINAL_UPLIFT_EXP : R.

(** What [_load_careers_and_embeddings] returns (the cached corpus). *)
Record corpus : Type := {
  career_list : list career;
  career_texts : list string;
  career_embeddings : list vec
}.

Definition model_encode (text : string) : traced vec :=
  (encode text, [text]).

(** [_get_trait_embeddings] (the cached value). *)
Definition _get_trait_embeddings : list (string * vec) :=
  map (fun '(trait, keywords) =>
         let text := join " " keywords in
         (trait, encode (if String.eqb text "" then trait else text)))
      TRAIT_KEYWORDS.

(** [_cosine_similarities]: the list of raw similarities. *)
Definition _cosine_similarities (C : corpus) (profile_text : string)
  : traced (list R) :=
  let '(user_emb, calls) := model_encode profile_text in
  (map (cos_sim user_emb) (career_embeddings C), calls).

Definition has_key {V : Type} (d : list (string * V)) (k : string) : bool :=
  match dict_get d k with Some _ => true | None => false end.

(** Lines 245-253: the embedding relevance of one trait. *)
Definition emb_sim_of (trait_embs : list (string * vec))
  (career_emb : option vec) (trait : string) : R :=
  match career_emb with
  | Some ce =>
      match dict_get trait_embs trait with
      | Some trait_emb =>
          let sim := cos_sim trait_emb ce in
          Rmax 0 (Rmin 1 ((sim + 1) / 2))
      | None => 0
      end
  | None => 0
  end.

(** Lines 236-258: the loop over the trait scores.  [float(raw_val)] is
    not guarded: its exception leaves the function. *)
Fixpoint trait_loop (text : string) (trait_embs : list (string * vec))
  (career_emb : option vec) (items : pydict) (total_weight accum : R)
  : result (R * R) :=
  match items with
  | [] => Ok (total_weight, accum)
  | (trait, raw_val) :: items' =>
      if negb (has_key TRAIT_KEYWORDS trait)
         && negb (has_key trait_embs trait)
      then trait_loop text trait_embs career_emb items' total_weight accum
      else
        match float_of str_to_float raw_val with
        | Raise e => Raise e
        | Ok f =>
            let trait_norm := trait_norm f in
            if Rle_dec trait_norm 0
            then trait_loop text trait_embs career_emb items'
                            total_weight accum
            else
              let kw_frac := _keyword_fraction_for_trait trait text in
              let emb_sim := emb_sim_of trait_embs career_emb trait in
              let per_trait_score := Rmax kw_frac emb_sim in
              trait_loop text trait_embs career_emb items'
                         (total_weight + trait_norm)
                         (accum + trait_norm * per_trait_score)
        end
  end.

(** [_trait_alignment_score]. *)
Definition _trait_alignment_score (trait_scores : pydict) (c : career)
  (career_emb : option vec) : result R :=
  match trait_scores with
  | [] => Ok 0
  | _ =>
      let text := lower (strip (career_words c)) in
      let trait_embs := _get_trait_embeddings in
      match trait_loop text trait_embs career_emb trait_scores 0 0 with
      | Raise e => Raise e
      | Ok (total_weight, accum) =>
          if Rle_dec total_weight 0 then Ok 0
          else Ok (accum / total_weight)
      end
  end.

Section Request.

Variable C : corpus.
Variables (sims_list sims_scaled : list R).
Variable trait_scores : pydict.
Variable marks : pyval.
Variables (weight_sbert weight_trait weight_marks : R).

(** Lines 373-491: one result row per career, in corpus order. *)
Fixpoint recs_loop (i : nat) (cs : list career) : result (list rec) :=
  match cs with
  | [] => Ok []
  | c :: cs' =>
      let s_norm := nth i sims_scaled 0 in
      let career_emb := nth_error (career_embeddings C) i in
      match _trait_alignment_score trait_scores c career_emb with
      | Raise e => Raise e
      | Ok trait_score =>
          let marks_score := _marks_alignment_score str_to_float marks c in
          let final_norm :=
            combine weight_sbert weight_trait weight_marks
                    s_norm trait_score marks_score in
          let final_score := final_score_of FINAL_UPLIFT_EXP final_norm in
          let label := select_label final_score in
          let sbert_val := nth i sims_list 0 in
          let r := {| rec_career := c;
                      similarity := py_round_digits sbert_val 6;
                      sbert_norm := py_round_digits s_norm 4;
                      trait_score := py_round_digits trait_score 4;
                      marks_score := py_round_digits marks_score 4;
                      final_score := final_score;
                      match_label := label |} in
          match recs_loop (S i) cs' with
          | Raise e => Raise e
          | Ok recs => Ok (r :: recs)
          end
      end
  end.

End Request.

(** Lines 493-495: sort by [final_score], descending, and cut to [top_k]. *)
Definition rank (recs : list rec) (top_k : Z) : list rec :=
  let recs := sort_desc final_score recs in
  slice_to recs (Z.min top_k (Z.of_nat (List.length recs))).

(** [recommend]. *)
Definition recommend (C : corpus) (profile_text : string)
  (trait_scores : option pydict) (marks : pyval) (top_k : Z)
  (weight_sbert weight_trait weight_marks : R)
  : traced (result (list rec)) :=
  let '(sims_list, calls) := _cosine_similarities C profile_text in
  let sims_scaled := _scale_sims_to_0_1 sims_list in
  let trait_scores := match trait_scores with Some d => d | None => [] end in
  let marks := py_or marks (PyDict []) in
  (match recs_loop C sims_list sims_scaled trait_scores marks
                   weight_sbert weight_trait weight_marks
                   0 (career_list C) with
   | Raise e => Raise e
   | Ok recs => Ok (rank recs top_k)
   end, calls).

End Engine.

End Model.

(* ===================================================================== *)
(** * model/model.py: loading the corpus *)
(* ===================================================================== *)

Module Loader.

Import Py.

(** What can go wrong while the corpus is loaded. *)
Inductive load_exn : Type :=
| FileNotFoundError
| JSONDecodeError
| AttributeError
| RuntimeError
| Builtin (e : exn).

Inductive load_result (A : Type) : Type :=
| Loaded (a : A)
| Failed (e : load_exn).

Arguments Loaded {A} a.
Arguments Failed {A} e.

(** [d.setdefault(k, v)]: a present key keeps its value. *)
Definition setdefault (d : pydict) (k : string) (v : pyval) : pydict :=
  if Model.has_key d k then d else dict_set d k v.

(** [d.get(k, default)]. *)
Definition get_default (d : pydict) (k : string) (default : pyval) : pyval :=
  match dict_get d k with Some v => v | None => default end.

(** The formatted string [career_{i}]. *)
Definition career_n (i : nat) : string :=
  "career_" ++ NilEmpty.string_of_uint (Nat.to_uint i).

Section Load.

Variable vec : Type.
(** The embedding model; a batch is encoded text by text. *)
Variable encode : string -> vec.
(** [str(v)] of a value that is not a string. *)
Variable py_repr : pyval -> string.
(** Configuration: [CAREERS_JSON]. *)
Variable CAREERS_JSON : string.
(** [os.path.exists]. *)
Variable path_exists : string -> bool.
(** [open] and [json.load]; [None] when the content is not JSON. *)
Variable json_load : string -> option pyval.

(** [str(v)]. *)
Definition py_str (v : pyval) : string :=
  match v with PyStr s => s | _ => py_repr v end.

(** Lines 109-118: a mapping of identifiers to records, as a list. *)
Fixpoint entries_of_mapping (items : pydict) : list pyval :=
  match items with
  | [] => []
  | (k, v) :: items' =>
      match v with
      | PyDict d =>
          let entry := d in
          let entry := setdefault entry "career_id" (PyStr k) in
          let entry := setdefault entry "title" (PyStr k) in
          PyDict entry
      | _ => PyDict [("career_id"%string, PyStr k);
                     ("title"%string, PyStr (py_str v))]
      end :: entries_of_mapping items'
  end.

(** Lines 104-118: the three accepted shapes.  A value that is neither a
    mapping nor a list has no [items]. *)
Definition normalize_shape (careers_raw : pyval) : load_result pyval :=
  match careers_raw with
  | PyDict d =>
      match dict_get d "careers" with
      | Some career_list => Loaded career_list
      | None => Loaded (PyList (entries_of_mapping d))
      end
  | PyList l => Loaded (PyList l)
  | _ => Failed AttributeError
  end.

(** What [enumerate(career_list)] runs over.  Under the key "careers" any
    JSON value can sit: a non-empty mapping is iterated by its keys, which
    are strings, so the loop assigns into the mapping and the iteration
    fails; a non-empty string is iterated by characters and the assignment
    into it fails; a scalar is not iterable; an empty mapping or string
    gives no round at all. *)
Definition iterate (career_list : pyval) : load_result (list pyval) :=
  match career_list with
  | PyList l => Loaded l
  | PyDict [] => Loaded []
  | PyDict (_ :: _) => Failed RuntimeError
  | PyStr EmptyString => Loaded []
  | PyStr (String _ _) => Failed (Builtin TypeError)
  | _ => Failed (Builtin TypeError)
  end.

(** Lines 128-132: the five fields, each defaulted when absent. *)
Definition fill_fields (i : nat) (c : pydict) : pydict :=
  let c := setdefault c "career_id"
             (get_default c "career_id" (PyStr (career_n i))) in
  let c := setdefault c "title"
             (get_default c "title" (get_or_none c "career_id")) in
  let c := setdefault c "description"
             (get_default c "description" (PyStr "")) in
  let c := setdefault c "skills_required"
             (get_default c "skills_required"
                (get_default c "skills" (PyList []))) in
  let c := setdefault c "path"
             (get_default c "path" (get_default c "career_path" (PyList [])))
  in
  c.

(** Lines 123-132: one element of the list; a plain string is a title, and
    anything that is neither a string nor a mapping has no [setdefault]. *)
Definition ensure_fields (i : nat) (c : pyval) : load_result pydict :=
  match c with
  | PyStr s =>
      Loaded (fill_fields i [("career_id"%string, PyStr (career_n i));
                             ("title"%string, PyStr s)])
  | PyDict d => Loaded (fill_fields i d)
  | _ => Failed AttributeError
  end.

(** [[str(s) for s in v if s]] when [v] is a list. *)
Definition strs_of (v : pyval) : list string :=
  match v with
  | PyList l => map py_str (filter truthy l)
  | _ => []
  end.

(** Lines 134-148: the text of a career, its title repeated. *)
Definition career_text (c : pydict) : string :=
  let title := strip (py_str (get_default c "title" (PyStr ""))) in
  let description :=
    strip (py_str (get_default c "description" (PyStr ""))) in
  let parts :=
    (if String.eqb title "" then [] else [title; title])
    ++ (if String.eqb description "" then [] else [description])
    ++ strs_of (get_or_none c "skills_required")
    ++ strs_of (get_or_none c "path") in
  join " . " parts.

(** Lines 121-148: the loop over the entries, from position [i] on. *)
Fixpoint load_entries (i : nat) (cs : list pyval)
  : load_result (list pydict * list string) :=
  match cs with
  | [] => Loaded ([], [])
  | c :: cs' =>
      match ensure_fields i c with
      | Failed e => Failed e
      | Loaded d =>
          match load_entries (S i) cs' with
          | Failed e => Failed e
          | Loaded (ds, texts) => Loaded (d :: ds, career_text d :: texts)
          end
      end
  end.

(** What the loader returns and caches.  (For an empty mapping or string
    under "careers" the cached list object is that value itself; it is
    shown here by the careers it yields, none.) *)
Record loaded : Type := {
  loaded_careers : list pydict;
  loaded_texts : list string;
  loaded_embeddings : list vec
}.

(** Lines 103-156, from the decoded JSON on. *)
Definition load_from_raw (careers_raw : pyval) : load_result loaded :=
  match normalize_shape careers_raw with
  | Failed e => Failed e
  | Loaded career_list =>
      match iterate career_list with
      | Failed e => Failed e
      | Loaded cs =>
          match load_entries 0 cs with
          | Failed e => Failed e
          | Loaded (ds, texts) =>
              Loaded {| loaded_careers := ds;
                        loaded_texts := texts;
                        loaded_embeddings := map encode texts |}
          end
      end
  end.

(** Lines 92-98: the configured path, else the fallback path. *)
Definition choose_path : load_result string :=
  if path_exists CAREERS_JSON then Loaded CAREERS_JSON
  else if path_exists "model/careers_india.json"
       then Loaded "model/careers_india.json"%string
       else Failed FileNotFoundError.

(** [_load_careers_and_embeddings], with the module-level cache passed in
    and out: a filled cache is returned as it is, a failed load leaves the
    cache empty. *)
Definition _load_careers_and_embeddings (cache : option loaded)
  : load_result loaded * option loaded :=
  match cache with
  | Some l => (Loaded l, cache)
  | None =>
      match choose_path with
      | Failed e => (Failed e, None)
      | Loaded chosen_path =>
          match json_load chosen_path with
          | None => (Failed JSONDecodeError, None)
          | Some careers_raw =>
              match load_from_raw careers_raw with
              | Failed e => (Failed e, None)
              | Loaded l => (Loaded l, Some l)
              end
          end
      end
  end.

End Load.

End Loader.

(* ===================================================================== *)
(** * app.py: the legacy semantic recommender *)
(* ===================================================================== *)

Module App.

Import Py.

Section Sbert.

Variable vec : Type.
Variable encode : string -> vec.
Variable cos_sim : vec -> vec -> R.
(** The module-level [career_embeddings] of app.py. *)
Variable career_embeddings : list vec.

(** [sbert_recommend], lines 190-194: the default phrase for an empty
    profile text, the encoding of the profile and the raw similarities
    (the top-k selection and rescaling that follow are not modelled). *)
Definition sbert_similarities (profile_text : string)
  : Model.traced (list R) :=
  let profile_text :=
    if String.eqb profile_text ""
    then "student seeking career guidance"%string
    else profile_text in
  let '(user_emb, calls) := Model.model_encode vec encode profile_text in
  (map (cos_sim user_emb) career_embeddings, calls).

End Sbert.

(** ** Psychometric scoring (lines 71-135) *)

Definition TRAITS : list string :=
  [ "Analytical"; "Logical"; "Technical"; "Practical"; "Social";
    "Leadership"; "Creative" ]%string.

(** One weight map per question. *)
Definition TRAIT_QUESTION_MAP : list (list (string * R)) :=
  [ [("Analytical", 0.7); ("Logical", 0.3)];
    [("Analytical", 0.6); ("Technical", 0.3); ("Creative", 0.1)];
    [("Analytical", 0.6); ("Technical", 0.3); ("Logical", 0.1)];
    [("Analytical", 0.7); ("Logical", 0.3)];
    [("Creative", 0.8); ("Practical", 0.2)];
    [("Creative", 0.6); ("Analytical", 0.2); ("Social", 0.2)];
    [("Creative", 0.6); ("Analytical", 0.2); ("Practical", 0.2)];
    [("Creative", 0.7); ("Social", 0.3)];
    [("Social", 0.8); ("Leadership", 0.2)];
    [("Social", 0.7); ("Practical", 0.3)];
    [("Social", 0.6); ("Leadership", 0.3); ("Practical", 0.1)];
    [("Social", 0.6); ("Analytical", 0.2); ("Leadership", 0.2)];
    [("Leadership", 0.6); ("Social", 0.3); ("Analytical", 0.1)];
    [("Leadership", 0.6); ("Practical", 0.3); ("Social", 0.1)];
    [("Leadership", 0.6); ("Analytical", 0.3); ("Technical", 0.1)];
    [("Technical", 0.7); ("Analytical", 0.3)];
    [("Technical", 0.6); ("Practical", 0.3); ("Analytical", 0.1)];
    [("Technical", 0.6); ("Creative", 0.2); ("Analytical", 0.2)];
    [("Technical", 0.7); ("Logical", 0.3)];
    [("Practical", 0.7); ("Technical", 0.2); ("Analytical", 0.1)];
    [("Practical", 0.6); ("Analytical", 0.2); ("Creative", 0.2)];
    [("Practical", 0.6); ("Technical", 0.2); ("Social", 0.2)];
    [("Practical", 0.6); ("Technical", 0.3); ("Analytical", 0.1)];
    [("Logical", 0.7); ("Analytical", 0.3)];
    [("Logical", 0.8); ("Analytical", 0.2)] ]%string.

(** [d.get(k, default)] on a mapping of floats. *)
Definition get_float (d : list (string * R)) (k : string) (default : R) : R :=
  match dict_get d k with Some x => x | None => default end.

(** The ints that [float()] converts: an int at or beyond this bound, on
    either side, is out of the range of a double and raises
    [OverflowError]. *)
Definition float_int_limit : Z := (2 ^ 1024 - 2 ^ 970)%Z.

Section Answers.

Variable str_to_float : string -> option R.

(** [float(arr[i])] under the bare [except] of lines 104-110: [None] stands
    for any exception, the [OverflowError] of an int out of range included.
    A float is a finite number here: the value NaN, which the two
    comparisons of the clamp let through, is not part of the model. *)
Definition answer_float (a : pyval) : option R :=
  match a with
  | PyInt z =>
      if (Z.abs z <? float_int_limit)%Z then Some (IZR z) else None
  | _ =>
      match float_of str_to_float a with
      | Ok v => Some v
      | Raise _ => None
      end
  end.

(** Lines 104-110: one answer, coerced to a float and clamped to [1,5];
    anything that does not convert counts as 3.0. *)
Definition normalize_answer (a : pyval) : R :=
  match answer_float a with
  | Some v =>
      let v := if Rlt_dec v 1 then 1 else v in
      let v := if Rlt_dec 5 v then 5 else v in
      v
  | None => 3
  end.

(** [normalize_answers_array]. *)
Definition normalize_answers_array (arr : list pyval) : list R :=
  map normalize_answer arr.

End Answers.

(** Lines 121-125: the weights of one question added to the running sums.
    [weight_sums] always has the keys of [raw], so its lookup cannot fail. *)
Fixpoint add_question (wmap : list (string * R)) (val : R)
  (raw weight_sums : list (string * R))
  : list (string * R) * list (string * R) :=
  match wmap with
  | [] => (raw, weight_sums)
  | (trait, w) :: wmap' =>
      match dict_get raw trait with
      | None => add_question wmap' val raw weight_sums
      | Some r =>
          add_question wmap' val
            (dict_set raw trait (r + val * w))
            (dict_set weight_sums trait (get_float weight_sums trait 0 + w))
      end
  end.

(** Lines 118-125: [count] rounds of the loop over the questions, from
    question [i] on.  A question beyond the map has no weights, an answer
    beyond the array counts as 3.0. *)
Fixpoint questions_loop (count i : nat) (answers_array : list R)
  (raw weight_sums : list (string * R))
  : list (string * R) * list (string * R) :=
  match count with
  | O => (raw, weight_sums)
  | S count' =>
      let wmap := nth i TRAIT_QUESTION_MAP [] in
      let val := nth i answers_array 3 in
      let '(raw, weight_sums) := add_question wmap val raw weight_sums in
      questions_loop count' (S i) answers_array raw weight_sums
  end.

(** Lines 129-134: the score of one trait from the sums. *)
Definition trait_score_of (raw weight_sums : list (string * R))
  (trait : string) : R :=
  let denom := get_float weight_sums trait 0 * 5 in
  if Rle_dec denom 0 then 5
  else
    let normalized := get_float raw trait 0 / denom * 10 in
    py_round_digits (Rmax 0 (Rmin normalized 10)) 2.

(** [compute_trait_scores_from_array]. *)
Definition compute_trait_scores_from_array (answers_array : list R)
  : list (string * R) :=
  let n_questions :=
    Nat.max (List.length TRAIT_QUESTION_MAP) (List.length answers_array) in
  let zeros := map (fun t => (t, 0)) TRAITS in
  let '(raw, weight_sums) :=
    questions_loop n_questions 0 answers_array zeros zeros in
  map (fun trait => (trait, trait_score_of raw weight_sums trait)) TRAITS.

(** [compute_cognitive_from_traits]. *)
Definition compute_cognitive_from_traits (traits : list (string * R))
  : list (string * R) :=
  let logical := get_float traits "Logical" 0 in
  let analytical := get_float traits "Analytical" 0 in
  let creative := get_float traits "Creative" 0 in
  [ ("LogicalReasoning"%string, py_round_digits logical 2);
    ("AnalyticalAbility"%string, py_round_digits analytical 2);
    ("CreativeThinking"%string, py_round_digits creative 2);
    ("CognitiveIndex"%string,
     py_round_digits (0.5 * analytical + 0.3 * logical + 0.2 * creative) 2) ].

(** ** Academic strengths (lines 150-167) *)

(** [isinstance(v, (int, float))], with the value as a float; a [bool] is
    an [int]. *)
Definition as_number (v : pyval) : option R :=
  match v with
  | PyBool b => Some (if b then 1 else 0)
  | PyInt z => Some (IZR z)
  | PyFloat r => Some r
  | _ => None
  end.

(** The numeric values of a mapping, in its order. *)
Fixpoint numbers_of (d : pydict) : list R :=
  match d with
  | [] => []
  | (_, v) :: d' =>
      match as_number v with
      | Some x => x :: numbers_of d'
      | None => numbers_of d'
      end
  end.

(** [mean_of_dict]; [None] is Python's [None].  The marks are taken within
    the range of a double: the [OverflowError] that [sum(vals) / len(vals)]
    raises on larger ints is not modelled. *)
Definition mean_of_dict (d : pyval) : option R :=
  match d with
  | PyDict (entry :: entries) =>
      match numbers_of (entry :: entries) with
      | [] => None
      | vals => Some (fold_left Rplus vals 0 / INR (List.length vals))
      end
  | _ => None
  end.

(** [classify]. *)
Definition classify (avg : R) : string :=
  if Rle_dec 85 avg then "Excellent"
  else if Rle_dec 70 avg then "Good"
  else if Rle_dec 50 avg then "Average"
  else if Rlt_dec 0 avg then "Needs Improvement"
  else "No Data".

(** [marks.get(level, {})] then [mean_of_dict(...) or 0]. *)
Definition level_mean (marks : pydict) (level : string) : R :=
  let d := match dict_get marks level with
           | Some v => v
           | None => PyDict []
           end in
  match mean_of_dict d with Some m => m | None => 0 end.

(** [compute_academic_strengths]. *)
Definition compute_academic_strengths (marks : pydict)
  : list (string * string) :=
  let tenth_mean := level_mean marks "tenth" in
  let twelfth_mean := level_mean marks "twelfth" in
  [ ("10th"%string, classify tenth_mean);
    ("12th"%string, classify twelfth_mean) ].

(** ** Marks payload (lines 243-264) *)

Definition tenth_keys : list string :=
  ["math"; "science"; "social"; "english"]%string.
Definition twelfth_keys : list string :=
  ["math"; "physics"; "chemistry"; "biology"]%string.

(** [{k: payload.get(k) for k in keys if k in payload}], built entry by
    entry. *)
Fixpoint pick_keys (payload : pydict) (keys : list string) (acc : pydict)
  : pydict :=
  match keys with
  | [] => acc
  | k :: keys' =>
      if Model.has_key payload k
      then pick_keys payload keys' (dict_set acc k (get_or_none payload k))
      else pick_keys payload keys' acc
  end.

(** [normalize_marks_payload]. *)
Definition normalize_marks_payload (payload : pydict) : pydict :=
  match payload with
  | [] => []
  | _ =>
      let payload :=
        match dict_get payload "marks" with
        | Some (PyDict m) => m
        | _ => payload
        end in
      let normalized : pydict := [] in
      let normalized :=
        if Model.has_key payload "tenth"
        then dict_set normalized "tenth" (get_or_none payload "tenth")
        else if Model.has_key payload "10th"
        then dict_set normalized "tenth" (get_or_none payload "10th")
        else if existsb (Model.has_key payload) tenth_keys
        then dict_set normalized "tenth"
                      (PyDict (pick_keys payload tenth_keys []))
        else normalized in
      let normalized :=
        if Model.has_key payload "twelfth"
        then dict_set normalized "twelfth" (get_or_none payload "twelfth")
        else if Model.has_key payload "12th"
        then dict_set normalized "twelfth" (get_or_none payload "12th")
        else if existsb (Model.has_key payload) twelfth_keys
        then dict_set normalized "twelfth"
                      (PyDict (pick_keys payload twelfth_keys []))
        else normalized in
      normalized
  end.

End App.

(* ===================================================================== *)
(** * A small concrete installation, to run the model on *)
(* ===================================================================== *)

Module Demo.

Import Py Model.

Open Scope string_scope.

(** A toy embedding model: a text is its own embedding, and two embeddings
    are similar exactly when they are equal. *)
Definition demo_encode (text : string) : string := text.
Definition demo_cos_sim (a b : string) : R :=
  if String.eqb a b then 1 else 0.

(** A float parser that accepts no text. *)
Definition demo_str_to_float (s : string) : option R := None.

Definition nurse : career :=
  {| career_id := "c1"; title := "Nurse";
     description := "Patient care and community service";
     skills_required := ["communication"; "biology"];
     path := ["B.Sc Nursing"] |}.

Definition developer : career :=
  {| career_id := "c2"; title := "Software Developer";
     description := "Builds software";
     skills_required := ["programming"; "mathematics"];
     path := ["B.Tech"; "Developer"] |}.

Definition demo_texts : list string :=
  ["Nurse . Nurse . Patient care and community service";
   "Software Developer . Software Developer . Builds software"].

Definition demo_corpus : corpus string :=
  {| career_list := [nurse; developer];
     career_texts := demo_texts;
     career_embeddings := map demo_encode demo_texts |}.

(** [recommend] on the toy installation, with the default weights and
    exponent. *)
Definition demo_recommend (profile_text : string)
  (trait_scores : option pydict) (marks : pyval) (top_k : Z)
  : traced (result (list rec)) :=
  recommend string demo_encode demo_cos_sim demo_str_to_float 0.6
            demo_corpus profile_text trait_scores marks top_k
            0.65 0.25 0.10.

(** The marks of the specification's scenario:
    [{"tenth": {"math": 90}, "twelfth": {"math": 60}}]. *)
Definition marks_90_60 : pydict :=
  [ ("tenth", PyDict [("math", PyInt 90)]);
    ("twelfth", PyDict [("math", PyInt 60)]) ].

(** The trait scores of a request: [{"Technical": 8, "Social": 2.5}]. *)
Definition demo_traits : pydict :=
  [ ("Technical", PyInt 8); ("Social", PyFloat 2.5) ].

(** Marks below zero at both levels:
    [{"tenth": {"math": -10}, "twelfth": {"math": -20}}]. *)
Definition marks_negative : pydict :=
  [ ("tenth", PyDict [("math", PyInt (-10))]);
    ("twelfth", PyDict [("math", PyInt (-20))]) ].

Definition teacher : career :=
  {| career_id := "c3"; title := "Teacher";
     description := "Teaches school classes";
     skills_required := ["communication"];
     path := ["B.Ed"] |}.

Definition demo_texts3 : list string :=
  demo_texts ++ ["Teacher . Teacher . Teaches school classes"].

Definition demo_corpus3 : corpus string :=
  {| career_list := [nurse; developer; teacher];
     career_texts := demo_texts3;
     career_embeddings := map demo_encode demo_texts3 |}.

(** The profile text of [tie_request]: the corpus text of [developer]. *)
Definition developer_text : string :=
  "Software Developer . Software Developer . Builds software".

(** A request on the three careers, scored by the similarity alone, without
    trait scores or marks, whose profile text is the text of the second
    career: the second career is the only similar one, and the first and
    the third tie. *)
Definition tie_request (top_k : Z) : traced (result (list rec)) :=
  recommend string demo_encode demo_cos_sim demo_str_to_float 0.6
            demo_corpus3 developer_text None PyNone top_k 1 0 0.

Close Scope string_scope.

End Demo.

(* ===================================================================== *)
(** * The specification's own words, and the notions the properties
      are stated with *)
(* ===================================================================== *)

Module SpecWords.

Import Py.

(** [clamp(x, lo, hi)]. *)
Definition clamp (x lo hi : R) : R :=
  if Rlt_dec x lo then lo else if Rlt_dec hi x then hi else x.

(** [m] is the least (greatest) element of [l]. *)
Definition is_min_of (m : R) (l : list R) : Prop :=
  In m l /\ Forall (fun x => m <= x) l.
Definition is_max_of (m : R) (l : list R) : Prop :=
  In m l /\ Forall (fun x => x <= m) l.

(** The first entry of an ordered threshold table that the score reaches. *)
Definition first_reached (table : list (Z * string)) (score : Z)
  : option string :=
  option_map snd (find (fun entry => (fst entry <=? score)%Z) table).

(** Rows tagged with their corpus position: rows of equal [final_score]
    come in the order of their corpus positions. *)
Definition ties_in_corpus_order (tagged : list (nat * Model.rec)) : Prop :=
  forall p q a b,
    (p < q)%nat ->
    nth_error tagged p = Some a ->
    nth_error tagged q = Some b ->
    Model.final_score (snd a) = Model.final_score (snd b) ->
    (fst a < fst b)%nat.

Section Scores.

Variable str_to_float : string -> option R.

(** The numeric scores that one level files under [key], keys compared
    case-insensitively, in the level's order. *)
Fixpoint scores_under (key : string) (lvl : pydict) : list R :=
  match lvl with
  | [] => []
  | (k, v) :: lvl' =>
      match float_of str_to_float v with
      | Ok s => if String.eqb (lower k) key
                then s :: scores_under key lvl'
                else scores_under key lvl'
      | Raise _ => scores_under key lvl'
      end
  end.

End Scores.

(** Every value of the mapping converts to a float. *)
Definition numeric_values (str_to_float : string -> option R) (d : pydict)
  : Prop :=
  Forall (fun kv => exists r, float_of str_to_float (snd kv) = Ok r) d.

(** A row as the loop of [Model.recommend] scores it: the [final_score] is
    [Model.final_score_of] of some combined score, hence within [0,100]
    once proved so, and the label is the label of that score. *)
Definition row_scored (exponent : R) (r : Model.rec) : Prop :=
  (exists combined,
      Model.final_score r = Model.final_score_of exponent combined)
  /\ Model.match_label r = Model.select_label (Model.final_score r).

(** [d.get(key, 0.0)] on an optional score. *)
Definition or_zero (o : option R) : R :=
  match o with Some x => x | None => 0 end.

(** The order that a stable descending sort establishes on rows tagged
    with a position: keys do not grow, and equal keys come by growing tag. *)
Definition tie_rel {A : Type} (key : A -> Z) (a b : nat * A) : Prop :=
  (key (snd b) <= key (snd a))%Z
  /\ (key (snd a) = key (snd b) -> (fst a < fst b)%nat).

(** The length of the prefix that the slice [l[:stop]] keeps. *)
Definition slice_len {A : Type} (l : list A) (stop : Z) : nat :=
  if (stop <? 0)%Z
  then Z.to_nat (Z.max 0 (Z.of_nat (List.length l) + stop))
  else Z.to_nat stop.

(** The ranked list of [Model.rank], with every row tagged by its position
    among the rows in corpus order. *)
Definition rank_tagged (recs : list Model.rec) (top_k : Z)
  : list (nat * Model.rec) :=
  slice_to (sort_desc (fun t => Model.final_score (snd t))
                      (enumerate_from 0 recs))
           (Z.min top_k (Z.of_nat (List.length recs))).

End SpecWords.

(* ===================================================================== *)
(** * Further notions used to state properties of the code *)
(* ===================================================================== *)

Module Notions.

Import Py.

(** The entry of a trait-score mapping names one of the fixed traits. *)
Definition known_trait (entry : string * pyval) : bool :=
  Model.has_key Model.TRAIT_KEYWORDS (fst entry).

(** Every value of the mapping converts to a float that is not positive. *)
Definition no_positive_value (str_to_float : string -> option R)
  (d : pydict) : Prop :=
  Forall (fun kv => exists r,
              float_of str_to_float (snd kv) = Ok r /\ r <= 0) d.

(** What the flattening of the marks keeps true of [subj_scores]:
    distinct lower-case keys and no negative score. *)
Definition flatten_kept (subj_scores : list (string * R)) : Prop :=
  NoDup (map fst subj_scores)
  /\ Forall (fun kv => lower (fst kv) = fst kv /\ 0 <= snd kv) subj_scores.

(** The five fields that every loaded career carries. *)
Definition career_fields : list string :=
  [ "career_id"; "title"; "description"; "skills_required"; "path" ]%string.

Definition has_career_fields (c : pydict) : Prop :=
  Forall (fun k => Model.has_key c k = true) career_fields.

(** An element of a corpus list that the loader accepts: a plain string or
    a mapping. *)
Definition is_entry (c : pyval) : Prop :=
  match c with
  | PyStr _ | PyDict _ => True
  | _ => False
  end.

(** The rows that the loop of [Model.recommend] builds for a request, in
    corpus order, before they are sorted and cut. *)
Definition request_rows (vec : Type) (encode : string -> vec)
  (cos_sim : vec -> vec -> R) (str_to_float : string -> option R)
  (FINAL_UPLIFT_EXP : R) (C : Model.corpus vec) (profile_text : string)
  (trait_scores : option pydict) (marks : pyval)
  (weight_sbert weight_trait weight_marks : R) : result (list Model.rec) :=
  let sims_list :=
    fst (Model._cosine_similarities vec encode cos_sim C profile_text) in
  Model.recs_loop vec encode cos_sim str_to_float FINAL_UPLIFT_EXP C
    sims_list (Model._scale_sims_to_0_1 sims_list)
    (match trait_scores with Some d => d | None => [] end)
    (py_or marks (PyDict []))
    weight_sbert weight_trait weight_marks
    0 (Model.career_list vec C).

(** An answer of the questionnaire that is not a text. *)
Definition not_text (a : pyval) : Prop :=
  match a with
  | PyStr _ => False
  | _ => True
  end.

(** An answer that is no number at all: [None], a list or a mapping. *)
Definition no_number (a : pyval) : Prop :=
  match a with
  | PyNone | PyList _ | PyDict _ => True
  | _ => False
  end.

(** The keys of the mapping that [compute_cognitive_from_traits] returns. *)
Definition cognitive_keys : list string :=
  [ "LogicalReasoning"; "AnalyticalAbility"; "CreativeThinking";
    "CognitiveIndex" ]%string.

(** The row has [final_score] [v]. *)
Definition scores (v : Z) (r : Model.rec) : bool :=
  (Model.final_score r =? v)%Z.

End Notions.

(* ===================================================================== *)
(** * Facts about the built-ins *)
(* ===================================================================== *)

Module PyFacts.

Import Py.

Lemma clamp_bounds (lo hi x : R) :
  lo <= hi -> lo <= Rmax lo (Rmin hi x) <= hi.
Proof.
  intros H. unfold Rmax, Rmin.
  destruct (Rle_dec hi x); destruct (Rle_dec lo _); lra.
Qed.

Lemma clamp_mono (lo hi x y : R) :
  x <= y -> Rmax lo (Rmin hi x) <= Rmax lo (Rmin hi y).
Proof.
  intros H. unfold Rmax, Rmin.
  destruct (Rle_dec hi x); destruct (Rle_dec hi y);
    repeat destruct (Rle_dec lo _); lra.
Qed.

Lemma clamp_id (lo hi x : R) :
  lo <= x <= hi -> Rmax lo (Rmin hi x) = x.
Proof.
  intros H. unfold Rmax, Rmin.
  destruct (Rle_dec hi x); destruct (Rle_dec lo _); lra.
Qed.

Lemma py_round_mono (x y : R) : x <= y -> (py_round x <= py_round y)%Z.
Proof.
  intros Hxy.
  pose proof (Zfloor_bound x) as Bx. pose proof (Zfloor_bound y) as By.
  pose proof (Zfloor_le x y Hxy) as Hf.
  unfold py_round.
  destruct (Z.eq_dec (Zfloor x) (Zfloor y)) as [E | N].
  - rewrite <- E in *.
    destruct (Z.even (Zfloor x));
      repeat destruct (Rlt_dec _ _); try lia; lra.
  - assert (Hs : (Zfloor x + 1 <= Zfloor y)%Z) by lia.
    destruct (Z.even (Zfloor x)); destruct (Z.even (Zfloor y));
      repeat destruct (Rlt_dec _ _); lia.
Qed.

Lemma py_round_IZR (z : Z) : py_round (IZR z) = z.
Proof.
  unfold py_round.
  assert (E : Zfloor (IZR z) = z) by (apply Zfloor_eq; lra).
  rewrite E. destruct (Rlt_dec _ _); [reflexivity | lra].
Qed.

Lemma py_round_range (lo hi : Z) (x : R) :
  IZR lo <= x <= IZR hi -> (lo <= py_round x <= hi)%Z.
Proof.
  intros [Hl Hh].
  pose proof (py_round_mono _ _ Hl) as Ml.
  pose proof (py_round_mono _ _ Hh) as Mh.
  rewrite py_round_IZR in Ml, Mh. lia.
Qed.

Lemma Rpower_ge_1_of_unit (x e : R) : 0 < x <= 1 -> e < 0 -> 1 <= Rpower x e.
Proof.
  intros [Hx0 Hx1] He. unfold Rpower.
  assert (Hln : ln x <= 0).
  { rewrite <- ln_1. destruct Hx1 as [Hlt | ->]; [| lra].
    left. now apply ln_increasing. }
  assert (Hprod : 0 <= e * ln x) by nra.
  pose proof (exp_ineq1_le (e * ln x)). lra.
Qed.

End PyFacts.

(* ===================================================================== *)
(** * The score of one entity: uplift, rounding, label *)
(* ===================================================================== *)

Module Scoring.

Import Py PyFacts Model.

(** The code's [max(lo, min(hi, x))] is the specification's [clamp]. *)
Lemma clamp_is_max_min (x lo hi : R) :
  lo <= hi -> Rmax lo (Rmin hi x) = SpecWords.clamp x lo hi.
Proof.
  intros H. unfold SpecWords.clamp, Rmax, Rmin.
  destruct (Rle_dec hi x); destruct (Rle_dec lo _);
    destruct (Rlt_dec x lo); destruct (Rlt_dec hi x); lra.
Qed.

(** After the last clamp the uplifted value grows with the combined score,
    whatever the exponent. *)
Lemma uplift_clamped_mono (e a b : R) :
  a <= b ->
  Rmax 0 (Rmin 1 (uplift e a)) <= Rmax 0 (Rmin 1 (uplift e b)).
Proof.
  intros Hab. unfold uplift, float_pow.
  pose proof (clamp_bounds 0 1 a Rle_0_1) as Ba.
  pose proof (clamp_bounds 0 1 b Rle_0_1) as Bb.
  pose proof (clamp_mono 0 1 a b Hab) as Hm.
  set (ca := Rmax 0 (Rmin 1 a)) in *. set (cb := Rmax 0 (Rmin 1 b)) in *.
  destruct (Req_dec_T e 0) as [E0 | E0]; [lra |].
  destruct (Req_dec_T ca 0) as [Ea | Ea];
    destruct (Req_dec_T cb 0) as [Eb | Eb].
  - destruct (Rlt_dec 0 e); rewrite ?Ea, ?Eb; lra.
  - assert (L : Rmax 0 (Rmin 1 0) = 0) by (apply clamp_id; lra).
    destruct (Rlt_dec 0 e); rewrite ?Ea, L;
      apply (clamp_bounds 0 1 _ Rle_0_1).
  - lra.
  - destruct (Rlt_dec 0 e) as [Hpos | Hneg].
    + apply clamp_mono. apply Rle_Rpower_l; lra.
    + assert (He : e < 0) by lra.
      pose proof (Rpower_ge_1_of_unit ca e ltac:(lra) He).
      pose proof (Rpower_ge_1_of_unit cb e ltac:(lra) He).
      unfold Rmax, Rmin.
      repeat destruct (Rle_dec _ _); lra.
Qed.

Lemma final_score_of_range (e x : R) : (0 <= final_score_of e x <= 100)%Z.
Proof.
  unfold final_score_of. apply py_round_range.
  pose proof (clamp_bounds 0 1 (uplift e x) Rle_0_1). lra.
Qed.

Lemma final_score_of_mono (e a b : R) :
  a <= b -> (final_score_of e a <= final_score_of e b)%Z.
Proof.
  intros H. unfold final_score_of. apply py_round_mono.
  pose proof (uplift_clamped_mono e a b H). lra.
Qed.

(** C1. Monotonicity of the uplift step: when the combined weighted score of
    entity A is above that of entity B, the steps of [recommend] that lead
    from the combined score to [final_score] (clamp, exponent, clamp, times
    100, round) never give A a smaller [final_score] than B; this holds for
    every exponent. *)
Theorem final_score_monotone (exponent combined_A combined_B : R) :
  combined_A > combined_B ->
  ~ (final_score_of exponent combined_A
     < final_score_of exponent combined_B)%Z.
Proof.
  intros H.
  pose proof (final_score_of_mono exponent combined_B combined_A ltac:(lra)).
  lia.
Qed.

Lemma final_score_monotone_witness :
  1 > 0 /\ ~ (final_score_of 0.6 1 < final_score_of 0.6 0)%Z.
Proof.
  split; [lra | apply (final_score_monotone 0.6 1 0); lra].
Defined.

Lemma walk_labels_find (table : list (Z * string)) (s : Z) (d : string) :
  walk_labels table s d =
  match SpecWords.first_reached table s with Some lab => lab | None => d end.
Proof.
  unfold SpecWords.first_reached.
  induction table as [| [t lab] table IH]; simpl; [reflexivity |].
  destruct (t <=? s)%Z; simpl; [reflexivity | exact IH].
Qed.

(** C9. The label of a score in [0,100] is the label of the first threshold
    of the table (80, 60, 40, 20, 0) that the score reaches; this is the
    bucket of the score; the scores 80, 60, 40, 20, 0 get the five labels in
    the table's order, and 79 gets the label of the threshold 60. *)
Theorem match_label_threshold_table (final_score : Z) :
  (0 <= final_score <= 100)%Z ->
  SpecWords.first_reached LABELS final_score = Some (select_label final_score)
  /\ select_label final_score =
     (if (80 <=? final_score)%Z then "Excellent match"
      else if (60 <=? final_score)%Z then "Great match"
      else if (40 <=? final_score)%Z then "Good match"
      else if (20 <=? final_score)%Z then "Fair match"
      else "Low match")%string
  /\ map fst LABELS = [80; 60; 40; 20; 0]%Z
  /\ map select_label [80; 60; 40; 20; 0]%Z = map snd LABELS
  /\ select_label 79 = "Great match"%string.
Proof.
  intros [H0 H100].
  assert (Hlast : (0 <=? final_score)%Z = true) by (apply Z.leb_le; lia).
  repeat split; try reflexivity.
  - unfold select_label. rewrite walk_labels_find.
    unfold SpecWords.first_reached, LABELS. simpl.
    repeat (destruct (_ <=? final_score)%Z; simpl; try reflexivity).
    discriminate Hlast.
  - unfold select_label, LABELS. simpl.
    repeat (destruct (_ <=? final_score)%Z; try reflexivity).
Qed.

Lemma match_label_threshold_table_witness :
  (0 <= 79 <= 100)%Z /\ select_label 79 = "Great match"%string.
Proof.
  split; [lia |].
  exact (proj2 (proj2 (proj2 (proj2
           (match_label_threshold_table 79 ltac:(lia)))))).
Defined.

End Scoring.

(* ===================================================================== *)
(** * Sorting and cutting the result list *)
(* ===================================================================== *)

Module Ranking.

Import Py PyFacts Model SpecWords.

Section SortPerm.

Context {A : Type}.
Variable key : A -> Z.

Lemma insert_desc_perm (x : A) (l : list A) :
  Permutation (insert_desc key x l) (x :: l).
Proof.
  induction l as [| y l IH]; simpl; [apply Permutation_refl |].
  destruct (key y <=? key x)%Z; [apply Permutation_refl |].
  eapply Permutation_trans; [apply perm_skip, IH | apply perm_swap].
Qed.

Lemma sort_desc_perm (l : list A) : Permutation (sort_desc key l) l.
Proof.
  induction l as [| x l IH]; simpl; [constructor |].
  eapply Permutation_trans; [apply insert_desc_perm |].
  now apply perm_skip.
Qed.

Lemma sort_desc_In (x : A) (l : list A) :
  In x (sort_desc key l) <-> In x l.
Proof.
  split; apply Permutation_in;
    [apply sort_desc_perm | apply Permutation_sym, sort_desc_perm].
Qed.

Lemma sort_desc_length (l : list A) :
  List.length (sort_desc key l) = List.length l.
Proof. apply Permutation_length, sort_desc_perm. Qed.

(** The sort is stable: it leaves the elements of one key in the order
    they had. *)
Lemma insert_desc_filter (v : Z) (x : A) (l : list A) :
  filter (fun a => (key a =? v)%Z) (insert_desc key x l)
  = filter (fun a => (key a =? v)%Z) (x :: l).
Proof.
  induction l as [| y l IH]; [reflexivity |].
  cbn [insert_desc]. destruct (key y <=? key x)%Z eqn:E; [reflexivity |].
  apply Z.leb_gt in E. cbn [filter] in *. rewrite IH.
  destruct (key x =? v)%Z eqn:Ex; [| reflexivity].
  apply Z.eqb_eq in Ex.
  destruct (key y =? v)%Z eqn:Ey; [| reflexivity].
  apply Z.eqb_eq in Ey. lia.
Qed.

Lemma sort_desc_filter (v : Z) (l : list A) :
  filter (fun a => (key a =? v)%Z) (sort_desc key l)
  = filter (fun a => (key a =? v)%Z) l.
Proof.
  induction l as [| x l IH]; [reflexivity |].
  cbn [sort_desc]. rewrite insert_desc_filter. cbn [filter].
  now rewrite IH.
Qed.

End SortPerm.

Section SortFacts.

Context {A : Type}.
Variable key : A -> Z.

(** Sorting rows tagged with a position is sorting the rows. *)
Lemma insert_desc_tagged (x : nat * A) (l : list (nat * A)) :
  map snd (insert_desc (fun t => key (snd t)) x l)
  = insert_desc key (snd x) (map snd l).
Proof.
  induction l as [| y l IH]; simpl; [reflexivity |].
  destruct (key (snd y) <=? key (snd x))%Z; simpl; [reflexivity |].
  now rewrite IH.
Qed.

Lemma sort_desc_tagged (l : list (nat * A)) :
  map snd (sort_desc (fun t => key (snd t)) l)
  = sort_desc key (map snd l).
Proof.
  induction l as [| x l IH]; simpl; [reflexivity |].
  now rewrite insert_desc_tagged, IH.
Qed.

Lemma insert_desc_sorted (x : nat * A) (l : list (nat * A)) :
  StronglySorted (tie_rel key) l ->
  (forall y, In y l -> (fst x < fst y)%nat) ->
  StronglySorted (tie_rel key) (insert_desc (fun t => key (snd t)) x l).
Proof.
  induction l as [| y l IH]; intros Hs Htag; simpl.
  - constructor; constructor.
  - inversion Hs as [| ? ? Hs' Hall]; subst.
    destruct (key (snd y) <=? key (snd x))%Z eqn:E.
    + apply Z.leb_le in E. constructor; [assumption |].
      apply Forall_forall. intros z Hz. split.
      * destruct Hz as [<- | Hz]; [assumption |].
        rewrite Forall_forall in Hall. destruct (Hall z Hz). lia.
      * intros _. now apply Htag.
    + apply Z.leb_gt in E. constructor.
      * apply IH; [assumption |]. intros z Hz. apply Htag. now right.
      * apply Forall_forall. intros z Hz.
        apply (Permutation_in _ (insert_desc_perm _ x l)) in Hz.
        destruct Hz as [<- | Hz].
        -- split; lia.
        -- rewrite Forall_forall in Hall. now apply Hall.
Qed.

Lemma enumerate_from_In (start : nat) (l : list A) (j : nat) (a : A) :
  In (j, a) (enumerate_from start l) ->
  (start <= j)%nat /\ nth_error l (j - start) = Some a.
Proof.
  revert start. induction l as [| x l IH]; intros start H; simpl in H.
  - contradiction.
  - destruct H as [E | H].
    + inversion E; subst. rewrite Nat.sub_diag. split; [lia | reflexivity].
    + destruct (IH _ H) as [Hle Hn]. split; [lia |].
      replace (j - start)%nat with (S (j - S start)) by lia. exact Hn.
Qed.

Lemma enumerate_from_snd (start : nat) (l : list A) :
  map snd (enumerate_from start l) = l.
Proof.
  revert start. induction l as [| x l IH]; intros start; simpl;
    [reflexivity | now rewrite IH].
Qed.

Lemma enumerate_from_fst (start : nat) (l : list A) :
  map fst (enumerate_from start l) = seq start (List.length l).
Proof.
  revert start. induction l as [| x l IH]; intros start; simpl;
    [reflexivity | now rewrite IH].
Qed.

Lemma sort_enumerate_sorted (start : nat) (l : list A) :
  StronglySorted (tie_rel key)
    (sort_desc (fun t => key (snd t)) (enumerate_from start l)).
Proof.
  revert start. induction l as [| x l IH]; intros start; simpl.
  - constructor.
  - apply insert_desc_sorted; [apply IH |].
    intros [j a] Hy. apply sort_desc_In in Hy.
    apply enumerate_from_In in Hy. simpl. lia.
Qed.

Lemma sorted_nth_error (R : nat * A -> nat * A -> Prop)
  (l : list (nat * A)) :
  StronglySorted R l ->
  forall p q a b, (p < q)%nat ->
    nth_error l p = Some a -> nth_error l q = Some b -> R a b.
Proof.
  induction 1 as [| x l Hs IH Hall]; intros p q a b Hpq Hp Hq.
  - destruct p; discriminate.
  - destruct q as [| q]; [lia |]. simpl in Hq.
    destruct p as [| p]; simpl in Hp.
    + inversion Hp; subst. rewrite Forall_forall in Hall.
      apply Hall. eapply nth_error_In; eassumption.
    + eapply IH; [| eassumption | eassumption]. lia.
Qed.

End SortFacts.

Lemma slice_to_firstn {A : Type} (l : list A) (stop : Z) :
  slice_to l stop = firstn (slice_len l stop) l.
Proof. unfold slice_to, slice_len. now destruct (stop <? 0)%Z. Qed.

Lemma slice_to_map {A B : Type} (f : A -> B) (l : list A) (stop : Z) :
  map f (slice_to l stop) = slice_to (map f l) stop.
Proof.
  rewrite !slice_to_firstn. unfold slice_len.
  rewrite length_map. symmetry. apply firstn_map.
Qed.

Lemma firstn_nth_error_Some {A : Type} (n p : nat) (l : list A) (a : A) :
  nth_error (firstn n l) p = Some a -> nth_error l p = Some a.
Proof.
  revert p l. induction n as [| n IH]; intros p l H.
  - destruct p; discriminate.
  - destruct l as [| x l]; [destruct p; discriminate |].
    destruct p as [| p]; simpl in *; [assumption | now apply IH].
Qed.

Lemma firstn_incl {A : Type} (n : nat) (l : list A) (x : A) :
  In x (firstn n l) -> In x l.
Proof.
  intros H. rewrite <- (firstn_skipn n l). apply in_or_app. now left.
Qed.

Lemma firstn_NoDup {A : Type} (n : nat) (l : list A) :
  NoDup l -> NoDup (firstn n l).
Proof.
  intros H. rewrite <- (firstn_skipn n l) in H.
  now apply NoDup_app_remove_r in H.
Qed.

Lemma rank_is_tagged (recs : list rec) (top_k : Z) :
  rank recs top_k = map snd (rank_tagged recs top_k).
Proof.
  unfold rank, rank_tagged.
  rewrite slice_to_map, sort_desc_tagged, enumerate_from_snd.
  now rewrite sort_desc_length.
Qed.

Lemma rank_tagged_In (recs : list rec) (top_k : Z) (j : nat) (r : rec) :
  In (j, r) (rank_tagged recs top_k) -> nth_error recs j = Some r.
Proof.
  unfold rank_tagged. rewrite slice_to_firstn. intros H.
  apply firstn_incl, sort_desc_In, enumerate_from_In in H.
  destruct H as [_ H]. now rewrite Nat.sub_0_r in H.
Qed.

Lemma rank_tagged_NoDup (recs : list rec) (top_k : Z) :
  NoDup (map fst (rank_tagged recs top_k)).
Proof.
  unfold rank_tagged. rewrite slice_to_firstn, <- firstn_map.
  apply firstn_NoDup.
  eapply Permutation_NoDup.
  - apply Permutation_sym, Permutation_map, sort_desc_perm.
  - rewrite enumerate_from_fst. apply seq_NoDup.
Qed.

Lemma rank_tagged_ties (recs : list rec) (top_k : Z) :
  ties_in_corpus_order (rank_tagged recs top_k).
Proof.
  unfold ties_in_corpus_order, rank_tagged.
  rewrite slice_to_firstn. intros p q a b Hpq Hp Hq Heq.
  apply firstn_nth_error_Some in Hp, Hq.
  pose proof (sorted_nth_error _ _
                (sort_enumerate_sorted final_score 0 recs)
                p q a b Hpq Hp Hq) as [_ Ht].
  now apply Ht.
Qed.

Lemma rank_filter (recs : list rec) (top_k v : Z) :
  exists rest,
    filter (fun r => (final_score r =? v)%Z) recs
    = filter (fun r => (final_score r =? v)%Z) (rank recs top_k) ++ rest.
Proof.
  unfold rank. rewrite slice_to_firstn.
  set (n := slice_len _ _).
  exists (filter (fun r => (final_score r =? v)%Z)
                 (skipn n (sort_desc final_score recs))).
  rewrite <- filter_app, firstn_skipn. symmetry. apply sort_desc_filter.
Qed.

Lemma rank_slice_length (recs : list rec) (top_k : Z) :
  List.length (rank recs top_k)
  = slice_len recs (Z.min top_k (Z.of_nat (List.length recs)))%Z.
Proof.
  unfold rank. rewrite slice_to_firstn, length_firstn.
  unfold slice_len. rewrite !sort_desc_length.
  destruct (Z.min top_k (Z.of_nat (List.length recs)) <? 0)%Z eqn:E.
  - lia.
  - apply Z.ltb_ge in E. lia.
Qed.

Lemma rank_In (recs : list rec) (top_k : Z) (r : rec) :
  In r (rank recs top_k) -> In r recs.
Proof.
  unfold rank. rewrite slice_to_firstn. intros H.
  now apply firstn_incl, sort_desc_In in H.
Qed.

End Ranking.

(* ===================================================================== *)
(** * [recommend] *)
(* ===================================================================== *)

Module Recommend.

Import Py PyFacts Model SpecWords Ranking.

Section Engine.

Variable vec : Type.
Variable encode : string -> vec.
Variable cos_sim : vec -> vec -> R.
Variable str_to_float : string -> option R.
Variable FINAL_UPLIFT_EXP : R.

(** What the loop of [recommend] builds: one row per career, in corpus
    order, each scored by [final_score_of] and labelled by [select_label]. *)
Lemma recs_loop_rows C sims_list sims_scaled trait_scores marks ws wt wm :
  forall cs i recs,
    Model.recs_loop vec encode cos_sim str_to_float FINAL_UPLIFT_EXP
      C sims_list sims_scaled trait_scores marks ws wt wm i cs = Ok recs ->
    map rec_career recs = cs
    /\ Forall (row_scored FINAL_UPLIFT_EXP) recs.
Proof.
  induction cs as [| c cs IH]; intros i recs H; simpl in H.
  - inversion H; subst. split; constructor.
  - destruct (_trait_alignment_score _ _ _ _ _ _ _) as [ts | e];
      [| discriminate].
    destruct (Model.recs_loop _ _ _ _ _ _ _ _ _ _ _ _ _ (S i) cs)
      as [recs' | e] eqn:E; [| discriminate].
    inversion H; subst; clear H.
    destruct (IH _ _ E) as [Hc Hf]. split.
    + simpl. now rewrite Hc.
    + constructor; [| assumption]. split; simpl; [| reflexivity].
      eexists. reflexivity.
Qed.

(** The result of [recommend] is the ranking of the loop's rows; the
    request's only call of the embedding model encodes the profile text as
    it came. *)
Lemma recommend_unfold C profile_text trait_scores marks top_k ws wt wm :
  Model.recommend vec encode cos_sim str_to_float FINAL_UPLIFT_EXP
    C profile_text trait_scores marks top_k ws wt wm
  = (match Model.recs_loop vec encode cos_sim str_to_float FINAL_UPLIFT_EXP
             C
             (map (cos_sim (encode profile_text)) (career_embeddings _ C))
             (_scale_sims_to_0_1
                (map (cos_sim (encode profile_text))
                     (career_embeddings _ C)))
             (match trait_scores with Some d => d | None => [] end)
             (py_or marks (PyDict []))
             ws wt wm 0 (career_list _ C) with
     | Raise e => Raise e
     | Ok recs => Ok (rank recs top_k)
     end, [profile_text]).
Proof. reflexivity. Qed.

Lemma recommend_Ok_inv C profile_text trait_scores marks top_k ws wt wm out :
  fst (Model.recommend vec encode cos_sim str_to_float FINAL_UPLIFT_EXP
         C profile_text trait_scores marks top_k ws wt wm) = Ok out ->
  exists rows,
    out = rank rows top_k
    /\ map rec_career rows = career_list _ C
    /\ Forall (row_scored FINAL_UPLIFT_EXP) rows
    /\ forall k,
         fst (Model.recommend vec encode cos_sim str_to_float
                FINAL_UPLIFT_EXP
                C profile_text trait_scores marks k ws wt wm)
         = Ok (rank rows k).
Proof.
  intros H. rewrite recommend_unfold in H. cbn [fst] in H.
  destruct (Model.recs_loop _ _ _ _ _ _ _ _ _ _ _ _ _ 0 _)
    as [rows | e] eqn:E; [| discriminate].
  inversion H; subst. exists rows.
  destruct (recs_loop_rows _ _ _ _ _ _ _ _ _ _ _ E) as [Hc Hf].
  split; [reflexivity |]. split; [assumption |]. split; [assumption |].
  intros k. rewrite recommend_unfold. cbn [fst]. now rewrite E.
Qed.

(** In the model, the trait scorer returns whenever every trait value
    converts to a float, and then so does [recommend].  (The explanation
    text that the code also writes into a row, from the sorted trait
    scores, is not part of the model: these lemmas serve to run it on
    concrete requests.) *)
Lemma trait_loop_total text trait_embs career_emb :
  forall items total_weight accum,
    numeric_values str_to_float items ->
    exists w a,
      trait_loop vec cos_sim str_to_float text trait_embs career_emb
                 items total_weight accum = Ok (w, a).
Proof.
  induction items as [| [trait raw_val] items IH];
    intros total_weight accum Hnum; simpl.
  - eauto.
  - inversion Hnum as [| ? ? [f Hf] Hrest]; subst. simpl in Hf.
    destruct (negb _ && negb _); [now apply IH |].
    rewrite Hf. destruct (Rle_dec (trait_norm f) 0); now apply IH.
Qed.

Lemma trait_alignment_total trait_scores c career_emb :
  numeric_values str_to_float trait_scores ->
  exists score,
    _trait_alignment_score vec encode cos_sim str_to_float
                           trait_scores c career_emb = Ok score.
Proof.
  intros Hnum. unfold _trait_alignment_score.
  destruct trait_scores as [| kv rest]; [eauto |].
  destruct (trait_loop_total (lower (strip (career_words c)))
              (_get_trait_embeddings vec encode) career_emb
              (kv :: rest) 0 0 Hnum) as (w & a & E).
  rewrite E. destruct (Rle_dec w 0); eauto.
Qed.

Lemma recommend_returns C profile_text trait_scores marks top_k ws wt wm :
  numeric_values str_to_float
    (match trait_scores with Some d => d | None => [] end) ->
  exists out,
    fst (Model.recommend vec encode cos_sim str_to_float FINAL_UPLIFT_EXP
           C profile_text trait_scores marks top_k ws wt wm) = Ok out.
Proof.
  intros Hnum. rewrite recommend_unfold. cbn [fst].
  set (ts := match trait_scores with Some d => d | None => [] end) in *.
  generalize 0%nat. induction (career_list vec C) as [| c cs IH]; intros i.
  - simpl. eauto.
  - simpl.
    destruct (trait_alignment_total ts c
                (nth_error (career_embeddings vec C) i) Hnum) as [t Et].
    rewrite Et. destruct (IH (S i)) as [out Eo].
    destruct (Model.recs_loop _ _ _ _ _ _ _ _ _ _ _ _ _ (S i) cs);
      [eauto | discriminate].
Qed.

(** C4. Whatever the profile text, trait scores, marks, weights and uplift
    exponent, every row that [recommend] returns has an integer
    [final_score] between 0 and 100. *)
Theorem recommend_final_score_range
  C profile_text trait_scores marks top_k ws wt wm out :
  fst (Model.recommend vec encode cos_sim str_to_float FINAL_UPLIFT_EXP
         C profile_text trait_scores marks top_k ws wt wm) = Ok out ->
  Forall (fun r => (0 <= final_score r <= 100)%Z) out.
Proof.
  intros H. apply recommend_Ok_inv in H.
  destruct H as (rows & -> & _ & Hf & _).
  apply Forall_forall. intros r Hr. apply rank_In in Hr.
  rewrite Forall_forall in Hf. destruct (Hf r Hr) as [[combined ->] _].
  apply Scoring.final_score_of_range.
Qed.

(** C2. With [rows] the rows that the loop of [recommend] builds, one per
    career and in corpus order, the returned rows are rows of distinct
    positions of [rows], and returned rows with equal [final_score] come in
    the order of these positions: for every score [v], the returned rows
    that score [v] are, in the same order, the first of the loop's rows
    that score [v]. *)
Theorem recommend_tie_stable
  C profile_text trait_scores marks top_k ws wt wm out :
  fst (Model.recommend vec encode cos_sim str_to_float FINAL_UPLIFT_EXP
         C profile_text trait_scores marks top_k ws wt wm) = Ok out ->
  exists (rows : list rec) (tagged : list (nat * rec)),
    Notions.request_rows vec encode cos_sim str_to_float FINAL_UPLIFT_EXP
      C profile_text trait_scores marks ws wt wm = Ok rows
    /\ map rec_career rows = career_list _ C
    /\ out = map snd tagged
    /\ (forall j r, In (j, r) tagged -> nth_error rows j = Some r)
    /\ NoDup (map fst tagged)
    /\ SpecWords.ties_in_corpus_order tagged
    /\ forall v, exists rest,
         filter (Notions.scores v) rows
         = filter (Notions.scores v) out ++ rest.
Proof.
  intros H. rewrite recommend_unfold in H. cbn [fst] in H.
  unfold Notions.request_rows, _cosine_similarities, model_encode.
  cbn [fst].
  destruct (Model.recs_loop _ _ _ _ _ _ _ _ _ _ _ _ _ 0 _)
    as [rows | e] eqn:E; [| discriminate].
  inversion H; subst out; clear H.
  destruct (recs_loop_rows _ _ _ _ _ _ _ _ _ _ _ E) as [Hc _].
  exists rows, (rank_tagged rows top_k).
  split; [reflexivity |]. split; [exact Hc |].
  split; [apply rank_is_tagged |].
  split; [intros j r Hin; now apply rank_tagged_In in Hin |].
  split; [apply rank_tagged_NoDup |].
  split; [apply rank_tagged_ties |].
  intros v. apply rank_filter.
Qed.

(** C10 (the claim, corrected).  [top_k] is never checked.  With [full]
    the ranking of the whole corpus of [n] entities: [top_k = 0] gives the
    empty list, and a negative [top_k] gives [full] without its last
    [|top_k|] rows and no error: the first [n - |top_k|] rows, which is the
    empty list exactly when [|top_k| >= n]. *)
Theorem recommend_nonpositive_top_k
  C profile_text trait_scores marks ws wt wm full :
  let n := List.length (career_list _ C) in
  fst (Model.recommend vec encode cos_sim str_to_float FINAL_UPLIFT_EXP
         C profile_text trait_scores marks (Z.of_nat n) ws wt wm)
  = Ok full ->
  List.length full = n
  /\ fst (Model.recommend vec encode cos_sim str_to_float FINAL_UPLIFT_EXP
         C profile_text trait_scores marks 0 ws wt wm) = Ok []
  /\ forall top_k, (top_k < 0)%Z ->
       let kept := (n - Z.to_nat (- top_k))%nat in
       fst (Model.recommend vec encode cos_sim str_to_float FINAL_UPLIFT_EXP
         C profile_text trait_scores marks top_k ws wt wm)
       = Ok (firstn kept full)
       /\ List.length (firstn kept full) = kept
       /\ full = firstn kept full ++ skipn kept full
       /\ (firstn kept full = [] <-> (Z.of_nat n <= - top_k)%Z).
Proof.
  intros n H. apply recommend_Ok_inv in H.
  destruct H as (rows & Hfull & Hc & _ & Hk).
  assert (Hn : List.length rows = n).
  { unfold n. rewrite <- Hc. now rewrite length_map. }
  assert (Hs : full = sort_desc final_score rows).
  { rewrite Hfull. unfold rank. rewrite slice_to_firstn. unfold slice_len.
    rewrite sort_desc_length, Hn, Z.min_id.
    destruct (Z.of_nat n <? 0)%Z eqn:E; [apply Z.ltb_lt in E; lia |].
    rewrite Nat2Z.id. apply firstn_all2. rewrite sort_desc_length. lia. }
  assert (Hl : List.length full = n)
    by (rewrite Hs, sort_desc_length; exact Hn).
  split; [exact Hl |]. split.
  - rewrite Hk. unfold rank. rewrite slice_to_firstn. unfold slice_len.
    rewrite sort_desc_length. rewrite Z.min_l by lia. reflexivity.
  - intros top_k Hneg kept.
    assert (Hkept : List.length (firstn kept full) = kept)
      by (rewrite length_firstn, Hl; unfold kept; lia).
    split; [| split; [| split]].
    + rewrite Hk. unfold rank. rewrite slice_to_firstn. unfold slice_len.
      rewrite sort_desc_length, Hn. rewrite Z.min_l by lia.
      apply Z.ltb_lt in Hneg. rewrite Hneg. rewrite <- Hs.
      do 2 f_equal. unfold kept. lia.
    + exact Hkept.
    + symmetry. apply firstn_skipn.
    + split; intros He.
      * rewrite He in Hkept. cbn [List.length] in Hkept. unfold kept in Hkept.
        lia.
      * replace kept with 0%nat by (unfold kept; lia). reflexivity.
Qed.

(** C7 (the code departs from the claim).  Called with the empty profile
    text, [recommend] hands the empty string itself to the embedding
    model: the only text it encodes is the empty string.  The legacy
    [sbert_recommend] of app.py does replace an empty profile text by the
    fixed phrase before encoding. *)
Theorem recommend_encodes_empty_profile
  C trait_scores marks top_k ws wt wm (legacy_embeddings : list vec) :
  snd (Model.recommend vec encode cos_sim str_to_float FINAL_UPLIFT_EXP
         C "" trait_scores marks top_k ws wt wm) = [""%string]
  /\ snd (App.sbert_similarities vec encode cos_sim legacy_embeddings "")
     = ["student seeking career guidance"%string].
Proof. split; reflexivity. Qed.

(** C8 (the code departs from the claim).  A trait score that is not a
    number (here JSON [null] under a known trait) makes the trait scorer
    raise: [float(raw_val)] is not guarded.  The marks scorer guards the
    same conversion: it skips such a value and returns a number. *)
Theorem trait_scorer_raises_on_non_numeric (c : career) (ce : option vec) :
  _trait_alignment_score vec encode cos_sim str_to_float
    [("Technical"%string, PyNone)] c ce = Raise TypeError
  /\ fst (Demo.demo_recommend "curious student"
            (Some [("Technical"%string, PyNone)]) PyNone 6)
     = Raise TypeError
  /\ _marks_alignment_score str_to_float
       (PyDict [("tenth"%string, PyDict [("math"%string, PyNone)])]) c = 0.
Proof. repeat split; reflexivity. Qed.

End Engine.

(** The request used to run the theorems on: the toy corpus, trait scores
    [{"Technical": 8, "Social": 2.5}] and the marks of the scenario. *)
Lemma demo_request_returns (top_k : Z) :
  exists out,
    fst (Demo.demo_recommend "TopTraits: Technical:8, Social:2.5"
           (Some Demo.demo_traits) (PyDict Demo.marks_90_60) top_k) = Ok out.
Proof.
  apply recommend_returns. unfold Demo.demo_traits.
  repeat constructor; simpl; eexists; reflexivity.
Qed.

Lemma recommend_final_score_range_witness :
  exists out,
    fst (Demo.demo_recommend "TopTraits: Technical:8, Social:2.5"
           (Some Demo.demo_traits) (PyDict Demo.marks_90_60) 6) = Ok out
    /\ Forall (fun r => (0 <= final_score r <= 100)%Z) out.
Proof.
  destruct (demo_request_returns 6) as [out E].
  exists out. split; [exact E |].
  exact (recommend_final_score_range
           string Demo.demo_encode Demo.demo_cos_sim Demo.demo_str_to_float
           0.6 Demo.demo_corpus "TopTraits: Technical:8, Social:2.5"
           (Some Demo.demo_traits) (PyDict Demo.marks_90_60) 6
           0.65 0.25 0.10 out E).
Defined.

Lemma recommend_nonpositive_top_k_witness :
  exists full,
    fst (Demo.demo_recommend "TopTraits: Technical:8, Social:2.5"
           (Some Demo.demo_traits) (PyDict Demo.marks_90_60) 2) = Ok full
    /\ List.length full = 2%nat
    /\ fst (Demo.demo_recommend "TopTraits: Technical:8, Social:2.5"
              (Some Demo.demo_traits) (PyDict Demo.marks_90_60) 0) = Ok []
    /\ fst (Demo.demo_recommend "TopTraits: Technical:8, Social:2.5"
              (Some Demo.demo_traits) (PyDict Demo.marks_90_60) (-1))
       = Ok (firstn 1 full)
    /\ List.length (firstn 1 full) = 1%nat
    /\ fst (Demo.demo_recommend "TopTraits: Technical:8, Social:2.5"
              (Some Demo.demo_traits) (PyDict Demo.marks_90_60) (-5))
       = Ok [].
Proof.
  destruct (demo_request_returns 2) as [full E].
  exists full. split; [exact E |].
  pose proof (recommend_nonpositive_top_k
                string Demo.demo_encode Demo.demo_cos_sim
                Demo.demo_str_to_float 0.6 Demo.demo_corpus
                "TopTraits: Technical:8, Social:2.5"
                (Some Demo.demo_traits) (PyDict Demo.marks_90_60)
                0.65 0.25 0.10 full E)
    as (Hlen & Hzero & Hneg).
  split; [exact Hlen |]. split; [exact Hzero |].
  destruct (Hneg (-1)%Z ltac:(lia)) as (H1 & L1 & _ & _).
  destruct (Hneg (-5)%Z ltac:(lia)) as (H5 & _ & _ & _).
  split; [exact H1 |]. split; [exact L1 |]. exact H5.
Defined.

(** C10 (the claim as worded fails).  On the corpus of two careers the
    ranked list has two rows, and [top_k = -2] returns the empty list. *)
Lemma negative_top_k_returns_empty_list :
  exists full,
    fst (Demo.demo_recommend "TopTraits: Technical:8, Social:2.5"
           (Some Demo.demo_traits) (PyDict Demo.marks_90_60) 2) = Ok full
    /\ List.length full = 2%nat
    /\ fst (Demo.demo_recommend "TopTraits: Technical:8, Social:2.5"
              (Some Demo.demo_traits) (PyDict Demo.marks_90_60) (-2))
       = Ok [].
Proof.
  destruct (demo_request_returns 2) as [full E].
  exists full. split; [exact E |].
  apply recommend_Ok_inv in E. destruct E as (rows & Hfull & Hc & _ & Hk).
  assert (Hn : List.length rows = 2%nat)
    by (rewrite <- (length_map rec_career), Hc; reflexivity).
  split.
  - rewrite Hfull, rank_slice_length. unfold slice_len. rewrite Hn.
    reflexivity.
  - unfold Demo.demo_recommend. rewrite Hk. f_equal.
    apply length_zero_iff_nil. rewrite rank_slice_length. unfold slice_len.
    rewrite Hn. reflexivity.
Qed.

End Recommend.

(* ===================================================================== *)
(** * The similarity engine: normalization *)
(* ===================================================================== *)

Module Similarity.

Import Py PyFacts Model.

Lemma fold_left_Rmin_spec (xs : list R) :
  forall x,
    let m := fold_left Rmin xs x in
    m <= x /\ Forall (fun y => m <= y) xs /\ (m = x \/ In m xs).
Proof.
  induction xs as [| y xs IH]; intros x; simpl.
  - repeat split; [lra | constructor | now left].
  - destruct (IH (Rmin x y)) as (Hle & Hall & Hin).
    pose proof (Rmin_l x y). pose proof (Rmin_r x y).
    repeat split.
    + lra.
    + constructor; [lra | exact Hall].
    + destruct Hin as [E | Hin]; [| now right; right].
      rewrite E. unfold Rmin.
      destruct (Rle_dec x y); [now left | right; now left].
Qed.

Lemma fold_left_Rmax_spec (xs : list R) :
  forall x,
    let m := fold_left Rmax xs x in
    x <= m /\ Forall (fun y => y <= m) xs /\ (m = x \/ In m xs).
Proof.
  induction xs as [| y xs IH]; intros x; simpl.
  - repeat split; [lra | constructor | now left].
  - destruct (IH (Rmax x y)) as (Hle & Hall & Hin).
    pose proof (Rmax_l x y). pose proof (Rmax_r x y).
    repeat split.
    + lra.
    + constructor; [lra | exact Hall].
    + destruct Hin as [E | Hin]; [| now right; right].
      rewrite E. unfold Rmax.
      destruct (Rle_dec x y); [right; now left | now left].
Qed.

Lemma list_min_is_min (x : R) (xs : list R) :
  SpecWords.is_min_of (list_min x xs) (x :: xs).
Proof.
  destruct (fold_left_Rmin_spec xs x) as (Hle & Hall & Hin).
  split.
  - destruct Hin as [E | Hin]; [left; symmetry; exact E | now right].
  - constructor; assumption.
Qed.

Lemma list_max_is_max (x : R) (xs : list R) :
  SpecWords.is_max_of (list_max x xs) (x :: xs).
Proof.
  destruct (fold_left_Rmax_spec xs x) as (Hle & Hall & Hin).
  split.
  - destruct Hin as [E | Hin]; [left; symmetry; exact E | now right].
  - constructor; assumption.
Qed.

Lemma nth_map_in_range (f : R -> R) (l : list R) (i : nat) :
  (i < List.length l)%nat -> nth i (map f l) 0 = f (nth i l 0).
Proof.
  intros H. rewrite (nth_indep _ 0 (f 0)) by now rewrite length_map.
  apply map_nth.
Qed.

(** C3. For a non-empty list [raw] of raw similarities, with [lo] its least
    and [hi] its greatest element, the normalization returns one value per
    entity: [(raw[i] - lo) / (hi - lo)] when [hi - lo > 1e-9], and
    [clamp(raw[i] / 0.6, 0, 1)] when [hi - lo <= 1e-9]; two entities with
    the same raw similarity both get [clamp(raw / 0.6, 0, 1)]. *)
Theorem scale_sims_min_max_or_fallback (raw : list R) :
  raw <> [] ->
  exists lo hi,
    SpecWords.is_min_of lo raw /\ SpecWords.is_max_of hi raw
    /\ List.length (_scale_sims_to_0_1 raw) = List.length raw
    /\ (hi - lo > 1e-9 ->
        forall i, (i < List.length raw)%nat ->
          nth i (_scale_sims_to_0_1 raw) 0 = (nth i raw 0 - lo) / (hi - lo))
    /\ (hi - lo <= 1e-9 ->
        forall i, (i < List.length raw)%nat ->
          nth i (_scale_sims_to_0_1 raw) 0
          = SpecWords.clamp (nth i raw 0 / 0.6) 0 1)
    /\ (forall r, raw = [r; r] ->
          _scale_sims_to_0_1 raw
          = [SpecWords.clamp (r / 0.6) 0 1; SpecWords.clamp (r / 0.6) 0 1]).
Proof.
  destruct raw as [| x xs]; [congruence | intros _].
  exists (list_min x xs), (list_max x xs).
  split; [apply list_min_is_min |]. split; [apply list_max_is_max |].
  assert (Hfb : forall s,
             Rmax 0 (Rmin 1 (if Rlt_dec 0 0.6 then s / 0.6 else 0))
             = SpecWords.clamp (s / 0.6) 0 1).
  { intros s. destruct (Rlt_dec 0 0.6) as [_ | N]; [| lra].
    apply Scoring.clamp_is_max_min. lra. }
  unfold _scale_sims_to_0_1.
  set (lo := list_min x xs). set (hi := list_max x xs).
  split; [| split; [| split]].
  - destruct (Rlt_dec 1e-9 (hi - lo)); now rewrite length_map.
  - intros Hspan i Hi.
    destruct (Rlt_dec 1e-9 (hi - lo)) as [_ | N]; [| lra].
    now rewrite nth_map_in_range.
  - intros Hspan i Hi.
    destruct (Rlt_dec 1e-9 (hi - lo)) as [Y | _]; [lra |].
    rewrite nth_map_in_range by assumption. apply Hfb.
  - intros r E. inversion E; subst x xs.
    assert (Elo : lo = r).
    { unfold lo, list_min. simpl. unfold Rmin. now destruct (Rle_dec r r). }
    assert (Ehi : hi = r).
    { unfold hi, list_max. simpl. unfold Rmax. now destruct (Rle_dec r r). }
    destruct (Rlt_dec 1e-9 (hi - lo)) as [Y | _]; [lra |].
    simpl. now rewrite !Hfb.
Qed.

Lemma scale_sims_min_max_or_fallback_witness :
  [0.3; 0.3] <> [] /\
  _scale_sims_to_0_1 [0.3; 0.3]
  = [SpecWords.clamp (0.3 / 0.6) 0 1; SpecWords.clamp (0.3 / 0.6) 0 1].
Proof.
  split; [discriminate |].
  destruct (scale_sims_min_max_or_fallback [0.3; 0.3] ltac:(discriminate))
    as (lo & hi & _ & _ & _ & _ & _ & Hflat).
  exact (Hflat 0.3 eq_refl).
Defined.

End Similarity.

(* ===================================================================== *)
(** * Trait alignment: the weight of a trait *)
(* ===================================================================== *)

Module Traits.

Import Py PyFacts Model.

Lemma trait_norm_saturates (v : R) : 10 <= v -> trait_norm v = 1.
Proof.
  intros H. unfold trait_norm, Rmax, Rmin.
  destruct (Rle_dec 10 v); destruct (Rle_dec 0 _); lra.
Qed.

(** C6, as stated, fails: no trait value above 10 gets a weight that
    differs from the weight of the value 10. *)
Lemma trait_weight_above_10_not_as_is :
  ~ (exists v : R, v > 10 /\ trait_norm v <> trait_norm 10).
Proof.
  intros (v & Hv & Hneq). apply Hneq.
  rewrite (trait_norm_saturates v), (trait_norm_saturates 10); lra.
Qed.

(** C6, amended.  The trait-alignment formula clamps a trait score to
    [0,10] before use: a trait value above 10 has the weight of the value
    10, which is 1, and the scorer's loop treats it as the value 10. *)
Theorem trait_weight_clamped_above_10 (v : R) :
  10 < v ->
  trait_norm v = trait_norm 10
  /\ trait_norm v = 1
  /\ forall (vec : Type) (cos_sim : vec -> vec -> R)
            (str_to_float : string -> option R)
            (text : string) (trait_embs : list (string * vec))
            (career_emb : option vec) (trait : string) (items : pydict)
            (total_weight accum : R),
       trait_loop vec cos_sim str_to_float text trait_embs career_emb
                  ((trait, PyFloat v) :: items) total_weight accum
       = trait_loop vec cos_sim str_to_float text trait_embs career_emb
                    ((trait, PyFloat 10) :: items) total_weight accum.
Proof.
  intros Hv.
  assert (E : trait_norm v = trait_norm 10)
    by (rewrite (trait_norm_saturates v), (trait_norm_saturates 10); lra).
  split; [exact E |]. split; [apply trait_norm_saturates; lra |].
  intros. simpl. now rewrite E.
Qed.

Lemma trait_weight_clamped_above_10_witness :
  10 < 12 /\ trait_norm 12 = trait_norm 10.
Proof.
  split; [lra | exact (proj1 (trait_weight_clamped_above_10 12 ltac:(lra)))].
Defined.

End Traits.

(* ===================================================================== *)
(** * Marks alignment: flattening the two levels *)
(* ===================================================================== *)

Module Marks.

Import Py PyFacts Model.

Lemma dict_get_set {V : Type} (d : list (string * V)) (k k' : string) (v : V) :
  dict_get (dict_set d k v) k'
  = if String.eqb k k' then Some v else dict_get d k'.
Proof.
  induction d as [| [k0 v0] d IH]; simpl.
  - destruct (String.eqb k k'); reflexivity.
  - destruct (String.eqb k0 k) eqn:E0; simpl.
    + apply String.eqb_eq in E0. subst k0.
      destruct (String.eqb k k'); reflexivity.
    + destruct (String.eqb k0 k') eqn:E1.
      * apply String.eqb_eq in E1. subst k'.
        rewrite String.eqb_sym in E0. now rewrite E0.
      * exact IH.
Qed.

Section Flatten.

Variable str_to_float : string -> option R.

(** What one level leaves under [key]: the running maximum, started at
    the value already there (0.0 when there is none), over the level's
    numeric scores under that key. *)
Lemma merge_level_get (key : string) (lvl : pydict) :
  forall subj_scores,
    dict_get (merge_level str_to_float lvl subj_scores) key
    = match SpecWords.scores_under str_to_float key lvl with
      | [] => dict_get subj_scores key
      | ss => Some (fold_left Rmax ss
                            (SpecWords.or_zero (dict_get subj_scores key)))
      end.
Proof.
  induction lvl as [| [k v] lvl IH]; intros subj_scores; simpl;
    [reflexivity |].
  destruct (float_of str_to_float v) as [s | e]; [| apply IH].
  rewrite IH, dict_get_set.
  destruct (String.eqb (lower k) key) eqn:E.
  - apply String.eqb_eq in E. subst key. simpl.
    unfold SpecWords.or_zero.
    destruct (SpecWords.scores_under str_to_float (lower k) lvl); reflexivity.
  - reflexivity.
Qed.

(** The flattened score of [key] when both levels resolve to a dict. *)
Lemma flatten_marks_get (marks d12 d10 : pydict) (key : string) :
  level_of marks "twelfth" = PyDict d12 ->
  level_of marks "tenth" = PyDict d10 ->
  dict_get (flatten_marks str_to_float marks) key
  = match SpecWords.scores_under str_to_float key d12
          ++ SpecWords.scores_under str_to_float key d10 with
    | [] => None
    | ss => Some (fold_left Rmax ss 0)
    end.
Proof.
  intros H12 H10. unfold flatten_marks. simpl. rewrite H12, H10.
  rewrite !merge_level_get. simpl.
  destruct (SpecWords.scores_under str_to_float key d12) as [| a ss12];
    destruct (SpecWords.scores_under str_to_float key d10) as [| b ss10]; simpl;
    rewrite ?app_nil_r, ?fold_left_app; reflexivity.
Qed.

(** C5, amended.  When a subject key (compared case-insensitively) has one
    numeric score [a] at the twelfth level and one numeric score [b] at
    the tenth level, the flattened score of the subject is the maximum of
    0.0, [a] and [b]; it is the maximum of the two scores as soon as one
    of them is not negative. *)
Theorem flatten_marks_floored_max
  (marks d12 d10 : pydict) (key : string) (a b : R) :
  level_of marks "twelfth" = PyDict d12 ->
  level_of marks "tenth" = PyDict d10 ->
  SpecWords.scores_under str_to_float key d12 = [a] ->
  SpecWords.scores_under str_to_float key d10 = [b] ->
  dict_get (flatten_marks str_to_float marks) key
  = Some (Rmax 0 (Rmax a b))
  /\ (0 <= a \/ 0 <= b ->
      dict_get (flatten_marks str_to_float marks) key = Some (Rmax a b)).
Proof.
  intros H12 H10 Ha Hb.
  rewrite (flatten_marks_get marks d12 d10 key H12 H10), Ha, Hb. simpl.
  assert (E : Rmax (Rmax 0 a) b = Rmax 0 (Rmax a b)).
  { unfold Rmax. repeat destruct (Rle_dec _ _); lra. }
  rewrite E. split; [reflexivity |].
  intros Hpos. f_equal. unfold Rmax.
  repeat destruct (Rle_dec _ _); lra.
Qed.

End Flatten.

Lemma flatten_marks_floored_max_witness :
  level_of Demo.marks_90_60 "twelfth" = PyDict [("math"%string, PyInt 60)]
  /\ level_of Demo.marks_90_60 "tenth" = PyDict [("math"%string, PyInt 90)]
  /\ SpecWords.scores_under Demo.demo_str_to_float "math"
       [("math"%string, PyInt 60)] = [60]
  /\ SpecWords.scores_under Demo.demo_str_to_float "math"
       [("math"%string, PyInt 90)] = [90]
  /\ dict_get (flatten_marks Demo.demo_str_to_float Demo.marks_90_60) "math"
     = Some 90.
Proof.
  repeat (split; [reflexivity |]).
  destruct (flatten_marks_floored_max Demo.demo_str_to_float
              Demo.marks_90_60 _ _ "math" 60 90
              eq_refl eq_refl eq_refl eq_refl) as [_ H].
  rewrite H by (left; lra). f_equal. apply Rmax_right. lra.
Defined.

(** C5, as stated, fails: with the marks
    [{"tenth": {"math": -10}, "twelfth": {"math": -20}}] the flattened score
    of "math" is 0.0, not the maximum of the two scores, -10. *)
Lemma flatten_marks_negative_scores :
  dict_get (flatten_marks Demo.demo_str_to_float Demo.marks_negative) "math"
  = Some 0
  /\ Rmax (-10) (-20) = -10
  /\ dict_get (flatten_marks Demo.demo_str_to_float Demo.marks_negative) "math"
     <> Some (Rmax (-10) (-20)).
Proof.
  assert (E : dict_get (flatten_marks Demo.demo_str_to_float
                                      Demo.marks_negative) "math" = Some 0).
  { rewrite (flatten_marks_get Demo.demo_str_to_float Demo.marks_negative
               [("math"%string, PyInt (-20))] [("math"%string, PyInt (-10))]
               "math" eq_refl eq_refl).
    simpl. f_equal. unfold Rmax. repeat destruct (Rle_dec _ _); lra. }
  assert (M : Rmax (-10) (-20) = -10) by (apply Rmax_left; lra).
  split; [exact E |]. split; [exact M |].
  rewrite E, M. intros H. inversion H. lra.
Qed.

End Marks.

(* ===================================================================== *)
(** * More on the similarity engine *)
(* ===================================================================== *)

Module SimilarityRange.

Import Py PyFacts Model.

Lemma div_unit (n d : R) : 0 < d -> 0 <= n <= d -> 0 <= n / d <= 1.
Proof.
  intros Hd [H0 H1]. unfold Rdiv.
  pose proof (Rinv_0_lt_compat d Hd) as Hi.
  split; [nra |].
  replace 1 with (d * / d) by (field; lra). nra.
Qed.

Lemma div_mono (a b d : R) : 0 < d -> a <= b -> a / d <= b / d.
Proof.
  intros Hd Hab. unfold Rdiv.
  pose proof (Rinv_0_lt_compat d Hd). nra.
Qed.

Lemma is_min_of_unique (m m' : R) (l : list R) :
  SpecWords.is_min_of m l -> SpecWords.is_min_of m' l -> m = m'.
Proof.
  intros [Hin Hall] [Hin' Hall']. rewrite Forall_forall in Hall, Hall'.
  pose proof (Hall _ Hin'). pose proof (Hall' _ Hin). lra.
Qed.

Lemma is_max_of_unique (m m' : R) (l : list R) :
  SpecWords.is_max_of m l -> SpecWords.is_max_of m' l -> m = m'.
Proof.
  intros [Hin Hall] [Hin' Hall']. rewrite Forall_forall in Hall, Hall'.
  pose proof (Hall _ Hin'). pose proof (Hall' _ Hin). lra.
Qed.

(** X1. [_scale_sims_to_0_1] returns one value per similarity, and every
    value lies in [0,1], on the min-max branch and on the fallback branch
    alike. *)
Theorem scale_sims_unit_interval (raw : list R) :
  List.length (_scale_sims_to_0_1 raw) = List.length raw
  /\ Forall (fun s => 0 <= s <= 1) (_scale_sims_to_0_1 raw).
Proof.
  destruct raw as [| x xs]; [split; [reflexivity | constructor] |].
  destruct (Similarity.list_min_is_min x xs) as [_ Hlo].
  destruct (Similarity.list_max_is_max x xs) as [_ Hhi].
  rewrite Forall_forall in Hlo, Hhi.
  unfold _scale_sims_to_0_1.
  set (lo := list_min x xs) in *. set (hi := list_max x xs) in *.
  destruct (Rlt_dec 1e-9 (hi - lo)) as [Hspan | Hflat];
    (split; [now rewrite length_map |]);
    apply Forall_forall; intros s Hs;
    apply in_map_iff in Hs; destruct Hs as (r & <- & Hr).
  - pose proof (Hlo r Hr). pose proof (Hhi r Hr).
    apply div_unit; lra.
  - apply clamp_bounds. lra.
Qed.

(** X2. On the min-max branch (span above 1e-9) the least similarity is
    sent to 0 and the greatest to 1: both values occur in the result. *)
Theorem scale_sims_reaches_0_and_1 (raw : list R) (lo hi : R) :
  SpecWords.is_min_of lo raw ->
  SpecWords.is_max_of hi raw ->
  hi - lo > 1e-9 ->
  In 0 (_scale_sims_to_0_1 raw) /\ In 1 (_scale_sims_to_0_1 raw).
Proof.
  intros Hmin Hmax Hspan.
  destruct raw as [| x xs]; [destruct Hmin as [[] _] |].
  pose proof (is_min_of_unique _ _ _ Hmin (Similarity.list_min_is_min x xs))
    as El.
  pose proof (is_max_of_unique _ _ _ Hmax (Similarity.list_max_is_max x xs))
    as Eh.
  unfold _scale_sims_to_0_1.
  set (l := list_min x xs) in *. set (h := list_max x xs) in *.
  subst lo hi.
  destruct (Rlt_dec 1e-9 (h - l)) as [_ | N]; [| lra].
  split; apply in_map_iff.
  - exists l. split; [unfold Rdiv; field; lra | apply Hmin].
  - exists h. split; [unfold Rdiv; field; lra | apply Hmax].
Qed.

Lemma scale_sims_reaches_0_and_1_witness :
  In 0 (_scale_sims_to_0_1 [0.5; 0.2; 0.8])
  /\ In 1 (_scale_sims_to_0_1 [0.5; 0.2; 0.8]).
Proof.
  apply (scale_sims_reaches_0_and_1 [0.5; 0.2; 0.8] 0.2 0.8).
  - split; [simpl; auto | repeat constructor; lra].
  - split; [simpl; auto | repeat constructor; lra].
  - lra.
Defined.

(** X3. Normalization never reverses the order of the similarities: an
    entity whose raw similarity is not larger never gets a larger
    normalized value, on the min-max branch and on the flat branch alike. *)
Theorem scale_sims_order_preserving (raw : list R) (i j : nat) :
  (i < List.length raw)%nat ->
  (j < List.length raw)%nat ->
  nth i raw 0 <= nth j raw 0 ->
  nth i (_scale_sims_to_0_1 raw) 0 <= nth j (_scale_sims_to_0_1 raw) 0.
Proof.
  intros Hi Hj Hle.
  destruct raw as [| x xs]; [simpl in Hi; lia |].
  unfold _scale_sims_to_0_1.
  set (l := list_min x xs). set (h := list_max x xs).
  destruct (Rlt_dec 1e-9 (h - l)) as [Hspan | Hflat];
    rewrite !Similarity.nth_map_in_range by assumption.
  - apply div_mono; lra.
  - apply clamp_mono. destruct (Rlt_dec 0 0.6); [| lra].
    apply div_mono; lra.
Qed.

Lemma scale_sims_order_preserving_witness :
  nth 1 (_scale_sims_to_0_1 [0.5; 0.2; 0.8]) 0
  <= nth 0 (_scale_sims_to_0_1 [0.5; 0.2; 0.8]) 0.
Proof.
  refine (scale_sims_order_preserving [0.5; 0.2; 0.8] 1 0 _ _ _);
    simpl; try lia; lra.
Defined.

End SimilarityRange.

(* ===================================================================== *)
(** * The two alignment scorers: range and edge cases *)
(* ===================================================================== *)

Module ScorerRange.

Import Py PyFacts Model Notions.

Lemma frac_unit (a n : nat) :
  (a <= n)%nat -> 0 <= INR a / INR (Nat.max 1 n) <= 1.
Proof.
  intros H. apply SimilarityRange.div_unit.
  - apply lt_0_INR. lia.
  - split; [apply pos_INR | apply le_INR; lia].
Qed.

Lemma count_found_le (kws : list string) (text : string) :
  (count_found kws text <= List.length kws)%nat.
Proof. unfold count_found. apply filter_length_le. Qed.

(** The keyword fraction of a trait lies in [0,1], and it is 0 for a
    name that is not one of the fixed traits. *)
Theorem keyword_fraction_unit_interval (trait career_text : string) :
  0 <= _keyword_fraction_for_trait trait career_text <= 1
  /\ (has_key TRAIT_KEYWORDS trait = false ->
      _keyword_fraction_for_trait trait career_text = 0).
Proof.
  unfold _keyword_fraction_for_trait, has_key.
  destruct (dict_get TRAIT_KEYWORDS trait) as [[| kw kws] |].
  - split; [lra | reflexivity].
  - split; [apply frac_unit, count_found_le | discriminate].
  - split; [lra | reflexivity].
Qed.

Lemma keyword_fraction_unit_interval_witness :
  has_key TRAIT_KEYWORDS "Musical" = false
  /\ _keyword_fraction_for_trait "Musical" "piano teacher" = 0.
Proof.
  split; [reflexivity |].
  exact (proj2 (keyword_fraction_unit_interval "Musical" "piano teacher")
               eq_refl).
Defined.

Section Traits.

Variable vec : Type.
Variable encode : string -> vec.
Variable cos_sim : vec -> vec -> R.
Variable str_to_float : string -> option R.

Lemma emb_sim_of_unit trait_embs career_emb trait :
  0 <= emb_sim_of vec cos_sim trait_embs career_emb trait <= 1.
Proof.
  unfold emb_sim_of.
  destruct career_emb as [ce |]; [| lra].
  destruct (dict_get trait_embs trait); [| lra].
  apply clamp_bounds. lra.
Qed.

Lemma trait_loop_bounds text trait_embs career_emb :
  forall items total_weight accum w a,
    0 <= accum <= total_weight ->
    trait_loop vec cos_sim str_to_float text trait_embs career_emb
               items total_weight accum = Ok (w, a) ->
    0 <= a <= w.
Proof.
  induction items as [| [trait raw_val] items IH];
    intros total_weight accum w a Hinv H; simpl in H.
  - inversion H; subst. exact Hinv.
  - destruct (negb _ && negb _); [now apply (IH _ _ _ _ Hinv) |].
    destruct (float_of str_to_float raw_val) as [f | e]; [| discriminate].
    destruct (Rle_dec (trait_norm f) 0) as [Hz | Hpos];
      [now apply (IH _ _ _ _ Hinv) |].
    refine (IH _ _ _ _ _ H).
    pose proof (proj1 (keyword_fraction_unit_interval trait text)) as Hk.
    pose proof (emb_sim_of_unit trait_embs career_emb trait) as He.
    set (kw := _keyword_fraction_for_trait trait text) in *.
    set (em := emb_sim_of vec cos_sim trait_embs career_emb trait) in *.
    assert (Hp : 0 <= Rmax kw em <= 1).
    { unfold Rmax. destruct (Rle_dec kw em); lra. }
    nra.
Qed.

(** X4. Whenever the trait scorer returns, its score lies in [0,1]: it is a
    weighted average of per-trait relevances that lie in [0,1]. *)
Theorem trait_alignment_unit_interval
  (trait_scores : pydict) (c : career) (career_emb : option vec) (s : R) :
  _trait_alignment_score vec encode cos_sim str_to_float
                         trait_scores c career_emb = Ok s ->
  0 <= s <= 1.
Proof.
  unfold _trait_alignment_score.
  destruct trait_scores as [| kv rest]; [intros H; inversion H; lra |].
  destruct (trait_loop _ _ _ _ _ _ _ _ _) as [[w a] | e] eqn:E;
    [| discriminate].
  apply trait_loop_bounds in E; [| lra].
  destruct (Rle_dec w 0); intros H; inversion H; subst; [lra |].
  apply SimilarityRange.div_unit; lra.
Qed.

Lemma has_key_trait_embeddings (trait : string) :
  has_key (_get_trait_embeddings vec encode) trait
  = has_key TRAIT_KEYWORDS trait.
Proof.
  unfold _get_trait_embeddings, has_key.
  induction TRAIT_KEYWORDS as [| [k kws] table IH]; simpl; [reflexivity |].
  destruct (String.eqb k trait); [reflexivity | exact IH].
Qed.

Lemma trait_loop_filter text career_emb :
  forall items total_weight accum,
    trait_loop vec cos_sim str_to_float text
               (_get_trait_embeddings vec encode) career_emb
               items total_weight accum
    = trait_loop vec cos_sim str_to_float text
                 (_get_trait_embeddings vec encode) career_emb
                 (filter known_trait items) total_weight accum.
Proof.
  induction items as [| [trait raw_val] items IH];
    intros total_weight accum; [reflexivity |].
  cbn [filter]. unfold known_trait at 1. cbn [fst].
  destruct (has_key TRAIT_KEYWORDS trait) eqn:K.
  - cbn [trait_loop]. rewrite has_key_trait_embeddings, K. cbn [negb andb].
    destruct (float_of str_to_float raw_val) as [f | e]; [| reflexivity].
    destruct (Rle_dec (trait_norm f) 0); apply IH.
  - cbn [trait_loop]. rewrite has_key_trait_embeddings, K. cbn [negb andb].
    apply IH.
Qed.

(** X5. The trait scorer looks only at the entries of the fixed traits: an
    entry under any other name is skipped before its value is converted, so
    dropping such entries changes neither the score nor whether the scorer
    raises. *)
Theorem trait_alignment_ignores_unknown_traits
  (trait_scores : pydict) (c : career) (career_emb : option vec) :
  _trait_alignment_score vec encode cos_sim str_to_float
                         trait_scores c career_emb
  = _trait_alignment_score vec encode cos_sim str_to_float
                           (filter known_trait trait_scores) c career_emb.
Proof.
  unfold _trait_alignment_score.
  destruct trait_scores as [| kv rest]; [reflexivity |].
  rewrite trait_loop_filter.
  destruct (filter known_trait (kv :: rest)) as [| kv' rest'];
    [| reflexivity].
  simpl. destruct (Rle_dec 0 0); [reflexivity | lra].
Qed.

Lemma trait_loop_no_positive text trait_embs career_emb :
  forall items total_weight accum,
    no_positive_value str_to_float items ->
    trait_loop vec cos_sim str_to_float text trait_embs career_emb
               items total_weight accum = Ok (total_weight, accum).
Proof.
  induction items as [| [trait raw_val] items IH];
    intros total_weight accum Hnp; [reflexivity |].
  inversion Hnp as [| ? ? (r & Hr & Hle) Hrest]; subst. simpl in Hr.
  simpl. destruct (negb _ && negb _); [now apply IH |].
  rewrite Hr.
  assert (Hz : trait_norm r = 0).
  { unfold trait_norm, Rmax, Rmin.
    destruct (Rle_dec 10 r); destruct (Rle_dec 0 _); lra. }
  rewrite Hz. destruct (Rle_dec 0 0); [now apply IH | lra].
Qed.

(** X6. When no trait has a positive score (every value converts to a float
    that is at most 0), the trait scorer returns exactly 0 for every
    career. *)
Theorem trait_alignment_zero_without_positive_trait
  (trait_scores : pydict) (c : career) (career_emb : option vec) :
  no_positive_value str_to_float trait_scores ->
  _trait_alignment_score vec encode cos_sim str_to_float
                         trait_scores c career_emb = Ok 0.
Proof.
  intros Hnp. unfold _trait_alignment_score.
  destruct trait_scores as [| kv rest]; [reflexivity |].
  rewrite (trait_loop_no_positive _ _ _ _ _ _ Hnp).
  destruct (Rle_dec 0 0); [reflexivity | lra].
Qed.

End Traits.

Lemma trait_alignment_unit_interval_witness :
  exists s,
    _trait_alignment_score string Demo.demo_encode Demo.demo_cos_sim
      Demo.demo_str_to_float Demo.demo_traits Demo.developer None = Ok s
    /\ 0 <= s <= 1.
Proof.
  destruct (Recommend.trait_alignment_total string Demo.demo_encode
              Demo.demo_cos_sim Demo.demo_str_to_float
              Demo.demo_traits Demo.developer None) as [s E].
  { unfold Demo.demo_traits. repeat constructor; simpl; eexists; reflexivity. }
  exists s. split; [exact E |].
  exact (trait_alignment_unit_interval string Demo.demo_encode
           Demo.demo_cos_sim Demo.demo_str_to_float
           Demo.demo_traits Demo.developer None s E).
Defined.

Lemma trait_alignment_zero_without_positive_trait_witness :
  _trait_alignment_score string Demo.demo_encode Demo.demo_cos_sim
    Demo.demo_str_to_float
    [("Technical"%string, PyInt 0); ("Social"%string, PyFloat (-2))]
    Demo.developer None = Ok 0.
Proof.
  apply trait_alignment_zero_without_positive_trait.
  repeat constructor; simpl; eexists; (split; [reflexivity | lra]).
Defined.

End ScorerRange.

(* ===================================================================== *)
(** * Marks alignment: what the flattening keeps, and the range *)
(* ===================================================================== *)

Module MarksRange.

Import Py PyFacts Model.

Lemma lower_ascii_idem (c : ascii) :
  lower_ascii (lower_ascii c) = lower_ascii c.
Proof. destruct c as [[] [] [] [] [] [] [] []]; reflexivity. Qed.

Lemma lower_idem (s : string) : lower (lower s) = lower s.
Proof.
  induction s as [| c s IH]; simpl; [reflexivity |].
  now rewrite lower_ascii_idem, IH.
Qed.

Lemma dict_get_In {V : Type} (d : list (string * V)) (k : string) (v : V) :
  dict_get d k = Some v -> In (k, v) d.
Proof.
  induction d as [| [k0 v0] d IH]; simpl; [discriminate |].
  destruct (String.eqb k0 k) eqn:E.
  - apply String.eqb_eq in E. intros H. inversion H; subst. now left.
  - intros H. right. now apply IH.
Qed.

Lemma dict_set_keys {V : Type} (d : list (string * V)) (k x : string) (v : V) :
  In x (map fst (dict_set d k v)) -> x = k \/ In x (map fst d).
Proof.
  induction d as [| [k0 v0] d IH]; simpl.
  - intros [<- | []]. now left.
  - destruct (String.eqb k0 k) eqn:E; simpl.
    + intros [<- | H]; right; [now left | now right].
    + intros [<- | H]; [right; now left |].
      destruct (IH H); [now left | right; now right].
Qed.

Lemma dict_set_NoDup {V : Type} (d : list (string * V)) (k : string) (v : V) :
  NoDup (map fst d) -> NoDup (map fst (dict_set d k v)).
Proof.
  induction d as [| [k0 v0] d IH]; simpl; intros H.
  - constructor; [intros [] | constructor].
  - inversion H as [| ? ? Hnotin Hd]; subst.
    destruct (String.eqb k0 k) eqn:E; simpl.
    + constructor; assumption.
    + constructor; [| now apply IH].
      intros Hin. apply dict_set_keys in Hin. destruct Hin as [-> | Hin].
      * rewrite String.eqb_refl in E. discriminate.
      * contradiction.
Qed.

Lemma dict_set_Forall {V : Type} (P : string * V -> Prop)
  (d : list (string * V)) (k : string) (v : V) :
  Forall P d -> P (k, v) -> Forall P (dict_set d k v).
Proof.
  induction d as [| [k0 v0] d IH]; simpl; intros Hd Hp.
  - constructor; [assumption | constructor].
  - inversion Hd; subst.
    destruct (String.eqb k0 k) eqn:E.
    + apply String.eqb_eq in E. subst k0. constructor; assumption.
    + constructor; [assumption | now apply IH].
Qed.

Section Flatten.

Variable str_to_float : string -> option R.

Lemma merge_level_kept (lvl : pydict) :
  forall subj_scores,
    Notions.flatten_kept subj_scores ->
    Notions.flatten_kept (merge_level str_to_float lvl subj_scores).
Proof.
  induction lvl as [| [k v] lvl IH]; intros subj_scores Hk; simpl;
    [exact Hk |].
  destruct (float_of str_to_float v) as [s | e]; [| now apply IH].
  apply IH. destruct Hk as [Hnd Hall]. split.
  - now apply dict_set_NoDup.
  - apply dict_set_Forall; [exact Hall |]. simpl.
    split; [apply lower_idem |].
    assert (Hold : 0 <= match dict_get subj_scores (lower k) with
                        | Some o => o
                        | None => 0
                        end).
    { destruct (dict_get subj_scores (lower k)) as [o |] eqn:G; [| lra].
      apply dict_get_In in G. rewrite Forall_forall in Hall.
      now destruct (Hall _ G). }
    pose proof (Rmax_l (match dict_get subj_scores (lower k) with
                        | Some o => o
                        | None => 0
                        end) s). lra.
Qed.

Lemma flatten_levels_kept (marks : pydict) (levels : list string) :
  forall subj_scores,
    Notions.flatten_kept subj_scores ->
    Notions.flatten_kept (flatten_levels str_to_float marks levels subj_scores).
Proof.
  induction levels as [| level levels IH]; intros subj_scores Hk; simpl;
    [exact Hk |].
  destruct (level_of marks level); try now apply IH.
  apply IH. now apply merge_level_kept.
Qed.

(** X7. The flattened subject scores have distinct, lower-case keys, and
    no flattened score is negative, whatever the marks: the running maximum
    of a subject starts at 0.0. *)
Theorem flatten_marks_keys_and_floor (marks : pydict) :
  NoDup (map fst (flatten_marks str_to_float marks))
  /\ Forall (fun kv => lower (fst kv) = fst kv /\ 0 <= snd kv)
            (flatten_marks str_to_float marks).
Proof.
  apply (flatten_levels_kept marks ["twelfth"; "tenth"]%string []).
  split; constructor.
Qed.

Lemma marks_loop_bounds (text : string) :
  forall subj_scores total_weight match_accum,
    0 <= match_accum <= total_weight ->
    0 <= snd (marks_loop text subj_scores total_weight match_accum)
      <= fst (marks_loop text subj_scores total_weight match_accum).
Proof.
  induction subj_scores as [| [subj val] rest IH];
    intros total_weight match_accum Hinv; cbn [marks_loop];
    [exact Hinv |].
  apply IH.
  set (kws := match dict_get SUBJECT_KEYWORDS subj with
              | Some (kw :: kws) => kw :: kws
              | _ => [subj]
              end).
  pose proof (ScorerRange.frac_unit (count_found kws text) (List.length kws)
                (ScorerRange.count_found_le kws text)) as Hf.
  pose proof (clamp_bounds 0 100 val ltac:(lra)) as Hc.
  set (fr := INR (count_found kws text) / INR (Nat.max 1 (List.length kws)))
    in *.
  set (cl := Rmax 0 (Rmin 100 val)) in *.
  assert (Hi : 0 <= cl / 100) by lra.
  assert (Hp : 0 <= cl / 100 * fr <= cl / 100) by nra.
  lra.
Qed.

(** X8. For a career whose skills and path are lists of strings (the
    careers of the model), the score of the marks scorer lies in [0,1],
    whatever is passed as marks: a mapping or not, with marks of any size
    and with values that are not numbers, which it skips. *)
Theorem marks_alignment_unit_interval (marks : pyval) (c : career) :
  0 <= _marks_alignment_score str_to_float marks c <= 1.
Proof.
  unfold _marks_alignment_score.
  destruct marks as [| | | | | | [| entry m]]; try lra.
  destruct (flatten_marks str_to_float (entry :: m)) as [| kv subj]; [lra |].
  pose proof (marks_loop_bounds (lower (career_words c)) (kv :: subj) 0 0
                ltac:(lra)) as Hb.
  destruct (marks_loop (lower (career_words c)) (kv :: subj) 0 0) as [w a].
  simpl in Hb. destruct (Rle_dec w 0); [lra |].
  apply SimilarityRange.div_unit; lra.
Qed.

Lemma marks_loop_no_positive (text : string) :
  forall subj_scores total_weight match_accum,
    Forall (fun kv => snd kv <= 0) subj_scores ->
    marks_loop text subj_scores total_weight match_accum
    = (total_weight, match_accum).
Proof.
  induction subj_scores as [| [subj val] rest IH];
    intros total_weight match_accum Hall; cbn [marks_loop];
    [reflexivity |].
  inversion Hall as [| ? ? Hv Hrest]; subst. simpl in Hv.
  assert (Hz : Rmax 0 (Rmin 100 val) / 100 = 0).
  { unfold Rmax, Rmin.
    destruct (Rle_dec 100 val); destruct (Rle_dec 0 _); lra. }
  rewrite Hz, (IH _ _ Hrest). f_equal; lra.
Qed.

(** When no subject keeps a positive flattened score, the marks scorer
    returns exactly 0 for every career (the total weight is zero). *)
Theorem marks_alignment_zero_without_positive_mark
  (marks : pydict) (c : career) :
  Forall (fun kv => snd kv <= 0) (flatten_marks str_to_float marks) ->
  _marks_alignment_score str_to_float (PyDict marks) c = 0.
Proof.
  intros Hall. unfold _marks_alignment_score.
  destruct marks as [| entry m]; [reflexivity |].
  destruct (flatten_marks str_to_float (entry :: m)) as [| kv subj];
    [reflexivity |].
  rewrite (marks_loop_no_positive _ _ 0 0 Hall).
  destruct (Rle_dec 0 0); [reflexivity | lra].
Qed.

End Flatten.

Lemma marks_alignment_zero_without_positive_mark_witness :
  _marks_alignment_score Demo.demo_str_to_float
    (PyDict Demo.marks_negative) Demo.developer = 0.
Proof.
  apply marks_alignment_zero_without_positive_mark.
  constructor; [| constructor]. simpl.
  unfold Rmax. repeat destruct (Rle_dec _ _); lra.
Defined.

End MarksRange.

(* ===================================================================== *)
(** * More on the score of one entity *)
(* ===================================================================== *)

Module ScoringEdges.

Import Py PyFacts Model.

Lemma exp_le (a b : R) : a <= b -> exp a <= exp b.
Proof.
  intros [H | ->]; [left; now apply exp_increasing | lra].
Qed.

Lemma py_round_0 : py_round (0 * 100) = 0%Z.
Proof. replace (0 * 100) with (IZR 0) by lra. apply py_round_IZR. Qed.

Lemma py_round_100 : py_round (1 * 100) = 100%Z.
Proof. replace (1 * 100) with (IZR 100) by lra. apply py_round_IZR. Qed.

Lemma clamp01_low (x : R) : x <= 0 -> Rmax 0 (Rmin 1 x) = 0.
Proof.
  intros H. unfold Rmax, Rmin.
  destruct (Rle_dec 1 x); destruct (Rle_dec 0 _); lra.
Qed.

Lemma clamp01_high (x : R) : 1 <= x -> Rmax 0 (Rmin 1 x) = 1.
Proof.
  intros H. unfold Rmax, Rmin.
  destruct (Rle_dec 1 x); destruct (Rle_dec 0 _); lra.
Qed.

Lemma clamp01_pos (x : R) : 0 < x -> 0 < Rmax 0 (Rmin 1 x) <= 1.
Proof.
  intros H. unfold Rmax, Rmin.
  destruct (Rle_dec 1 x); destruct (Rle_dec 0 _); lra.
Qed.

(** X9. With a positive uplift exponent, a combined score at or below 0
    gives [final_score] 0 and a combined score at or above 1 gives 100. *)
Theorem final_score_endpoints (exponent combined : R) :
  0 < exponent ->
  (combined <= 0 -> final_score_of exponent combined = 0%Z)
  /\ (1 <= combined -> final_score_of exponent combined = 100%Z).
Proof.
  intros He. unfold final_score_of, uplift, float_pow.
  destruct (Req_dec_T exponent 0) as [E | _]; [lra |].
  split; intros Hx.
  - rewrite (clamp01_low combined Hx).
    destruct (Req_dec_T 0 0) as [_ | N]; [| lra].
    destruct (Rlt_dec 0 exponent) as [_ | N]; [| lra].
    rewrite (clamp01_low 0) by lra. apply py_round_0.
  - rewrite (clamp01_high combined Hx).
    destruct (Req_dec_T 1 0) as [E | _]; [lra |].
    assert (E1 : Rpower 1 exponent = 1)
      by (unfold Rpower; now rewrite ln_1, Rmult_0_r, exp_0).
    rewrite E1, (clamp01_high 1) by lra. apply py_round_100.
Qed.

Lemma final_score_endpoints_witness :
  final_score_of 0.6 (-0.2) = 0%Z /\ final_score_of 0.6 1.3 = 100%Z.
Proof.
  split.
  - apply (proj1 (final_score_endpoints 0.6 (-0.2) ltac:(lra))). lra.
  - apply (proj2 (final_score_endpoints 0.6 1.3 ltac:(lra))). lra.
Defined.

(** X10. A configured exponent that is not positive makes the score
    degenerate.  With exponent 0 every entity gets 100, whatever its
    combined score ([x ** 0.0] is 1.0, also for 0.0).  With a negative
    exponent an entity whose combined score is at or below 0 gets 0: the
    power [0.0 ** e] raises, the error is swallowed, and the clamped 0
    stays. *)
Theorem final_score_degenerate_exponent (exponent combined : R) :
  (exponent = 0 -> final_score_of exponent combined = 100%Z)
  /\ (exponent < 0 -> combined <= 0 ->
      float_pow (Rmax 0 (Rmin 1 combined)) exponent = Raise ZeroDivisionError
      /\ final_score_of exponent combined = 0%Z).
Proof.
  unfold final_score_of, uplift, float_pow. split.
  - intros E. destruct (Req_dec_T exponent 0) as [_ | N]; [| lra].
    rewrite (clamp01_high 1) by lra. apply py_round_100.
  - intros He Hx. rewrite (clamp01_low combined Hx).
    destruct (Req_dec_T exponent 0) as [E | _]; [lra |].
    destruct (Req_dec_T 0 0) as [_ | N0]; [| lra].
    destruct (Rlt_dec 0 exponent) as [Hp | _]; [lra |].
    split; [reflexivity |].
    rewrite (clamp01_low 0) by lra. apply py_round_0.
Qed.

Lemma final_score_degenerate_exponent_witness :
  final_score_of 0 0.3 = 100%Z /\ final_score_of (-1) (-0.2) = 0%Z.
Proof.
  split.
  - apply (proj1 (final_score_degenerate_exponent 0 0.3)). reflexivity.
  - apply (proj2 (final_score_degenerate_exponent (-1) (-0.2))); lra.
Defined.

(** X11. Among positive exponents a smaller one never gives a smaller
    [final_score]; with exponent 1 the score is the rounded percentage of
    the clamped combined score, so an exponent in (0,1] only lifts scores. *)
Theorem smaller_exponent_lifts_score (e1 e2 combined : R) :
  0 < e1 <= e2 ->
  (final_score_of e2 combined <= final_score_of e1 combined)%Z
  /\ final_score_of 1 combined = py_round (Rmax 0 (Rmin 1 combined) * 100).
Proof.
  intros [H1 H12]. split.
  - unfold final_score_of. apply py_round_mono.
    apply Rmult_le_compat_r; [lra |]. apply clamp_mono.
    unfold uplift, float_pow.
    pose proof (clamp_bounds 0 1 combined Rle_0_1) as Hc.
    set (c := Rmax 0 (Rmin 1 combined)) in *.
    destruct (Req_dec_T e2 0); [lra |]. destruct (Req_dec_T e1 0); [lra |].
    destruct (Req_dec_T c 0) as [E | N].
    + destruct (Rlt_dec 0 e2); [| lra]. destruct (Rlt_dec 0 e1); lra.
    + unfold Rpower. apply exp_le.
      assert (Hln : ln c <= 0).
      { rewrite <- ln_1. destruct (proj2 Hc) as [Hlt | ->]; [| lra].
        left. apply ln_increasing; lra. }
      nra.
  - unfold final_score_of, uplift, float_pow.
    pose proof (clamp_bounds 0 1 combined Rle_0_1) as Hc.
    set (c := Rmax 0 (Rmin 1 combined)) in *.
    destruct (Req_dec_T 1 0); [lra |].
    destruct (Req_dec_T c 0) as [E | N].
    + destruct (Rlt_dec 0 1); [| lra]. now rewrite E, (clamp_id 0 1 0) by lra.
    + rewrite Rpower_1 by lra. now rewrite (clamp_id 0 1 c) by lra.
Qed.

Lemma smaller_exponent_lifts_score_witness :
  (final_score_of 1 0.5 <= final_score_of 0.6 0.5)%Z.
Proof.
  exact (proj1 (smaller_exponent_lifts_score 0.6 1 0.5 ltac:(lra))).
Defined.

(** X12. With non-negative weights a better signal never lowers the score:
    raising the normalized similarity, the trait alignment or the marks
    alignment of an entity never lowers its [final_score]. *)
Theorem final_score_monotone_in_signals
  (exponent ws wt wm s t m s' t' m' : R) :
  0 <= ws -> 0 <= wt -> 0 <= wm ->
  s <= s' -> t <= t' -> m <= m' ->
  (final_score_of exponent (combine ws wt wm s t m)
   <= final_score_of exponent (combine ws wt wm s' t' m'))%Z.
Proof.
  intros Hs Ht Hm Ls Lt Lm. apply Scoring.final_score_of_mono.
  unfold combine. nra.
Qed.

Lemma final_score_monotone_in_signals_witness :
  (final_score_of 0.6 (combine 0.65 0.25 0.10 0.4 0.5 0)
   <= final_score_of 0.6 (combine 0.65 0.25 0.10 0.7 0.5 1))%Z.
Proof.
  apply final_score_monotone_in_signals; lra.
Defined.

End ScoringEdges.

(* ===================================================================== *)
(** * A request with a tie *)
(* ===================================================================== *)

Module TieExample.

Import Py PyFacts Model SpecWords Ranking.

(** The two ends of the score. *)
Lemma final_score_of_0 (exponent : R) :
  0 < exponent -> final_score_of exponent 0 = 0%Z.
Proof.
  intros He. unfold final_score_of, uplift, float_pow.
  rewrite (ScoringEdges.clamp01_low 0) by lra.
  destruct (Req_dec_T exponent 0) as [E | _]; [lra |].
  destruct (Req_dec_T 0 0) as [_ | N]; [| lra].
  destruct (Rlt_dec 0 exponent) as [_ | N]; [| lra].
  rewrite (ScoringEdges.clamp01_low 0) by lra. apply ScoringEdges.py_round_0.
Qed.

Lemma final_score_of_1 (exponent : R) :
  final_score_of exponent 1 = 100%Z.
Proof.
  unfold final_score_of, uplift, float_pow.
  rewrite (ScoringEdges.clamp01_high 1) by lra.
  destruct (Req_dec_T exponent 0) as [E | _].
  - rewrite (ScoringEdges.clamp01_high 1) by lra. apply ScoringEdges.py_round_100.
  - destruct (Req_dec_T 1 0) as [E | _]; [lra |].
    assert (E1 : Rpower 1 exponent = 1)
      by (unfold Rpower; now rewrite ln_1, Rmult_0_r, exp_0).
    rewrite E1, (ScoringEdges.clamp01_high 1) by lra. apply ScoringEdges.py_round_100.
Qed.

(** The request [Demo.tie_request]: the similarities are 0, 1 and 0, so the
    loop's rows score 0, 100 and 0. *)
Lemma tie_request_scaled :
  _scale_sims_to_0_1
    (fst (_cosine_similarities string Demo.demo_encode Demo.demo_cos_sim
            Demo.demo_corpus3 Demo.developer_text))
  = [0; 1; 0].
Proof.
  change (fst (_cosine_similarities string Demo.demo_encode
                 Demo.demo_cos_sim Demo.demo_corpus3 Demo.developer_text))
    with [0; 1; 0].
  unfold _scale_sims_to_0_1, list_min, list_max. cbn [fold_left].
  assert (Emin : Rmin (Rmin 0 1) 0 = 0)
    by (unfold Rmin; repeat destruct (Rle_dec _ _); lra).
  assert (Emax : Rmax (Rmax 0 1) 0 = 1)
    by (unfold Rmax; repeat destruct (Rle_dec _ _); lra).
  rewrite Emin, Emax.
  destruct (Rlt_dec 1e-9 (1 - 0)) as [_ | N]; [| lra].
  cbn [map]. repeat f_equal; field.
Qed.

Lemma tie_request_rows :
  exists a b c,
    Notions.request_rows string Demo.demo_encode Demo.demo_cos_sim
      Demo.demo_str_to_float 0.6 Demo.demo_corpus3 Demo.developer_text
      None PyNone 1 0 0 = Ok [a; b; c]
    /\ map rec_career [a; b; c] = [Demo.nurse; Demo.developer; Demo.teacher]
    /\ map final_score [a; b; c] = [0; 100; 0]%Z.
Proof.
  do 3 eexists. split; [reflexivity |]. split; [reflexivity |].
  cbn [map final_score]. rewrite tie_request_scaled. cbn [nth].
  change (_marks_alignment_score Demo.demo_str_to_float
            (py_or PyNone (PyDict [])) Demo.nurse) with 0.
  change (_marks_alignment_score Demo.demo_str_to_float
            (py_or PyNone (PyDict [])) Demo.developer) with 0.
  change (_marks_alignment_score Demo.demo_str_to_float
            (py_or PyNone (PyDict [])) Demo.teacher) with 0.
  replace (combine 1 0 0 0 0 0) with 0 by (unfold combine; lra).
  replace (combine 1 0 0 1 0 0) with 1 by (unfold combine; lra).
  rewrite final_score_of_0 by lra. now rewrite final_score_of_1.
Qed.

(** Ranking three rows that score 0, 100 and 0: the row of 100 comes first
    and the two rows of 0 keep their order. *)
Lemma rank_0_100_0 (a b c : rec) (top_k : Z) :
  map final_score [a; b; c] = [0; 100; 0]%Z ->
  (3 <= top_k)%Z ->
  rank [a; b; c] top_k = [b; a; c].
Proof.
  intros H Hk. cbn [map] in H. injection H as Ha Hb Hc.
  unfold rank. cbn [sort_desc insert_desc].
  repeat (rewrite ?Ha, ?Hb, ?Hc; cbn [Z.leb Z.compare insert_desc]).
  cbn [List.length]. rewrite Z.min_r by lia. reflexivity.
Qed.

(** The request returns the second career first, with 100, and then the
    first and the third career, which tie at 0, in their corpus order. *)
Lemma recommend_tie_stable_witness :
  exists out,
    fst (Demo.tie_request 6) = Ok out
    /\ map rec_career out = [Demo.developer; Demo.nurse; Demo.teacher]
    /\ map final_score out = [100; 0; 0]%Z
    /\ exists (rows : list rec) (tagged : list (nat * rec)),
         Notions.request_rows string Demo.demo_encode Demo.demo_cos_sim
           Demo.demo_str_to_float 0.6 Demo.demo_corpus3 Demo.developer_text
           None PyNone 1 0 0 = Ok rows
         /\ map rec_career rows = [Demo.nurse; Demo.developer; Demo.teacher]
         /\ out = map snd tagged
         /\ (forall j r, In (j, r) tagged -> nth_error rows j = Some r)
         /\ NoDup (map fst tagged)
         /\ SpecWords.ties_in_corpus_order tagged
         /\ forall v, exists rest,
              filter (Notions.scores v) rows
              = filter (Notions.scores v) out ++ rest.
Proof.
  destruct tie_request_rows as (a & b & c & Er & Hc & Hs).
  assert (E : fst (Demo.tie_request 6) = Ok (rank [a; b; c] 6)).
  { unfold Demo.tie_request. rewrite Recommend.recommend_unfold. cbn [fst].
    unfold Notions.request_rows, _cosine_similarities, model_encode in Er.
    cbn [fst] in Er. now rewrite Er. }
  rewrite (rank_0_100_0 a b c 6 Hs ltac:(lia)) in E.
  exists [b; a; c]. split; [exact E |].
  cbn [map] in Hc, Hs.
  injection Hc as Ha Hb Hcc. injection Hs as Sa Sb Sc.
  split; [cbn [map]; now rewrite Ha, Hb, Hcc |].
  split; [cbn [map]; now rewrite Sa, Sb, Sc |].
  exact (Recommend.recommend_tie_stable
           string Demo.demo_encode Demo.demo_cos_sim Demo.demo_str_to_float
           0.6 Demo.demo_corpus3 Demo.developer_text None PyNone 6 1 0 0
           [b; a; c] E).
Defined.

End TieExample.

(* ===================================================================== *)
(** * More on the result list of [recommend] *)
(* ===================================================================== *)

Module ResultList.

Import Py PyFacts Model SpecWords Ranking.

Section SortedDesc.

Context {A : Type}.
Variable key : A -> Z.

Lemma insert_desc_descending (x : A) (l : list A) :
  StronglySorted (fun a b => (key b <= key a)%Z) l ->
  StronglySorted (fun a b => (key b <= key a)%Z) (insert_desc key x l).
Proof.
  induction l as [| y l IH]; intros Hs; simpl.
  - constructor; constructor.
  - inversion Hs as [| ? ? Hs' Hall]; subst.
    destruct (key y <=? key x)%Z eqn:E.
    + apply Z.leb_le in E. constructor; [assumption |].
      constructor; [assumption |].
      rewrite Forall_forall in Hall. apply Forall_forall.
      intros z Hz. pose proof (Hall z Hz). lia.
    + apply Z.leb_gt in E. constructor; [now apply IH |].
      apply Forall_forall. intros z Hz.
      apply (Permutation_in _ (insert_desc_perm key x l)) in Hz.
      destruct Hz as [<- | Hz]; [lia |].
      rewrite Forall_forall in Hall. now apply Hall.
Qed.

Lemma sort_desc_descending (l : list A) :
  StronglySorted (fun a b => (key b <= key a)%Z) (sort_desc key l).
Proof.
  induction l as [| x l IH]; simpl; [constructor |].
  now apply insert_desc_descending.
Qed.

Lemma firstn_StronglySorted (R : A -> A -> Prop) (n : nat) (l : list A) :
  StronglySorted R l -> StronglySorted R (firstn n l).
Proof.
  revert l. induction n as [| n IH]; intros l Hs; [constructor |].
  destruct l as [| x l]; [constructor |].
  inversion Hs as [| ? ? Hs' Hall]; subst. simpl.
  constructor; [now apply IH |].
  rewrite Forall_forall in Hall. apply Forall_forall.
  intros z Hz. apply Hall. eapply firstn_incl; eassumption.
Qed.

End SortedDesc.

Lemma rank_length (rows : list rec) (top_k : Z) :
  (0 <= top_k)%Z ->
  List.length (rank rows top_k)
  = Z.to_nat (Z.min top_k (Z.of_nat (List.length rows))).
Proof.
  intros H. unfold rank. rewrite slice_to_firstn. unfold slice_len.
  rewrite sort_desc_length.
  destruct (Z.min top_k (Z.of_nat (List.length rows)) <? 0)%Z eqn:E;
    [apply Z.ltb_lt in E; lia |].
  rewrite length_firstn, sort_desc_length. lia.
Qed.

Lemma rank_full (rows : list rec) (top_k : Z) :
  (Z.of_nat (List.length rows) <= top_k)%Z ->
  rank rows top_k = sort_desc final_score rows.
Proof.
  intros H. unfold rank. rewrite slice_to_firstn. unfold slice_len.
  rewrite sort_desc_length, Z.min_r by lia.
  destruct (Z.of_nat (List.length rows) <? 0)%Z eqn:E;
    [apply Z.ltb_lt in E; lia |].
  rewrite Nat2Z.id. apply firstn_all2. rewrite sort_desc_length. lia.
Qed.

Lemma rank_prefix (rows : list rec) (top_k : Z) :
  (0 <= top_k)%Z ->
  rank rows top_k = firstn (Z.to_nat top_k) (sort_desc final_score rows).
Proof.
  intros H. unfold rank. rewrite slice_to_firstn. unfold slice_len.
  rewrite sort_desc_length.
  destruct (Z.min top_k (Z.of_nat (List.length rows)) <? 0)%Z eqn:E;
    [apply Z.ltb_lt in E; lia |].
  destruct (Z.le_ge_cases top_k (Z.of_nat (List.length rows))) as [L | G].
  - now rewrite Z.min_l by lia.
  - rewrite Z.min_r, Nat2Z.id by lia.
    rewrite !firstn_all2; [reflexivity | |]; rewrite sort_desc_length; lia.
Qed.

Section Engine.

Variable vec : Type.
Variable encode : string -> vec.
Variable cos_sim : vec -> vec -> R.
Variable str_to_float : string -> option R.
Variable FINAL_UPLIFT_EXP : R.

(** X13. When [recommend] returns and [top_k] is not negative, it returns
    exactly [min(top_k, n)] rows for a corpus of [n] careers. *)
Theorem recommend_length
  C profile_text trait_scores marks top_k ws wt wm out :
  (0 <= top_k)%Z ->
  fst (Model.recommend vec encode cos_sim str_to_float FINAL_UPLIFT_EXP
         C profile_text trait_scores marks top_k ws wt wm) = Ok out ->
  List.length out
  = Z.to_nat (Z.min top_k (Z.of_nat (List.length (career_list _ C)))).
Proof.
  intros Hk H. apply Recommend.recommend_Ok_inv in H.
  destruct H as (rows & -> & Hc & _ & _).
  rewrite rank_length by assumption.
  now rewrite <- Hc, length_map.
Qed.

(** X14. The rows that [recommend] returns are in descending order of
    [final_score], and each row carries the label that the threshold table
    gives to its score. *)
Theorem recommend_sorted_and_labelled
  C profile_text trait_scores marks top_k ws wt wm out :
  fst (Model.recommend vec encode cos_sim str_to_float FINAL_UPLIFT_EXP
         C profile_text trait_scores marks top_k ws wt wm) = Ok out ->
  StronglySorted (fun a b => (final_score b <= final_score a)%Z) out
  /\ Forall (fun r => match_label r = select_label (final_score r)) out.
Proof.
  intros H. apply Recommend.recommend_Ok_inv in H.
  destruct H as (rows & -> & _ & Hf & _). split.
  - unfold rank. rewrite slice_to_firstn.
    apply firstn_StronglySorted, sort_desc_descending.
  - apply Forall_forall. intros r Hr. apply rank_In in Hr.
    rewrite Forall_forall in Hf. now destruct (Hf r Hr).
Qed.

(** X15. With [top_k] at least the corpus size, [recommend] returns every
    career of the corpus exactly once: the careers of the returned rows are
    a permutation of the corpus. *)
Theorem recommend_full_is_permutation
  C profile_text trait_scores marks top_k ws wt wm out :
  (Z.of_nat (List.length (career_list _ C)) <= top_k)%Z ->
  fst (Model.recommend vec encode cos_sim str_to_float FINAL_UPLIFT_EXP
         C profile_text trait_scores marks top_k ws wt wm) = Ok out ->
  Permutation (map rec_career out) (career_list _ C).
Proof.
  intros Hk H. apply Recommend.recommend_Ok_inv in H.
  destruct H as (rows & -> & Hc & _ & _).
  rewrite rank_full by (rewrite <- Hc, length_map in Hk; exact Hk).
  rewrite <- Hc. apply Permutation_map, sort_desc_perm.
Qed.

(** X16. Asking for fewer rows only cuts the list: for [top_k >= 0] the
    result is the first [top_k] rows of the ranking of the whole corpus, so
    the rows returned for a smaller [top_k] are a prefix of those returned
    for a larger one. *)
Theorem recommend_top_k_is_prefix
  C profile_text trait_scores marks ws wt wm full :
  fst (Model.recommend vec encode cos_sim str_to_float FINAL_UPLIFT_EXP
         C profile_text trait_scores marks
         (Z.of_nat (List.length (career_list _ C))) ws wt wm) = Ok full ->
  forall top_k, (0 <= top_k)%Z ->
    fst (Model.recommend vec encode cos_sim str_to_float FINAL_UPLIFT_EXP
           C profile_text trait_scores marks top_k ws wt wm)
    = Ok (firstn (Z.to_nat top_k) full).
Proof.
  intros H top_k Hk. apply Recommend.recommend_Ok_inv in H.
  destruct H as (rows & Hfull & Hc & _ & Hall).
  rewrite Hall, Hfull. f_equal.
  rewrite (rank_full rows (Z.of_nat (List.length (career_list vec C))))
    by (rewrite <- Hc, length_map; lia).
  now apply rank_prefix.
Qed.

End Engine.

Lemma recommend_length_witness :
  exists out,
    fst (Demo.demo_recommend "TopTraits: Technical:8, Social:2.5"
           (Some Demo.demo_traits) (PyDict Demo.marks_90_60) 1) = Ok out
    /\ List.length out = 1%nat.
Proof.
  destruct (Recommend.demo_request_returns 1) as [out E].
  exists out. split; [exact E |].
  exact (recommend_length
           string Demo.demo_encode Demo.demo_cos_sim Demo.demo_str_to_float
           0.6 Demo.demo_corpus "TopTraits: Technical:8, Social:2.5"
           (Some Demo.demo_traits) (PyDict Demo.marks_90_60) 1
           0.65 0.25 0.10 out ltac:(lia) E).
Defined.

Lemma recommend_sorted_and_labelled_witness :
  exists out,
    fst (Demo.demo_recommend "TopTraits: Technical:8, Social:2.5"
           (Some Demo.demo_traits) (PyDict Demo.marks_90_60) 6) = Ok out
    /\ StronglySorted (fun a b => (final_score b <= final_score a)%Z) out.
Proof.
  destruct (Recommend.demo_request_returns 6) as [out E].
  exists out. split; [exact E |].
  exact (proj1 (recommend_sorted_and_labelled
           string Demo.demo_encode Demo.demo_cos_sim Demo.demo_str_to_float
           0.6 Demo.demo_corpus "TopTraits: Technical:8, Social:2.5"
           (Some Demo.demo_traits) (PyDict Demo.marks_90_60) 6
           0.65 0.25 0.10 out E)).
Defined.

Lemma recommend_full_is_permutation_witness :
  exists out,
    fst (Demo.demo_recommend "TopTraits: Technical:8, Social:2.5"
           (Some Demo.demo_traits) (PyDict Demo.marks_90_60) 6) = Ok out
    /\ Permutation (map rec_career out) [Demo.nurse; Demo.developer].
Proof.
  destruct (Recommend.demo_request_returns 6) as [out E].
  exists out. split; [exact E |].
  exact (recommend_full_is_permutation
           string Demo.demo_encode Demo.demo_cos_sim Demo.demo_str_to_float
           0.6 Demo.demo_corpus "TopTraits: Technical:8, Social:2.5"
           (Some Demo.demo_traits) (PyDict Demo.marks_90_60) 6
           0.65 0.25 0.10 out ltac:(simpl; lia) E).
Defined.

Lemma recommend_top_k_is_prefix_witness :
  exists full,
    fst (Demo.demo_recommend "TopTraits: Technical:8, Social:2.5"
           (Some Demo.demo_traits) (PyDict Demo.marks_90_60) 2) = Ok full
    /\ fst (Demo.demo_recommend "TopTraits: Technical:8, Social:2.5"
              (Some Demo.demo_traits) (PyDict Demo.marks_90_60) 1)
       = Ok (firstn 1 full).
Proof.
  destruct (Recommend.demo_request_returns 2) as [full E].
  exists full. split; [exact E |].
  exact (recommend_top_k_is_prefix
           string Demo.demo_encode Demo.demo_cos_sim Demo.demo_str_to_float
           0.6 Demo.demo_corpus "TopTraits: Technical:8, Social:2.5"
           (Some Demo.demo_traits) (PyDict Demo.marks_90_60)
           0.65 0.25 0.10 full E 1%Z ltac:(lia)).
Defined.

End ResultList.

(* ===================================================================== *)
(** * app.py: psychometric scoring *)
(* ===================================================================== *)

Module Psychometric.

Import Py PyFacts App.

Lemma pow_10_2 : 10 ^ 2 = 100.
Proof. simpl. lra. Qed.

Lemma round2_range (a b : Z) (x : R) :
  IZR a / 100 <= x <= IZR b / 100 ->
  IZR a / 100 <= py_round_digits x 2 <= IZR b / 100.
Proof.
  intros H. unfold py_round_digits. rewrite pow_10_2.
  pose proof (py_round_range a b (x * 100) ltac:(lra)) as [Ha Hb].
  apply IZR_le in Ha, Hb. lra.
Qed.

Section Answers.

Variable str_to_float : string -> option R.

Lemma clamp_1_5 (v : R) :
  (if Rlt_dec 5 (if Rlt_dec v 1 then 1 else v) then 5
   else if Rlt_dec v 1 then 1 else v) = Rmax 1 (Rmin 5 v).
Proof.
  unfold Rmax, Rmin.
  destruct (Rlt_dec v 1); destruct (Rlt_dec 5 _);
    destruct (Rle_dec 5 v); destruct (Rle_dec 1 _); lra.
Qed.

Lemma normalize_answer_range (a : pyval) :
  1 <= normalize_answer str_to_float a <= 5.
Proof.
  unfold normalize_answer.
  destruct (answer_float str_to_float a) as [v |]; [| lra].
  destruct (Rlt_dec v 1); destruct (Rlt_dec 5 _); lra.
Qed.

(** X17. [normalize_answers_array] returns one float per answer.  When no
    answer is a text (and floats being finite numbers), every returned
    value lies in [1,5]: a float is clamped to [1,5], and so is an int
    within the range of a double; an int beyond it, like [None], a list or
    a mapping, does not convert and counts as 3.0. *)
Theorem normalize_answers_range (arr : list pyval) :
  List.length (normalize_answers_array str_to_float arr) = List.length arr
  /\ (Forall Notions.not_text arr ->
      Forall (fun v => 1 <= v <= 5)
             (normalize_answers_array str_to_float arr))
  /\ (forall i a,
        nth_error arr i = Some a -> Notions.no_number a ->
        nth_error (normalize_answers_array str_to_float arr) i = Some 3)
  /\ (forall i r,
        nth_error arr i = Some (PyFloat r) ->
        nth_error (normalize_answers_array str_to_float arr) i
        = Some (Rmax 1 (Rmin 5 r)))
  /\ (forall i z,
        nth_error arr i = Some (PyInt z) ->
        nth_error (normalize_answers_array str_to_float arr) i
        = Some (if (Z.abs z <? float_int_limit)%Z
                then Rmax 1 (Rmin 5 (IZR z))
                else 3)).
Proof.
  unfold normalize_answers_array. split; [apply length_map |].
  split; [| split; [| split]].
  - intros _. apply Forall_forall. intros x Hx. apply in_map_iff in Hx.
    destruct Hx as (a & <- & _). apply normalize_answer_range.
  - intros i a Hi Hno. rewrite nth_error_map, Hi. cbn [option_map].
    f_equal. now destruct a.
  - intros i r Hi. rewrite nth_error_map, Hi. cbn [option_map]. f_equal.
    unfold normalize_answer, answer_float, float_of. apply clamp_1_5.
  - intros i z Hi. rewrite nth_error_map, Hi. cbn [option_map]. f_equal.
    unfold normalize_answer, answer_float.
    destruct (Z.abs z <? float_int_limit)%Z; [apply clamp_1_5 | reflexivity].
Qed.

End Answers.

Lemma normalize_answers_range_witness :
  Forall (fun v => 1 <= v <= 5)
         (normalize_answers_array Demo.demo_str_to_float
            [PyInt 9; PyNone; PyFloat 2.5; PyInt (10 ^ 400); PyBool true]).
Proof.
  apply (proj1 (proj2 (normalize_answers_range Demo.demo_str_to_float
                         [PyInt 9; PyNone; PyFloat 2.5; PyInt (10 ^ 400);
                          PyBool true]))).
  repeat (apply Forall_cons; [exact I |]). apply Forall_nil.
Defined.

(** The sums kept by the loop over the questions: for every trait the raw
    sum lies between [lo] and [hi] times the weight sum. *)
Lemma get_float_set (d : list (string * R)) (k t : string) (v dflt : R) :
  get_float (dict_set d k v) t dflt
  = if String.eqb k t then v else get_float d t dflt.
Proof.
  unfold get_float. rewrite Marks.dict_get_set.
  now destruct (String.eqb k t).
Qed.

Lemma add_question_sums (lo hi val : R) (wmap : list (string * R)) :
  lo <= val <= hi ->
  Forall (fun kv => 0 <= snd kv) wmap ->
  forall raw weight_sums,
    (forall t, 0 <= get_float weight_sums t 0
               /\ lo * get_float weight_sums t 0 <= get_float raw t 0
                  <= hi * get_float weight_sums t 0) ->
    forall t,
      0 <= get_float (snd (add_question wmap val raw weight_sums)) t 0
      /\ lo * get_float (snd (add_question wmap val raw weight_sums)) t 0
         <= get_float (fst (add_question wmap val raw weight_sums)) t 0
         <= hi * get_float (snd (add_question wmap val raw weight_sums)) t 0.
Proof.
  intros Hval Hw. induction Hw as [| [trait w] wmap Hw0 Hw IH];
    intros raw weight_sums Hinv; [exact Hinv |].
  simpl in Hw0. cbn [add_question].
  destruct (dict_get raw trait) as [r |] eqn:G; [| now apply IH].
  apply IH. intros t. rewrite !get_float_set.
  destruct (String.eqb trait t) eqn:E; [| apply Hinv].
  apply String.eqb_eq in E. subst t.
  destruct (Hinv trait) as [H0 [Hl Hh]].
  assert (Er : get_float raw trait 0 = r) by (unfold get_float; now rewrite G).
  rewrite Er in *. split; [lra | nra].
Qed.

Lemma questions_loop_sums (lo hi : R) (answers_array : list R) :
  (forall i, (i < List.length TRAIT_QUESTION_MAP)%nat ->
             lo <= nth i answers_array 3 <= hi) ->
  Forall (Forall (fun kv => 0 <= snd kv)) TRAIT_QUESTION_MAP ->
  forall count i raw weight_sums,
    (forall t, 0 <= get_float weight_sums t 0
               /\ lo * get_float weight_sums t 0 <= get_float raw t 0
                  <= hi * get_float weight_sums t 0) ->
    forall t,
      0 <= get_float
             (snd (questions_loop count i answers_array raw weight_sums)) t 0
      /\ lo * get_float
                (snd (questions_loop count i answers_array raw weight_sums))
                t 0
         <= get_float
              (fst (questions_loop count i answers_array raw weight_sums))
              t 0
         <= hi * get_float
                   (snd (questions_loop count i answers_array raw
                                        weight_sums)) t 0.
Proof.
  intros Hans Hmap. induction count as [| count IH];
    intros i raw weight_sums Hinv; [exact Hinv |].
  cbn [questions_loop].
  destruct (Nat.lt_ge_cases i (List.length TRAIT_QUESTION_MAP)) as [Hi | Hi].
  - assert (Hw : Forall (fun kv => 0 <= snd kv)
                        (nth i TRAIT_QUESTION_MAP [])).
    { rewrite Forall_forall in Hmap. apply Hmap. now apply nth_In. }
    pose proof (add_question_sums lo hi _ _ (Hans i Hi) Hw raw weight_sums
                  Hinv) as Hs.
    destruct (add_question (nth i TRAIT_QUESTION_MAP [])
                           (nth i answers_array 3) raw weight_sums)
      as [raw' ws'].
    apply IH. exact Hs.
  - rewrite (nth_overflow TRAIT_QUESTION_MAP [] Hi). cbn [add_question].
    now apply IH.
Qed.

Lemma question_weights_nonneg :
  Forall (Forall (fun kv : string * R => 0 <= snd kv)) TRAIT_QUESTION_MAP.
Proof.
  unfold TRAIT_QUESTION_MAP.
  repeat (apply Forall_cons; [repeat (apply Forall_cons; [simpl; lra |]);
                              apply Forall_nil |]).
  apply Forall_nil.
Qed.

Lemma get_float_zeros (traits : list string) (t : string) :
  get_float (map (fun t => (t, 0)) traits) t 0 = 0.
Proof.
  unfold get_float. induction traits as [| t0 traits IH]; simpl;
    [reflexivity |].
  destruct (String.eqb t0 t); [reflexivity | exact IH].
Qed.

Lemma trait_score_of_0_10 (raw weight_sums : list (string * R)) (t : string) :
  0 <= trait_score_of raw weight_sums t <= 10.
Proof.
  unfold trait_score_of.
  destruct (Rle_dec _ 0); [lra |].
  match goal with |- _ <= py_round_digits ?x 2 <= _ =>
    pose proof (round2_range 0 1000 x) as Hr
  end.
  assert (Hc : forall x, 0 <= Rmax 0 (Rmin x 10) <= 10).
  { intros x. unfold Rmax, Rmin.
    destruct (Rle_dec x 10); destruct (Rle_dec 0 _); lra. }
  specialize (Hr ltac:(split; [pose proof (Hc (get_float raw t 0
                         / (get_float weight_sums t 0 * 5) * 10)); lra
                       | pose proof (Hc (get_float raw t 0
                         / (get_float weight_sums t 0 * 5) * 10)); lra])).
  lra.
Qed.

Lemma trait_score_of_2_10 (raw weight_sums : list (string * R)) (t : string) :
  0 <= get_float weight_sums t 0
  /\ 1 * get_float weight_sums t 0 <= get_float raw t 0
     <= 5 * get_float weight_sums t 0 ->
  2 <= trait_score_of raw weight_sums t <= 10.
Proof.
  intros [HW [Hl Hh]]. unfold trait_score_of.
  set (W := get_float weight_sums t 0) in *.
  set (r := get_float raw t 0) in *.
  destruct (Rle_dec (W * 5) 0) as [Hz | Hpos]; [lra |].
  assert (HWpos : 0 < W) by lra.
  assert (En : r / (W * 5) * 10 = 2 * (r / W)) by (field; lra).
  rewrite En.
  assert (Hq : 1 <= r / W <= 5).
  { pose proof (Rinv_0_lt_compat W HWpos) as Hi.
    assert (E1 : W * / W = 1) by (field; lra).
    unfold Rdiv. split.
    - rewrite <- E1. apply Rmult_le_compat_r; lra.
    - replace 5 with (5 * W * / W) by (rewrite Rmult_assoc, E1; lra).
      apply Rmult_le_compat_r; lra. }
  assert (Ec : Rmax 0 (Rmin (2 * (r / W)) 10) = 2 * (r / W)).
  { unfold Rmax, Rmin.
    destruct (Rle_dec _ 10); destruct (Rle_dec 0 _); lra. }
  rewrite Ec.
  pose proof (round2_range 200 1000 (2 * (r / W)) ltac:(lra)). lra.
Qed.

(** X18. [compute_trait_scores_from_array] returns one score for each of
    the seven traits, in the order of [TRAITS], and every score lies in
    [0,10]; when every answer lies in [1,5] (as after
    [normalize_answers_array]) every score lies in [2,10], however many
    answers there are. *)
Theorem trait_scores_range (answers_array : list R) :
  map fst (compute_trait_scores_from_array answers_array) = TRAITS
  /\ Forall (fun kv => 0 <= snd kv <= 10)
            (compute_trait_scores_from_array answers_array)
  /\ (Forall (fun a => 1 <= a <= 5) answers_array ->
      Forall (fun kv => 2 <= snd kv <= 10)
             (compute_trait_scores_from_array answers_array)).
Proof.
  unfold compute_trait_scores_from_array.
  set (n := Nat.max _ _).
  set (zeros := map (fun t => (t, 0)) TRAITS).
  pose proof (fun Hans =>
                questions_loop_sums 1 5 answers_array Hans
                  question_weights_nonneg n 0%nat zeros zeros) as Hsums.
  destruct (questions_loop n 0 answers_array zeros zeros) as [raw ws].
  split; [| split].
  - rewrite map_map. cbn [fst]. apply map_id.
  - apply Forall_forall. intros kv Hkv. apply in_map_iff in Hkv.
    destruct Hkv as (t & <- & _). apply trait_score_of_0_10.
  - intros Hans. apply Forall_forall. intros kv Hkv.
    apply in_map_iff in Hkv. destruct Hkv as (t & <- & _).
    apply trait_score_of_2_10. apply Hsums.
    + intros i _.
      destruct (nth_in_or_default i answers_array 3) as [Hin | ->]; [| lra].
      rewrite Forall_forall in Hans. now apply Hans.
    + intros t'. unfold zeros. rewrite get_float_zeros. lra.
Qed.

Lemma trait_scores_range_witness :
  Forall (fun kv => 2 <= snd kv <= 10)
         (compute_trait_scores_from_array [5; 1; 3; 4.5]).
Proof.
  apply (proj2 (proj2 (trait_scores_range [5; 1; 3; 4.5]))).
  repeat (apply Forall_cons; [lra |]). apply Forall_nil.
Defined.

Lemma questions_loop_beyond (answers_array : list R) :
  forall count i raw weight_sums,
    (List.length TRAIT_QUESTION_MAP <= i)%nat ->
    questions_loop count i answers_array raw weight_sums
    = (raw, weight_sums).
Proof.
  induction count as [| count IH]; intros i raw weight_sums Hi;
    [reflexivity |].
  cbn [questions_loop]. rewrite (nth_overflow TRAIT_QUESTION_MAP [] Hi).
  cbn [add_question]. apply IH. lia.
Qed.

Lemma questions_loop_split (answers_array : list R) :
  forall c1 c2 i raw weight_sums,
    questions_loop (c1 + c2) i answers_array raw weight_sums
    = questions_loop c2 (i + c1) answers_array
        (fst (questions_loop c1 i answers_array raw weight_sums))
        (snd (questions_loop c1 i answers_array raw weight_sums)).
Proof.
  induction c1 as [| c1 IH]; intros c2 i raw weight_sums.
  - cbn [questions_loop Nat.add fst snd]. now rewrite Nat.add_0_r.
  - cbn [questions_loop Nat.add].
    destruct (add_question _ _ raw weight_sums) as [raw' ws'].
    rewrite IH. now replace (S i + c1)%nat with (i + S c1)%nat by lia.
Qed.

Lemma questions_loop_ext (a a' : list R) :
  forall count i raw weight_sums,
    (forall j, (j < List.length TRAIT_QUESTION_MAP)%nat ->
               nth j a 3 = nth j a' 3) ->
    questions_loop count i a raw weight_sums
    = questions_loop count i a' raw weight_sums.
Proof.
  induction count as [| count IH]; intros i raw weight_sums Hext;
    [reflexivity |].
  cbn [questions_loop].
  destruct (Nat.lt_ge_cases i (List.length TRAIT_QUESTION_MAP)) as [Hi | Hi].
  - rewrite (Hext i Hi).
    destruct (add_question _ _ raw weight_sums) as [raw' ws'].
    now apply IH.
  - rewrite (nth_overflow TRAIT_QUESTION_MAP [] Hi). cbn [add_question].
    now apply IH.
Qed.

(** Only the rounds of the questions of the map change the sums. *)
Lemma questions_loop_all (answers_array : list R)
  (raw weight_sums : list (string * R)) :
  questions_loop
    (Nat.max (List.length TRAIT_QUESTION_MAP) (List.length answers_array))
    0 answers_array raw weight_sums
  = questions_loop (List.length TRAIT_QUESTION_MAP) 0 answers_array
                   raw weight_sums.
Proof.
  set (m := List.length TRAIT_QUESTION_MAP).
  replace (Nat.max m (List.length answers_array))
    with (m + (Nat.max m (List.length answers_array) - m))%nat by lia.
  rewrite questions_loop_split.
  rewrite questions_loop_beyond by (fold m; lia).
  now destruct (questions_loop m 0 answers_array raw weight_sums).
Qed.

(** X19. The trait scores depend only on the answers to the 25 questions
    of the map, a missing answer counting as 3.0: two answer arrays that
    agree there (answers past the 25th may differ, missing ones read as
    3.0) get the same scores. *)
Theorem trait_scores_depend_on_first_25 (a a' : list R) :
  (forall j, (j < 25)%nat -> nth j a 3 = nth j a' 3) ->
  compute_trait_scores_from_array a = compute_trait_scores_from_array a'.
Proof.
  intros Hext. unfold compute_trait_scores_from_array.
  rewrite !questions_loop_all.
  now rewrite (questions_loop_ext a a' _ 0%nat _ _ Hext).
Qed.

Lemma trait_scores_depend_on_first_25_witness :
  compute_trait_scores_from_array [4; 2]
  = compute_trait_scores_from_array ([4; 2; 3] ++ repeat 3 22 ++ [1; 5]).
Proof.
  apply trait_scores_depend_on_first_25.
  intros j Hj.
  do 25 (destruct j as [| j]; [reflexivity |]). lia.
Defined.

Lemma weight_sums_positive (answers_array : list R) (t : string) :
  In t TRAITS ->
  0 < get_float
        (snd (questions_loop (List.length TRAIT_QUESTION_MAP) 0 answers_array
                (map (fun t => (t, 0)) TRAITS)
                (map (fun t => (t, 0)) TRAITS))) t 0.
Proof.
  intros Hin.
  cbv [questions_loop add_question TRAIT_QUESTION_MAP nth dict_get dict_set
       get_float String.eqb Ascii.eqb Bool.eqb TRAITS map fst snd
       List.length].
  cbv [TRAITS In] in Hin.
  repeat (destruct Hin as [<- | Hin];
          [cbv [dict_get get_float String.eqb Ascii.eqb Bool.eqb]; lra |]).
  destruct Hin.
Qed.

Lemma dict_get_tabulate {V : Type} (f : string -> V) (keys : list string)
  (k : string) :
  In k keys -> dict_get (map (fun t => (t, f t)) keys) k = Some (f k).
Proof.
  induction keys as [| k0 keys IH]; intros Hin; [destruct Hin |].
  simpl. destruct (String.eqb k0 k) eqn:E.
  - apply String.eqb_eq in E. now subst.
  - destruct Hin as [-> | Hin]; [| now apply IH].
    rewrite String.eqb_refl in E. discriminate.
Qed.

Lemma round2_IZR (z : Z) : py_round_digits (IZR z) 2 = IZR z.
Proof.
  unfold py_round_digits. rewrite pow_10_2.
  replace (IZR z * 100) with (IZR (z * 100)) by (rewrite mult_IZR; lra).
  rewrite py_round_IZR, mult_IZR. field.
Qed.

(** X20. When the 25 answers that count are all the same whole number [c]
    from 1 to 5, every trait gets the score [2 * c]: all-5 answers give
    10.0, all-1 answers give 2.0, and neutral answers of 3 (also what
    missing answers count as) give 6.0.  The weight sum of every trait is
    positive, so the default score 5.0 of a zero weight sum never occurs. *)
Theorem trait_scores_uniform_answers
  (answers_array : list R) (c : Z) (trait : string) :
  (1 <= c <= 5)%Z ->
  (forall j, (j < 25)%nat -> nth j answers_array 3 = IZR c) ->
  In trait TRAITS ->
  dict_get (compute_trait_scores_from_array answers_array) trait
  = Some (IZR (2 * c)).
Proof.
  intros Hc Hall Hin. unfold compute_trait_scores_from_array.
  rewrite questions_loop_all.
  set (zeros := map (fun t => (t, 0)) TRAITS).
  pose proof (weight_sums_positive answers_array trait Hin) as Hpos.
  fold zeros in Hpos.
  assert (Hsums := questions_loop_sums (IZR c) (IZR c) answers_array
            ltac:(intros i Hi; rewrite (Hall i Hi); lra)
            question_weights_nonneg
            (List.length TRAIT_QUESTION_MAP) 0%nat zeros zeros
            ltac:(intros t'; unfold zeros; rewrite get_float_zeros; lra)
            trait).
  destruct (questions_loop (List.length TRAIT_QUESTION_MAP) 0 answers_array
              zeros zeros) as [raw ws].
  cbn [fst snd] in *.
  rewrite (dict_get_tabulate (trait_score_of raw ws) TRAITS trait Hin).
  f_equal. unfold trait_score_of.
  set (W := get_float ws trait 0) in *.
  set (r := get_float raw trait 0) in *.
  destruct (Rle_dec (W * 5) 0) as [Hz | _]; [lra |].
  assert (Er : r = IZR c * W) by lra.
  assert (En : r / (W * 5) * 10 = IZR (2 * c))
    by (rewrite Er, mult_IZR; field; lra).
  rewrite En.
  assert (Hr : 2 <= IZR (2 * c) <= 10)
    by (split; apply IZR_le; lia).
  replace (Rmax 0 (Rmin (IZR (2 * c)) 10)) with (IZR (2 * c)).
  - apply round2_IZR.
  - unfold Rmax, Rmin. destruct (Rle_dec _ 10); destruct (Rle_dec 0 _); lra.
Qed.

Lemma trait_scores_uniform_answers_witness :
  dict_get (compute_trait_scores_from_array []) "Creative" = Some 6
  /\ dict_get (compute_trait_scores_from_array (repeat 5 25 ++ [1; 2]))
              "Logical" = Some 10.
Proof.
  split.
  - apply (trait_scores_uniform_answers [] 3 "Creative").
    + lia.
    + intros j _. now destruct j.
    + unfold TRAITS. simpl. tauto.
  - apply (trait_scores_uniform_answers (repeat 5 25 ++ [1; 2]) 5 "Logical").
    + lia.
    + intros j Hj. do 25 (destruct j as [| j]; [reflexivity |]). lia.
    + unfold TRAITS. simpl. tauto.
Defined.

Lemma get_float_of_key (P : R -> Prop) (d : list (string * R))
  (k : string) (dflt : R) :
  In k (map fst d) -> Forall (fun kv => P (snd kv)) d ->
  P (get_float d k dflt).
Proof.
  unfold get_float. induction d as [| [k0 v0] d IH]; intros Hin Hall;
    [destruct Hin |].
  inversion Hall; subst. simpl.
  destruct (String.eqb k0 k) eqn:E; [assumption |].
  apply IH; [| assumption].
  destruct Hin as [Hk | Hin]; [| assumption].
  simpl in Hk. subst k0. rewrite String.eqb_refl in E. discriminate.
Qed.

(** The score of a fixed trait, read from the computed mapping, lies in
    [2,10] when every answer lies in [1,5]. *)
Lemma trait_score_read_2_10 (answers_array : list R) (t : string) :
  Forall (fun a => 1 <= a <= 5) answers_array ->
  In t TRAITS ->
  2 <= get_float (compute_trait_scores_from_array answers_array) t 0 <= 10.
Proof.
  intros Hans Ht.
  apply (get_float_of_key (fun v => 2 <= v <= 10)).
  - unfold compute_trait_scores_from_array.
    destruct (questions_loop _ 0 answers_array _ _) as [raw ws].
    rewrite map_map. cbn [fst]. now rewrite map_id.
  - unfold compute_trait_scores_from_array.
    set (n := Nat.max _ _).
    set (zeros := map (fun t => (t, 0)) TRAITS).
    pose proof (questions_loop_sums 1 5 answers_array) as Hsums.
    specialize (Hsums ltac:(intros i _;
      destruct (nth_in_or_default i answers_array 3) as [Hin | ->];
      [rewrite Forall_forall in Hans; now apply Hans | lra])).
    specialize (Hsums question_weights_nonneg n 0%nat zeros zeros).
    specialize (Hsums ltac:(intros t'; unfold zeros;
                            rewrite get_float_zeros; lra)).
    destruct (questions_loop n 0 answers_array zeros zeros) as [raw ws].
    apply Forall_forall. intros kv Hkv. apply in_map_iff in Hkv.
    destruct Hkv as (t' & <- & _). apply trait_score_of_2_10. apply Hsums.
Qed.

(** X21. The cognitive values stay on the 2-to-10 scale of the trait
    scores: when every answer lies in [1,5], the four values that
    [compute_cognitive_from_traits] derives from the scores of
    [compute_trait_scores_from_array] lie in [2,10], the weighted
    CognitiveIndex included. *)
Theorem cognitive_values_range (answers_array : list R) :
  Forall (fun a => 1 <= a <= 5) answers_array ->
  map fst (compute_cognitive_from_traits
             (compute_trait_scores_from_array answers_array))
  = Notions.cognitive_keys
  /\ Forall (fun kv => 2 <= snd kv <= 10)
            (compute_cognitive_from_traits
               (compute_trait_scores_from_array answers_array)).
Proof.
  intros Hans. split; [reflexivity |].
  pose proof (trait_score_read_2_10 answers_array "Logical" Hans
                ltac:(unfold TRAITS; simpl; tauto)) as Hl.
  pose proof (trait_score_read_2_10 answers_array "Analytical" Hans
                ltac:(unfold TRAITS; simpl; tauto)) as Ha.
  pose proof (trait_score_read_2_10 answers_array "Creative" Hans
                ltac:(unfold TRAITS; simpl; tauto)) as Hc.
  unfold compute_cognitive_from_traits.
  repeat (apply Forall_cons;
          [cbn [snd];
           match goal with |- _ <= py_round_digits ?x 2 <= _ =>
             pose proof (round2_range 200 1000 x ltac:(lra)); lra
           end |]).
  apply Forall_nil.
Qed.

Lemma cognitive_values_range_witness :
  Forall (fun kv => 2 <= snd kv <= 10)
         (compute_cognitive_from_traits
            (compute_trait_scores_from_array [5; 1; 3; 4.5])).
Proof.
  apply (proj2 (cognitive_values_range [5; 1; 3; 4.5]
                  ltac:(repeat (apply Forall_cons; [lra |]);
                        apply Forall_nil))).
Defined.

End Psychometric.

(* ===================================================================== *)
(** * app.py: academic strengths *)
(* ===================================================================== *)

Module Academic.

Import Py PyFacts App.

Lemma fold_sum_lower (lo : R) (vals : list R) :
  Forall (fun x => lo <= x) vals ->
  forall acc, acc + lo * INR (List.length vals) <= fold_left Rplus vals acc.
Proof.
  induction 1 as [| x vals Hx Hall IH]; intros acc.
  - simpl. lra.
  - cbn [fold_left List.length]. rewrite S_INR.
    pose proof (IH (acc + x)). lra.
Qed.

Lemma fold_sum_upper (hi : R) (vals : list R) :
  Forall (fun x => x <= hi) vals ->
  forall acc, fold_left Rplus vals acc <= acc + hi * INR (List.length vals).
Proof.
  induction 1 as [| x vals Hx Hall IH]; intros acc.
  - simpl. lra.
  - cbn [fold_left List.length]. rewrite S_INR.
    pose proof (IH (acc + x)). lra.
Qed.

Lemma fold_sum_upper_strict (hi : R) (vals : list R) :
  Forall (fun x => x < hi) vals -> vals <> [] ->
  forall acc, fold_left Rplus vals acc < acc + hi * INR (List.length vals).
Proof.
  intros Hall Hne. destruct Hall as [| x vals Hx Hall]; [congruence |].
  intros acc. cbn [fold_left List.length]. rewrite S_INR.
  assert (Hle : Forall (fun y => y <= hi) vals).
  { eapply Forall_impl; [| exact Hall]. intros; simpl in *; lra. }
  pose proof (fold_sum_upper hi vals Hle (acc + x)). lra.
Qed.

Lemma fold_sum_lower_strict (lo : R) (vals : list R) :
  Forall (fun x => lo < x) vals -> vals <> [] ->
  forall acc, acc + lo * INR (List.length vals) < fold_left Rplus vals acc.
Proof.
  intros Hall Hne. destruct Hall as [| x vals Hx Hall]; [congruence |].
  intros acc. cbn [fold_left List.length]. rewrite S_INR.
  assert (Hle : Forall (fun y => lo <= y) vals).
  { eapply Forall_impl; [| exact Hall]. intros; simpl in *; lra. }
  pose proof (fold_sum_lower lo vals Hle (acc + x)). lra.
Qed.

Lemma mean_lower (lo : R) (vals : list R) :
  vals <> [] -> Forall (fun x => lo <= x) vals ->
  lo <= fold_left Rplus vals 0 / INR (List.length vals).
Proof.
  intros Hne Hall.
  assert (Hn : 0 < INR (List.length vals))
    by (apply lt_0_INR; destruct vals; [congruence | simpl; lia]).
  pose proof (fold_sum_lower lo vals Hall 0) as Hs.
  pose proof (Rinv_0_lt_compat _ Hn) as Hi.
  replace lo with (lo * INR (List.length vals) * / INR (List.length vals))
    by (field; lra).
  unfold Rdiv. apply Rmult_le_compat_r; lra.
Qed.

Lemma mean_upper (hi : R) (vals : list R) :
  vals <> [] -> Forall (fun x => x <= hi) vals ->
  fold_left Rplus vals 0 / INR (List.length vals) <= hi.
Proof.
  intros Hne Hall.
  assert (Hn : 0 < INR (List.length vals))
    by (apply lt_0_INR; destruct vals; [congruence | simpl; lia]).
  pose proof (fold_sum_upper hi vals Hall 0) as Hs.
  pose proof (Rinv_0_lt_compat _ Hn) as Hi.
  replace hi with (hi * INR (List.length vals) * / INR (List.length vals))
    by (field; lra).
  unfold Rdiv. apply Rmult_le_compat_r; lra.
Qed.

Lemma mean_upper_strict (hi : R) (vals : list R) :
  vals <> [] -> Forall (fun x => x < hi) vals ->
  fold_left Rplus vals 0 / INR (List.length vals) < hi.
Proof.
  intros Hne Hall.
  assert (Hn : 0 < INR (List.length vals))
    by (apply lt_0_INR; destruct vals; [congruence | simpl; lia]).
  pose proof (fold_sum_upper_strict hi vals Hall Hne 0) as Hs.
  pose proof (Rinv_0_lt_compat _ Hn) as Hi.
  replace hi with (hi * INR (List.length vals) * / INR (List.length vals))
    by (field; lra).
  unfold Rdiv. apply Rmult_lt_compat_r; lra.
Qed.

Lemma mean_lower_strict (lo : R) (vals : list R) :
  vals <> [] -> Forall (fun x => lo < x) vals ->
  lo < fold_left Rplus vals 0 / INR (List.length vals).
Proof.
  intros Hne Hall.
  assert (Hn : 0 < INR (List.length vals))
    by (apply lt_0_INR; destruct vals; [congruence | simpl; lia]).
  pose proof (fold_sum_lower_strict lo vals Hall Hne 0) as Hs.
  pose proof (Rinv_0_lt_compat _ Hn) as Hi.
  replace lo with (lo * INR (List.length vals) * / INR (List.length vals))
    by (field; lra).
  unfold Rdiv. apply Rmult_lt_compat_r; lra.
Qed.

Lemma level_mean_numbers (marks entries : pydict) (level : string) :
  dict_get marks level = Some (PyDict entries) ->
  numbers_of entries <> [] ->
  level_mean marks level
  = fold_left Rplus (numbers_of entries) 0
    / INR (List.length (numbers_of entries)).
Proof.
  intros Hget Hne. unfold level_mean, mean_of_dict. rewrite Hget.
  destruct entries as [| entry entries]; [now destruct Hne |].
  destruct (numbers_of (entry :: entries)); [now destruct Hne | reflexivity].
Qed.

Lemma strengths_get (marks : pydict) (level key : string) :
  In (level, key) [("tenth", "10th"); ("twelfth", "12th")]%string ->
  dict_get (compute_academic_strengths marks) key
  = Some (classify (level_mean marks level)).
Proof.
  intros [E | [E | []]]; inversion E; subst; reflexivity.
Qed.

(** X22. The strength of a level follows the band of its numeric marks
    (values that are not numbers are left out of the mean): when the level
    has a numeric mark and all its numeric marks lie in one band, the level
    is reported with that band's label: from 85 to 100 "Excellent", from
    70 to 84 "Good", from 50 to 69 "Average", above 0 and up to 49
    "Needs Improvement". *)
Theorem academic_strength_follows_band
  (marks entries : pydict) (level key : string) :
  In (level, key) [("tenth", "10th"); ("twelfth", "12th")]%string ->
  dict_get marks level = Some (PyDict entries) ->
  numbers_of entries <> [] ->
  (Forall (fun x => 85 <= x <= 100) (numbers_of entries) ->
   dict_get (compute_academic_strengths marks) key
   = Some "Excellent"%string)
  /\ (Forall (fun x => 70 <= x <= 84) (numbers_of entries) ->
      dict_get (compute_academic_strengths marks) key = Some "Good"%string)
  /\ (Forall (fun x => 50 <= x <= 69) (numbers_of entries) ->
      dict_get (compute_academic_strengths marks) key
      = Some "Average"%string)
  /\ (Forall (fun x => 0 < x <= 49) (numbers_of entries) ->
      dict_get (compute_academic_strengths marks) key
      = Some "Needs Improvement"%string).
Proof.
  intros Hk Hget Hne. rewrite (strengths_get marks level key Hk).
  rewrite (level_mean_numbers marks entries level Hget Hne).
  set (vals := numbers_of entries) in *.
  set (m := fold_left Rplus vals 0 / INR (List.length vals)).
  assert (split_band : forall lo hi,
             Forall (fun x => lo <= x <= hi) vals -> lo <= m <= hi).
  { intros lo hi Hall. split.
    - apply mean_lower; [assumption |].
      eapply Forall_impl; [| exact Hall]. intros; simpl in *; lra.
    - apply mean_upper; [assumption |].
      eapply Forall_impl; [| exact Hall]. intros; simpl in *; lra. }
  unfold classify. repeat split; intros Hall.
  - pose proof (split_band 85 100 Hall).
    destruct (Rle_dec 85 m); [reflexivity | lra].
  - pose proof (split_band 70 84 Hall).
    destruct (Rle_dec 85 m); [lra |].
    destruct (Rle_dec 70 m); [reflexivity | lra].
  - pose proof (split_band 50 69 Hall).
    destruct (Rle_dec 85 m); [lra |]. destruct (Rle_dec 70 m); [lra |].
    destruct (Rle_dec 50 m); [reflexivity | lra].
  - assert (Hm : 0 < m <= 49).
    { split.
      - apply mean_lower_strict; [assumption |].
        eapply Forall_impl; [| exact Hall]. intros; simpl in *; lra.
      - apply mean_upper; [assumption |].
        eapply Forall_impl; [| exact Hall]. intros; simpl in *; lra. }
    destruct (Rle_dec 85 m); [lra |]. destruct (Rle_dec 70 m); [lra |].
    destruct (Rle_dec 50 m); [lra |].
    destruct (Rlt_dec 0 m); [reflexivity | lra].
Qed.

Lemma academic_strength_follows_band_witness :
  dict_get (compute_academic_strengths
              [("tenth"%string,
                PyDict [("math"%string, PyInt 72);
                        ("art"%string, PyStr "A");
                        ("science"%string, PyFloat 83.5)])])
           "10th"
  = Some "Good"%string.
Proof.
  refine (proj1 (proj2 (academic_strength_follows_band
                          [("tenth"%string,
                            PyDict [("math"%string, PyInt 72);
                                    ("art"%string, PyStr "A");
                                    ("science"%string, PyFloat 83.5)])]
                          [("math"%string, PyInt 72);
                           ("art"%string, PyStr "A");
                           ("science"%string, PyFloat 83.5)]
                          "tenth" "10th" _ eq_refl _)) _).
  - simpl. tauto.
  - discriminate.
  - simpl. repeat (apply Forall_cons; [lra |]). apply Forall_nil.
Defined.

(** X23. A level is reported "No Data" when it is missing from the marks,
    is not a mapping, has no numeric mark, or has numeric marks none of
    which is above 0 (marks from -100 to 0): in particular a level whose
    numeric marks are all 0 reads "No Data". *)
Theorem academic_strength_no_data (marks : pydict) (level key : string) :
  In (level, key) [("tenth", "10th"); ("twelfth", "12th")]%string ->
  match dict_get marks level with
  | Some (PyDict entries) =>
      Forall (fun x => -100 <= x <= 0) (numbers_of entries)
  | _ => True
  end ->
  dict_get (compute_academic_strengths marks) key = Some "No Data"%string.
Proof.
  intros Hk H. rewrite (strengths_get marks level key Hk). f_equal.
  assert (Hm : level_mean marks level <= 0).
  { unfold level_mean, mean_of_dict.
    destruct (dict_get marks level) as [[| | | | | | entries] |]; try lra.
    destruct entries as [| entry entries]; [lra |].
    destruct (numbers_of (entry :: entries)) as [| x vals] eqn:E; [lra |].
    apply mean_upper; [discriminate |].
    eapply Forall_impl; [| exact H]. intros; simpl in *; lra. }
  unfold classify.
  destruct (Rle_dec 85 _); [lra |]. destruct (Rle_dec 70 _); [lra |].
  destruct (Rle_dec 50 _); [lra |].
  destruct (Rlt_dec 0 _); [lra | reflexivity].
Qed.

Lemma academic_strength_no_data_witness :
  dict_get (compute_academic_strengths
              [("tenth"%string,
                PyDict [("math"%string, PyInt 0);
                        ("science"%string, PyStr "90")])])
           "10th"
  = Some "No Data"%string
  /\ dict_get (compute_academic_strengths
                 [("tenth"%string,
                   PyDict [("math"%string, PyInt 0);
                           ("science"%string, PyStr "90")])])
              "12th"
     = Some "No Data"%string.
Proof.
  split.
  - apply (academic_strength_no_data _ "tenth" "10th");
      [simpl; tauto |].
    simpl. apply Forall_cons; [lra | apply Forall_nil].
  - apply (academic_strength_no_data _ "twelfth" "12th");
      [simpl; tauto | exact I].
Defined.

End Academic.

(* ===================================================================== *)
(** * app.py: the marks payload *)
(* ===================================================================== *)

Module Payload.

Import Py PyFacts App.

(** X24. [normalize_marks_payload] only ever files marks under "tenth" and
    "twelfth", and normalizing an already normalized payload changes
    nothing. *)
Theorem normalize_marks_payload_idempotent (payload : pydict) :
  normalize_marks_payload (normalize_marks_payload payload)
  = normalize_marks_payload payload
  /\ forall k, In k (map fst (normalize_marks_payload payload)) ->
               k = "tenth"%string \/ k = "twelfth"%string.
Proof.
  unfold normalize_marks_payload at 2 3 4.
  destruct payload as [| e rest]; [split; [reflexivity | intros k []] |].
  cbv zeta.
  match goal with
  | |- context [Model.has_key ?x "tenth"] => generalize x
  end.
  intros pl.
  destruct (Model.has_key pl "tenth");
    [| destruct (Model.has_key pl "10th");
       [| destruct (existsb (Model.has_key pl) tenth_keys)]];
    (destruct (Model.has_key pl "twelfth");
     [| destruct (Model.has_key pl "12th");
        [| destruct (existsb (Model.has_key pl) twelfth_keys)]]);
    (split; [reflexivity
            | simpl; intros k Hk; intuition (subst; auto)]).
Qed.

Lemma normalize_marks_payload_idempotent_witness :
  normalize_marks_payload
    (normalize_marks_payload
       [("marks"%string,
         PyDict [("10th"%string, PyDict [("math"%string, PyInt 70)]);
                 ("physics"%string, PyInt 80)])])
  = normalize_marks_payload
      [("marks"%string,
        PyDict [("10th"%string, PyDict [("math"%string, PyInt 70)]);
                ("physics"%string, PyInt 80)])].
Proof.
  exact (proj1 (normalize_marks_payload_idempotent
                  [("marks"%string,
                    PyDict [("10th"%string,
                             PyDict [("math"%string, PyInt 70)]);
                            ("physics"%string, PyInt 80)])])).
Defined.

Lemma pick_keys_get (payload : pydict) (k : string) :
  forall keys acc,
    dict_get (pick_keys payload keys acc) k
    = if existsb (String.eqb k) keys && Model.has_key payload k
      then dict_get payload k
      else dict_get acc k.
Proof.
  induction keys as [| k0 keys IH]; intros acc; [reflexivity |].
  cbn [pick_keys existsb].
  destruct (String.eqb k k0) eqn:E.
  - apply String.eqb_eq in E. subst k0. cbn [orb].
    destruct (Model.has_key payload k) eqn:Hk.
    + rewrite IH, Marks.dict_get_set, String.eqb_refl.
      unfold get_or_none. unfold Model.has_key in Hk.
      destruct (dict_get payload k); [| discriminate].
      now destruct (existsb (String.eqb k) keys).
    + rewrite IH. now rewrite andb_false_r.
  - cbn [orb]. destruct (Model.has_key payload k0).
    + rewrite IH, Marks.dict_get_set.
      rewrite String.eqb_sym in E. now rewrite E.
    + apply IH.
Qed.

Lemma has_key_get {V : Type} (d : list (string * V)) (k : string) :
  Model.has_key d k = false -> dict_get d k = None.
Proof.
  unfold Model.has_key. now destruct (dict_get d k).
Qed.

(** X25. A flat payload (no "marks" key and no level key) is split by
    subject name: the tenth level gets exactly the payload's entries for
    math, science, social and english, the twelfth level exactly those for
    math, physics, chemistry and biology; a "math" mark is therefore filed
    under both levels. *)
Theorem flat_payload_is_split_by_subject (payload : pydict) :
  dict_get payload "marks" = None ->
  Model.has_key payload "tenth" = false ->
  Model.has_key payload "10th" = false ->
  Model.has_key payload "twelfth" = false ->
  Model.has_key payload "12th" = false ->
  (existsb (Model.has_key payload) tenth_keys = true ->
   exists d10,
     dict_get (normalize_marks_payload payload) "tenth" = Some (PyDict d10)
     /\ forall k, dict_get d10 k
                  = if existsb (String.eqb k) tenth_keys
                    then dict_get payload k else None)
  /\ (existsb (Model.has_key payload) twelfth_keys = true ->
      exists d12,
        dict_get (normalize_marks_payload payload) "twelfth"
        = Some (PyDict d12)
        /\ forall k, dict_get d12 k
                     = if existsb (String.eqb k) twelfth_keys
                       then dict_get payload k else None).
Proof.
  intros Hm H10 H10' H12 H12'.
  assert (Hpick : forall keys k,
             dict_get (pick_keys payload keys []) k
             = if existsb (String.eqb k) keys
               then dict_get payload k else None).
  { intros keys k. rewrite pick_keys_get.
    destruct (existsb (String.eqb k) keys); [| reflexivity].
    destruct (Model.has_key payload k) eqn:Hk; [reflexivity |].
    cbn [andb dict_get]. now rewrite (has_key_get _ _ Hk). }
  unfold normalize_marks_payload.
  destruct payload as [| e rest].
  - split; intros Hex; discriminate Hex.
  - rewrite Hm, H10, H10', H12, H12'. split; intros Hex.
    + rewrite Hex. exists (pick_keys (e :: rest) tenth_keys []).
      split; [| apply Hpick].
      destruct (existsb (Model.has_key (e :: rest)) twelfth_keys);
        reflexivity.
    + rewrite Hex. exists (pick_keys (e :: rest) twelfth_keys []).
      split; [| apply Hpick].
      destruct (existsb (Model.has_key (e :: rest)) tenth_keys);
        reflexivity.
Qed.

Lemma flat_payload_is_split_by_subject_witness :
  exists d10 d12,
    dict_get (normalize_marks_payload
                [("math"%string, PyInt 90); ("physics"%string, PyInt 80)])
             "tenth" = Some (PyDict d10)
    /\ dict_get d10 "math" = Some (PyInt 90)
    /\ dict_get d10 "physics" = None
    /\ dict_get (normalize_marks_payload
                   [("math"%string, PyInt 90); ("physics"%string, PyInt 80)])
                "twelfth" = Some (PyDict d12)
    /\ dict_get d12 "math" = Some (PyInt 90)
    /\ dict_get d12 "physics" = Some (PyInt 80).
Proof.
  destruct (flat_payload_is_split_by_subject
              [("math"%string, PyInt 90); ("physics"%string, PyInt 80)]
              eq_refl eq_refl eq_refl eq_refl eq_refl) as [H10 H12].
  destruct (H10 eq_refl) as (d10 & G10 & K10).
  destruct (H12 eq_refl) as (d12 & G12 & K12).
  exists d10, d12.
  repeat split; try assumption;
    first [rewrite K10 | rewrite K12]; reflexivity.
Defined.

End Payload.

(* ===================================================================== *)
(** * Loading the corpus *)
(* ===================================================================== *)

Module LoaderFacts.

Import Py Loader Notions.

Lemma has_key_set {V : Type} (d : list (string * V)) (k k' : string) (v : V) :
  Model.has_key (dict_set d k v) k'
  = (String.eqb k k' || Model.has_key d k')%bool.
Proof.
  unfold Model.has_key. rewrite Marks.dict_get_set.
  destruct (String.eqb k k'); [reflexivity |].
  now destruct (dict_get d k').
Qed.

Lemma setdefault_has (d : pydict) (k : string) (v : pyval) :
  Model.has_key (setdefault d k v) k = true.
Proof.
  unfold setdefault. destruct (Model.has_key d k) eqn:E; [exact E |].
  now rewrite has_key_set, String.eqb_refl.
Qed.

Lemma setdefault_keeps_key (d : pydict) (k k' : string) (v : pyval) :
  Model.has_key d k' = true -> Model.has_key (setdefault d k v) k' = true.
Proof.
  intros H. unfold setdefault. destruct (Model.has_key d k); [exact H |].
  rewrite has_key_set, H. apply orb_true_r.
Qed.

Lemma setdefault_keeps_value (d : pydict) (k k' : string) (v : pyval) :
  Model.has_key d k' = true ->
  dict_get (setdefault d k v) k' = dict_get d k'.
Proof.
  intros H. unfold setdefault. destruct (Model.has_key d k) eqn:E;
    [reflexivity |].
  rewrite Marks.dict_get_set. destruct (String.eqb k k') eqn:Ek;
    [| reflexivity].
  apply String.eqb_eq in Ek. subst k'. rewrite H in E. discriminate.
Qed.

Lemma setdefault_absent (d : pydict) (k : string) (v : pyval) :
  Model.has_key d k = false -> dict_get (setdefault d k v) k = Some v.
Proof.
  intros H. unfold setdefault. rewrite H.
  now rewrite Marks.dict_get_set, String.eqb_refl.
Qed.

Lemma fill_fields_has (i : nat) (c : pydict) :
  has_career_fields (fill_fields i c).
Proof.
  unfold has_career_fields, career_fields, fill_fields.
  repeat (apply Forall_cons;
          [repeat first [apply setdefault_has | apply setdefault_keeps_key]
          |]).
  apply Forall_nil.
Qed.

Lemma fill_fields_keeps_value (i : nat) (c : pydict) (k : string) :
  Model.has_key c k = true -> dict_get (fill_fields i c) k = dict_get c k.
Proof.
  intros H. unfold fill_fields.
  repeat (rewrite setdefault_keeps_value;
          [| repeat apply setdefault_keeps_key; exact H]).
  reflexivity.
Qed.

Section Load.

Variable vec : Type.
Variable encode : string -> vec.
Variable py_repr : pyval -> string.
Variable CAREERS_JSON : string.
Variable path_exists : string -> bool.
Variable json_load : string -> option pyval.

Lemma load_entries_spec :
  forall cs i ds texts,
    load_entries py_repr i cs = Loaded (ds, texts) ->
    List.length ds = List.length cs
    /\ texts = map (career_text py_repr) ds
    /\ Forall has_career_fields ds
    /\ forall j c, nth_error cs j = Some c ->
         exists d, nth_error ds j = Some d
                   /\ ensure_fields (i + j) c = Loaded d.
Proof.
  induction cs as [| c cs IH]; intros i ds texts H; cbn [load_entries] in H.
  - inversion H; subst. repeat split; try constructor.
    intros j c Hj. destruct j; discriminate.
  - destruct (ensure_fields i c) as [d | e] eqn:Ed; [| discriminate].
    destruct (load_entries py_repr (S i) cs) as [[ds' ts'] | e] eqn:El;
      [| discriminate].
    inversion H; subst; clear H.
    destruct (IH _ _ _ El) as (Hlen & Htexts & Hall & Hnth).
    split; [simpl; now rewrite Hlen |].
    split; [simpl; now rewrite Htexts |].
    split.
    + constructor; [| exact Hall].
      destruct c; try discriminate; inversion Ed; apply fill_fields_has.
    + intros j c' Hj. destruct j as [| j].
      * inversion Hj; subst. exists d. rewrite Nat.add_0_r. now split.
      * destruct (Hnth j c' Hj) as (d' & Hd' & He').
        exists d'. split; [exact Hd' |].
        now replace (i + S j)%nat with (S i + j)%nat by lia.
Qed.

Lemma load_entries_total :
  forall cs i,
    Forall is_entry cs ->
    exists ds texts, load_entries py_repr i cs = Loaded (ds, texts).
Proof.
  induction cs as [| c cs IH]; intros i Hall; cbn [load_entries].
  - eauto.
  - inversion Hall as [| ? ? Hc Hcs]; subst.
    destruct (IH (S i) Hcs) as (ds & ts & E). rewrite E.
    destruct c; try contradiction; simpl; eauto.
Qed.

(** X26. Whenever the corpus loads, it is well formed: every loaded career
    carries the five fields [career_id], [title], [description],
    [skills_required] and [path], and there is one text and one embedding
    per career, the embedding being that of the career's text. *)
Theorem loaded_corpus_is_well_formed (careers_raw : pyval) (l : loaded vec) :
  load_from_raw vec encode py_repr careers_raw = Loaded l ->
  Forall has_career_fields (loaded_careers vec l)
  /\ loaded_texts vec l = map (career_text py_repr) (loaded_careers vec l)
  /\ loaded_embeddings vec l = map encode (loaded_texts vec l)
  /\ List.length (loaded_texts vec l) = List.length (loaded_careers vec l)
  /\ List.length (loaded_embeddings vec l)
     = List.length (loaded_careers vec l).
Proof.
  unfold load_from_raw.
  destruct (normalize_shape py_repr careers_raw) as [cl | e];
    [| discriminate].
  destruct (iterate cl) as [cs | e]; [| discriminate].
  destruct (load_entries py_repr 0 cs) as [[ds ts] | e] eqn:E;
    [| discriminate].
  intros H. inversion H; subst; clear H. cbn.
  destruct (load_entries_spec _ _ _ _ E) as (Hlen & Hts & Hall & _).
  subst ts. repeat split; try assumption; try reflexivity.
  - apply length_map.
  - now rewrite !length_map.
Qed.

(** X27. A corpus given as a list of plain strings and mappings loads
    entry by entry: it gives as many careers as the list has elements, a
    field that a mapping already has is never overwritten by a default,
    and a plain string at position [i] becomes the career titled by it
    with the identifier [career_i]. *)
Theorem list_corpus_loads_entry_by_entry (cs : list pyval) :
  Forall is_entry cs ->
  exists l,
    load_from_raw vec encode py_repr (PyList cs) = Loaded l
    /\ List.length (loaded_careers vec l) = List.length cs
    /\ (forall i d,
          nth_error cs i = Some (PyDict d) ->
          exists c, nth_error (loaded_careers vec l) i = Some c
                    /\ forall k, Model.has_key d k = true ->
                                 dict_get c k = dict_get d k)
    /\ (forall i s,
          nth_error cs i = Some (PyStr s) ->
          exists c, nth_error (loaded_careers vec l) i = Some c
                    /\ dict_get c "title" = Some (PyStr s)
                    /\ dict_get c "career_id" = Some (PyStr (career_n i))).
Proof.
  intros Hall.
  destruct (load_entries_total cs 0 Hall) as (ds & ts & E).
  destruct (load_entries_spec _ _ _ _ E) as (Hlen & _ & _ & Hnth).
  unfold load_from_raw. cbn [normalize_shape iterate]. rewrite E.
  eexists. split; [reflexivity |]. cbn [loaded_careers].
  split; [exact Hlen |]. split.
  - intros i d Hi. destruct (Hnth i _ Hi) as (c & Hc & He).
    exists c. split; [exact Hc |]. intros k Hk.
    cbn [ensure_fields] in He. inversion He; subst.
    now apply fill_fields_keeps_value.
  - intros i s Hi. destruct (Hnth i _ Hi) as (c & Hc & He).
    exists c. split; [exact Hc |].
    cbn [ensure_fields Nat.add] in He. inversion He; subst.
    split; rewrite fill_fields_keeps_value; reflexivity.
Qed.

Lemma concat_two (sep x y : string) (rest : list string) :
  String.concat sep (x :: y :: rest)
  = (x ++ sep ++ String.concat sep (y :: rest))%string.
Proof. reflexivity. Qed.

Lemma concat_head (sep x : string) (rest : list string) :
  exists tail, String.concat sep (x :: rest) = (x ++ tail)%string.
Proof.
  destruct rest as [| y rest].
  - exists ""%string. simpl. induction x as [| a x IH]; simpl;
      [reflexivity | now rewrite <- IH].
  - exists (sep ++ String.concat sep (y :: rest))%string. reflexivity.
Qed.

(** X28. The text of a career that has a title starts with the title
    twice: with [t] the stripped title, not empty, the text is
    [t . t] followed by the rest (description, skills, path steps). *)
Theorem career_text_repeats_title (c : pydict) :
  let t := strip (py_str py_repr (get_default c "title" (PyStr ""))) in
  t <> ""%string ->
  exists rest,
    career_text py_repr c = (t ++ " . " ++ t ++ rest)%string.
Proof.
  intros t Ht. unfold career_text. fold t.
  destruct (String.eqb t "") eqn:E;
    [apply String.eqb_eq in E; contradiction |].
  unfold join. cbn [app]. rewrite concat_two.
  destruct (concat_head " . " t
              ((if String.eqb
                     (strip (py_str py_repr
                               (get_default c "description" (PyStr ""))))
                     ""
                then []
                else [strip (py_str py_repr
                               (get_default c "description" (PyStr "")))])
               ++ strs_of py_repr (get_or_none c "skills_required")
               ++ strs_of py_repr (get_or_none c "path")))
    as [tail Htail].
  exists tail. now rewrite Htail.
Qed.

Lemma load_entries_failure :
  forall cs i e, load_entries py_repr i cs = Failed e -> e = AttributeError.
Proof.
  induction cs as [| c cs IH]; intros i e H; cbn [load_entries] in H;
    [discriminate |].
  destruct (ensure_fields i c) as [d | e'] eqn:Ed.
  - destruct (load_entries py_repr (S i) cs) as [[ds ts] | e'] eqn:El;
      [discriminate |].
    inversion H; subst. now apply (IH (S i)).
  - inversion H; subst. destruct c; inversion Ed; reflexivity.
Qed.

Lemma load_from_raw_failure (careers_raw : pyval) (e : load_exn) :
  load_from_raw vec encode py_repr careers_raw = Failed e ->
  e <> FileNotFoundError /\ e <> JSONDecodeError.
Proof.
  unfold load_from_raw.
  destruct (normalize_shape py_repr careers_raw) as [cl | e1] eqn:En.
  - destruct (iterate cl) as [cs | e2] eqn:Ei.
    + destruct (load_entries py_repr 0 cs) as [[ds ts] | e3] eqn:El;
        [discriminate |].
      intros H. inversion H; subst.
      rewrite (load_entries_failure _ _ _ El). split; discriminate.
    + intros H. inversion H; subst.
      destruct cl as [| b | z | r | s | l | d]; cbn [iterate] in Ei;
        try (inversion Ei; split; discriminate).
      * destruct s; inversion Ei; split; discriminate.
      * destruct d; inversion Ei; split; discriminate.
  - intros H. inversion H; subst.
    destruct careers_raw as [| b | z | r | s | l | d];
      cbn [normalize_shape] in En;
      try (inversion En; split; discriminate).
    destruct (dict_get d "careers"); discriminate.
Qed.

(** X29. Loading fails with [FileNotFoundError] exactly when neither the
    configured corpus file nor the fallback file exists; whatever else goes
    wrong is reported as another error. *)
Theorem corpus_file_missing_iff :
  fst (_load_careers_and_embeddings vec encode py_repr CAREERS_JSON
         path_exists json_load None) = Failed FileNotFoundError
  <-> (path_exists CAREERS_JSON = false
       /\ path_exists "model/careers_india.json" = false).
Proof.
  unfold _load_careers_and_embeddings, choose_path.
  assert (Hfrom : forall chosen_path,
             fst (match json_load chosen_path with
                  | None => (Failed JSONDecodeError, None)
                  | Some careers_raw =>
                      match load_from_raw vec encode py_repr careers_raw with
                      | Failed e => (Failed e, None)
                      | Loaded l => (Loaded l, Some l)
                      end
                  end) <> Failed FileNotFoundError).
  { intros chosen_path. destruct (json_load chosen_path) as [raw |];
      [| discriminate].
    destruct (load_from_raw vec encode py_repr raw) as [l | e] eqn:E;
      [discriminate |].
    cbn [fst]. intros H. inversion H; subst.
    now destruct (load_from_raw_failure _ _ E). }
  destruct (path_exists CAREERS_JSON);
    [| destruct (path_exists "model/careers_india.json")].
  - split; [intros H; now apply Hfrom in H | intros [H _]; discriminate].
  - split; [intros H; now apply Hfrom in H | intros [_ H]; discriminate].
  - split; [now split | reflexivity].
Qed.

(** X30. The cache makes the corpus load once: a successful load fills the
    cache with what it returns, and from then on every call returns that
    same corpus without looking at any file, whatever the files have
    become; a failed load leaves the cache empty, so the next call tries
    again. *)
Theorem corpus_is_loaded_once
  (result : load_result (loaded vec)) (cache' : option (loaded vec)) :
  _load_careers_and_embeddings vec encode py_repr CAREERS_JSON
    path_exists json_load None = (result, cache') ->
  match result with
  | Loaded l =>
      cache' = Some l
      /\ forall CAREERS_JSON' path_exists' json_load',
           _load_careers_and_embeddings vec encode py_repr CAREERS_JSON'
             path_exists' json_load' cache' = (Loaded l, cache')
  | Failed _ => cache' = None
  end.
Proof.
  unfold _load_careers_and_embeddings.
  destruct (choose_path CAREERS_JSON path_exists) as [chosen | e];
    [| intros H; inversion H; reflexivity].
  destruct (json_load chosen) as [raw |];
    [| intros H; inversion H; reflexivity].
  destruct (load_from_raw vec encode py_repr raw) as [l | e];
    intros H; inversion H; subst; [| reflexivity].
  split; reflexivity.
Qed.

End Load.

(** A toy installation of the loader: the text is its own embedding, the
    corpus file holds a string, a mapping and a mapping with an alias. *)
Lemma demo_corpus_entries :
  Forall is_entry
    [ PyStr "Nurse";
      PyDict [("title"%string, PyStr "Chef");
              ("skills"%string, PyList [PyStr "cooking"])] ].
Proof. repeat constructor. Qed.

Lemma loaded_corpus_is_well_formed_witness :
  exists l,
    load_from_raw string (fun s => s) (fun _ => ""%string)
      (PyList [ PyStr "Nurse";
                PyDict [("title"%string, PyStr "Chef");
                        ("skills"%string, PyList [PyStr "cooking"])] ])
    = Loaded l
    /\ Forall has_career_fields (loaded_careers string l)
    /\ List.length (loaded_texts string l) = 2%nat.
Proof.
  eexists. split; [reflexivity |].
  match goal with
  | |- Forall _ (loaded_careers _ ?l) /\ _ =>
      pose proof (loaded_corpus_is_well_formed string (fun s => s)
                    (fun _ => ""%string)
                    (PyList [ PyStr "Nurse";
                              PyDict [("title"%string, PyStr "Chef");
                                      ("skills"%string,
                                       PyList [PyStr "cooking"])] ])
                    l eq_refl)
        as (Hf & _ & _ & Hl & _)
  end.
  split; [exact Hf | exact Hl].
Defined.

Lemma list_corpus_loads_entry_by_entry_witness :
  exists l,
    load_from_raw string (fun s => s) (fun _ => ""%string)
      (PyList [ PyStr "Nurse";
                PyDict [("title"%string, PyStr "Chef");
                        ("skills"%string, PyList [PyStr "cooking"])] ])
    = Loaded l
    /\ List.length (loaded_careers string l) = 2%nat.
Proof.
  destruct (list_corpus_loads_entry_by_entry string (fun s => s)
              (fun _ => ""%string) _ demo_corpus_entries)
    as (l & Hl & Hlen & _).
  exists l. split; [exact Hl | exact Hlen].
Defined.

Lemma career_text_repeats_title_witness :
  exists rest,
    career_text (fun _ => ""%string)
      [("title"%string, PyStr " Chef "); ("description"%string, PyStr "Cooks")]
    = ("Chef" ++ " . " ++ "Chef" ++ rest)%string.
Proof.
  apply (career_text_repeats_title (fun _ => ""%string)
           [("title"%string, PyStr " Chef ");
            ("description"%string, PyStr "Cooks")]).
  discriminate.
Defined.

Lemma corpus_file_missing_iff_witness :
  fst (_load_careers_and_embeddings string (fun s => s) (fun _ => ""%string)
         "corpus.json" (fun _ => false)
         (fun _ => Some (PyList [PyStr "Nurse"])) None)
  = Failed FileNotFoundError.
Proof.
  apply (proj2 (corpus_file_missing_iff string (fun s => s)
                  (fun _ => ""%string) "corpus.json" (fun _ => false)
                  (fun _ => Some (PyList [PyStr "Nurse"])))).
  split; reflexivity.
Defined.

Lemma corpus_is_loaded_once_witness :
  exists l,
    _load_careers_and_embeddings string (fun s => s) (fun _ => ""%string)
      "corpus.json" (fun p => String.eqb p "corpus.json")
      (fun _ => Some (PyList [PyStr "Nurse"])) None
    = (Loaded l, Some l)
    /\ _load_careers_and_embeddings string (fun s => s) (fun _ => ""%string)
         "corpus.json" (fun _ => false) (fun _ => None) (Some l)
       = (Loaded l, Some l).
Proof.
  eexists. split; [reflexivity |].
  match goal with
  | |- _ = (Loaded ?l, _) =>
      exact (proj2 (corpus_is_loaded_once string (fun s => s)
                      (fun _ => ""%string) "corpus.json"
                      (fun p => String.eqb p "corpus.json")
                      (fun _ => Some (PyList [PyStr "Nurse"]))
                      (Loaded l) (Some l) eq_refl)
                   "corpus.json"%string (fun _ => false) (fun _ => None))
  end.
Defined.

End LoaderFacts.
